(** * PrintBridge: the ESC/POS command builder and its transports

    A shallow embedding of [pkg/printer] (the byte-command table and the
    fluent [Printer] builder) and of [pkg/adapter] (the [Adapter] interface
    and its console, network, USB, serial and Windows-spooler
    implementations), followed by the properties of the specification that
    concern them.

    Go values are rendered as follows.  An [int] is a [Z] (the builder only
    compares, adds small constants and truncates, so the 64-bit range plays
    no role); a [byte] is a [Z] in [0,256) and the conversion [byte(x)] is
    reduction modulo 256; a [string] is a Rocq [string], whose characters
    are exactly Go's bytes; a [[]byte] is a [list byte]; a function that
    returns [error] returns [option error], [None] being [nil]. *)

From Stdlib Require Import ZArith List String Ascii Bool Lia DecimalString.
Import ListNotations.
Open Scope string_scope.
Open Scope Z_scope.

(** ** Go primitives *)

Module Go.

Definition byte := Z.

(** The conversion [byte(x)] of an [int]: the low eight bits. *)
Definition to_byte (x : Z) : byte := x mod 256.

(** Go's [/] and [%] on [int] truncate towards zero. *)
Definition div (x y : Z) : Z := Z.quot x y.
Definition rem (x y : Z) : Z := Z.rem x y.

Definition byte_of_ascii (c : ascii) : byte := Z.of_N (N_of_ascii c).
Definition ascii_of_byte (b : byte) : ascii := ascii_of_N (Z.to_N b).

(** [[]byte(s)] and [string(b)]. *)
Definition bytes (s : string) : list byte :=
  List.map byte_of_ascii (list_ascii_of_string s).
Definition string_of_bytes (b : list byte) : string :=
  string_of_list_ascii (List.map ascii_of_byte b).

Definition len {A : Type} (l : list A) : Z := Z.of_nat (List.length l).

(** A [switch] case with several string labels. *)
Definition one_of (s : string) (labels : list string) : bool :=
  existsb (String.eqb s) labels.

(** [for i := 0; i < n; i++ { body }] on a state that the body updates. *)
Definition times {A : Type} (n : Z) (body : A -> A) (x : A) : A :=
  Nat.iter (Z.to_nat n) body x.

(** Errors.  [fmt.Errorf] is kept symbolic: the format string and its
    arguments, among which another error for [%v] and [%w]. *)
Inductive error : Type :=
| Errorf (format : string) (args : list value)
with value : Type :=
| VStr (s : string)
| VInt (z : Z)
| VErr (e : error).

(** The message of an error starts with its format string. *)
Definition format_of (e : error) : string :=
  match e with Errorf f _ => f end.

(** The error a panicking index expression would raise.  The embedding does
    not unwind the stack: a panic is a distinguished error value. *)
Definition index_out_of_range : error :=
  Errorf "panic: runtime error: index out of range [0] with length 0" [].

(** Dereferencing a nil pointer, rendered the same way. *)
Definition nil_dereference : error :=
  Errorf "panic: runtime error: invalid memory address or nil pointer dereference" [].

(** [%d] of a port number. *)
Definition itoa (z : Z) : string := NilZero.string_of_int (Z.to_int z).

(** Methods run in a state monad over the receiver and the world. *)
Definition M (S A : Type) : Type := S -> A * S.

Definition ret {S A : Type} (x : A) : M S A := fun s => (x, s).

Definition bind {S A B : Type} (c : M S A) (k : A -> M S B) : M S B :=
  fun s => let (x, s') := c s in k x s'.

(** The receiver [self] is the first component of the state, the world the
    second. *)
Definition self {T W : Type} : M (T * W) T := fun s => (fst s, s).

Definition update {T W : Type} (f : T -> T) : M (T * W) unit :=
  fun s => (tt, (f (fst s), snd s)).

(** A call into the world: a library function or a system call. *)
Definition call {T W A : Type} (f : W -> A * W) : M (T * W) A :=
  fun s => let (x, w) := f (snd s) in (x, (fst s, w)).

(** A call whose result the code drops. *)
Definition call_ {T W : Type} (f : W -> W) : M (T * W) unit :=
  fun s => (tt, (fst s, f (snd s))).

End Go.

Notation "x <- c ;; k" := (Go.bind c (fun x => k))
  (at level 61, c at next level, right associativity).
Notation "c ;; k" := (Go.bind c (fun _ => k))
  (at level 61, right associativity).

Import Go.

(** ** pkg/printer/commands.go: the byte-command table *)

Module commands.

Definition LF : string := String "010" EmptyString.
Definition EOL : string := String "010" EmptyString.

(** Hardware commands *)
Definition HW_INIT : list byte := [0x1b; 0x40].
Definition HW_SELECT : list byte := [0x1b; 0x3d; 0x01].
Definition HW_RESET : list byte := [0x1b; 0x3f; 0x0a; 0x00].

(** Feed control *)
Definition CTL_LF : list byte := [0x0a].
Definition CTL_FF : list byte := [0x0c].
Definition CTL_CR : list byte := [0x0d].
Definition CTL_HT : list byte := [0x09].
Definition CTL_VT : list byte := [0x0b].

(** Text formatting *)
Definition TXT_NORMAL : list byte := [0x1b; 0x21; 0x00].
Definition TXT_2HEIGHT : list byte := [0x1b; 0x21; 0x10].
Definition TXT_2WIDTH : list byte := [0x1b; 0x21; 0x20].
Definition TXT_4SQUARE : list byte := [0x1b; 0x21; 0x30].

Definition TXT_UNDERL_OFF : list byte := [0x1b; 0x2d; 0x00].
Definition TXT_UNDERL_ON : list byte := [0x1b; 0x2d; 0x01].
Definition TXT_UNDERL2_ON : list byte := [0x1b; 0x2d; 0x02].

Definition TXT_BOLD_OFF : list byte := [0x1b; 0x45; 0x00].
Definition TXT_BOLD_ON : list byte := [0x1b; 0x45; 0x01].

Definition TXT_ITALIC_OFF : list byte := [0x1b; 0x35].
Definition TXT_ITALIC_ON : list byte := [0x1b; 0x34].

Definition TXT_FONT_A : list byte := [0x1b; 0x4d; 0x00].
Definition TXT_FONT_B : list byte := [0x1b; 0x4d; 0x01].
Definition TXT_FONT_C : list byte := [0x1b; 0x4d; 0x02].

Definition TXT_ALIGN_LT : list byte := [0x1b; 0x61; 0x00].
Definition TXT_ALIGN_CT : list byte := [0x1b; 0x61; 0x01].
Definition TXT_ALIGN_RT : list byte := [0x1b; 0x61; 0x02].

(** Paper cutting *)
Definition PAPER_FULL_CUT : list byte := [0x1d; 0x56; 0x00].
Definition PAPER_PART_CUT : list byte := [0x1d; 0x56; 0x01].

(** Cash drawer *)
Definition CD_KICK_2 : list byte := [0x1b; 0x70; 0x00; 0x19; 0x78].
Definition CD_KICK_5 : list byte := [0x1b; 0x70; 0x01; 0x19; 0x78].

(** Barcode format *)
Definition BARCODE_TXT_OFF : list byte := [0x1d; 0x48; 0x00].
Definition BARCODE_TXT_ABV : list byte := [0x1d; 0x48; 0x01].
Definition BARCODE_TXT_BLW : list byte := [0x1d; 0x48; 0x02].
Definition BARCODE_TXT_BTH : list byte := [0x1d; 0x48; 0x03].

Definition BARCODE_FONT_A : list byte := [0x1d; 0x66; 0x00].
Definition BARCODE_FONT_B : list byte := [0x1d; 0x66; 0x01].

Definition BARCODE_HEIGHT_DEFAULT : list byte := [0x1d; 0x68; 0x64].
Definition BARCODE_WIDTH_DEFAULT : list byte := [0x1d; 0x77; 0x01].

Definition BARCODE_UPC_A : list byte := [0x1d; 0x6b; 0x00].
Definition BARCODE_UPC_E : list byte := [0x1d; 0x6b; 0x01].
Definition BARCODE_EAN13 : list byte := [0x1d; 0x6b; 0x02].
Definition BARCODE_EAN8 : list byte := [0x1d; 0x6b; 0x03].
Definition BARCODE_CODE39 : list byte := [0x1d; 0x6b; 0x04].
Definition BARCODE_ITF : list byte := [0x1d; 0x6b; 0x05].
Definition BARCODE_NW7 : list byte := [0x1d; 0x6b; 0x06].
Definition BARCODE_CODE93 : list byte := [0x1d; 0x6b; 0x48].
Definition BARCODE_CODE128 : list byte := [0x1d; 0x6b; 0x49].

(** QR Code *)
Definition QR_MODEL : list byte := [0x1d; 0x28; 0x6b; 0x04; 0x00; 0x31; 0x41].
Definition QR_SIZE : list byte := [0x1d; 0x28; 0x6b; 0x03; 0x00; 0x31; 0x43].
Definition QR_ERROR : list byte := [0x1d; 0x28; 0x6b; 0x03; 0x00; 0x31; 0x45].
Definition QR_STORE_PRE : list byte := [0x1d; 0x28; 0x6b].
Definition QR_STORE_POST : list byte := [0x31; 0x50; 0x30].
Definition QR_PRINT : list byte :=
  [0x1d; 0x28; 0x6b; 0x03; 0x00; 0x31; 0x51; 0x30].

Definition BEEP : list byte := [0x1b; 0x42].

Definition REVERSE_OFF : list byte := [0x1d; 0x42; 0x00].
Definition REVERSE_ON : list byte := [0x1d; 0x42; 0x01].

Definition LINE_SPACING_DEFAULT : list byte := [0x1b; 0x32].

Definition TxtCustomSize (width height : Z) : list byte :=
  let width := if width <? 1 then 1 else width in
  let width := if width >? 8 then 8 else width in
  let height := if height <? 1 then 1 else height in
  let height := if height >? 8 then 8 else height in
  let size := to_byte ((width - 1) * 16 + (height - 1)) in
  [0x1d; 0x21; size].

Definition BarcodeHeight (height : Z) : list byte :=
  let height := if height <? 1 then 1 else height in
  let height := if height >? 255 then 255 else height in
  [0x1d; 0x68; to_byte height].

Definition BarcodeWidth (width : Z) : list byte :=
  let width := if width <? 2 then 2 else width in
  let width := if width >? 6 then 6 else width in
  [0x1d; 0x77; to_byte width].

Definition SetCharset (n : Z) : list byte :=
  let n := if n <? 0 then 0 else n in
  let n := if n >? 15 then 15 else n in
  [0x1b; 0x52; to_byte n].

Definition SetCodePage (n : Z) : list byte :=
  let n := if n <? 0 then 0 else n in
  [0x1b; 0x74; to_byte n].

Definition SetLineSpacing (n : Z) : list byte :=
  let n := if n <? 0 then 0 else n in
  let n := if n >? 255 then 255 else n in
  [0x1b; 0x33; to_byte n].

Definition FeedDots (n : Z) : list byte :=
  let n := if n <? 0 then 0 else n in
  let n := if n >? 255 then 255 else n in
  [0x1b; 0x4a; to_byte n].

Definition FeedLines (n : Z) : list byte :=
  let n := if n <? 0 then 0 else n in
  let n := if n >? 255 then 255 else n in
  [0x1b; 0x64; to_byte n].

Definition RasterImageCmd (mode widthBytes heightDots : Z) : list byte :=
  let mode := if (mode <? 0) || (mode >? 3) then 0 else mode in
  let xL := to_byte (rem widthBytes 256) in
  let xH := to_byte (div widthBytes 256) in
  let yL := to_byte (rem heightDots 256) in
  let yH := to_byte (div heightDots 256) in
  [0x1d; 0x76; 0x30; to_byte mode; xL; xH; yL; yH].

End commands.

(** ** pkg/adapter/adapter.go: the transport contract *)

Module adapter.

(** The [Adapter] interface.  An implementation is a Go object that its
    methods mutate and that talks to the operating system: [St] is the
    state of that object together with the part of the world it acts on,
    and every method threads it. *)
Record Adapter : Type := {
  St : Type;
  Open : St -> option error * St;
  Write : list byte -> St -> option error * St;
  Read : St -> (list byte * option error) * St;
  Close : St -> option error * St;
  IsOpen : St -> bool * St
}.

(** A recording transport: it forwards every call to the adapter it wraps
    and keeps the list of the calls it received, oldest first. *)
Inductive Call : Type :=
| CallOpen
| CallWrite (data : list byte)
| CallRead
| CallClose
| CallIsOpen.

Definition Recorder (a : Adapter) : Adapter := {|
  St := list Call * St a;
  Open := fun s =>
    let (e, s') := Open a (snd s) in (e, ((fst s ++ [CallOpen])%list, s'));
  Write := fun data s =>
    let (e, s') := Write a data (snd s) in
    (e, ((fst s ++ [CallWrite data])%list, s'));
  Read := fun s =>
    let (r, s') := Read a (snd s) in (r, ((fst s ++ [CallRead])%list, s'));
  Close := fun s =>
    let (e, s') := Close a (snd s) in (e, ((fst s ++ [CallClose])%list, s'));
  IsOpen := fun s =>
    let (b, s') := IsOpen a (snd s) in (b, ((fst s ++ [CallIsOpen])%list, s'))
|}.

(** What discovery returns for one device. *)
Record PrinterInfo : Type := {
  VendorID : Z;
  ProductID : Z;
  Manufacturer : string;
  Product : string;
  IsPrinter : bool;
  DeviceType : string
}.

End adapter.

(** ** The builder of pkg/printer *)

Module printer.

Import commands.

Section Builder.

Variable a : adapter.Adapter.

(** The builder owns its buffer and is bound to one transport. *)
Record Printer : Type := mkPrinter {
  adapter : adapter.St a;
  buffer : list byte;
  encoding : string;
  width : Z
}.

Definition New (s : adapter.St a) : Printer :=
  {| adapter := s; buffer := []; encoding := "UTF-8"; width := 48 |}.

(** [p.buffer = append(p.buffer, bs...)] *)
Definition append (p : Printer) (bs : list byte) : Printer :=
  {| adapter := adapter p; buffer := (buffer p ++ bs)%list;
     encoding := encoding p; width := width p |}.

Definition set_width (p : Printer) (w : Z) : Printer :=
  {| adapter := adapter p; buffer := buffer p;
     encoding := encoding p; width := w |}.

Definition set_buffer (p : Printer) (b : list byte) : Printer :=
  {| adapter := adapter p; buffer := b;
     encoding := encoding p; width := width p |}.

Definition set_adapter (p : Printer) (s : adapter.St a) : Printer :=
  {| adapter := s; buffer := buffer p;
     encoding := encoding p; width := width p |}.

Definition Init (p : Printer) : Printer := append p HW_INIT.

Definition Text (content : string) (p : Printer) : Printer :=
  append p (bytes content).

Definition Println (content : string) (p : Printer) : Printer :=
  append p (bytes (content ++ EOL)).

Definition NewLine (p : Printer) : Printer := append p CTL_LF.

Definition Feed (n : Z) (p : Printer) : Printer :=
  times n (fun p => append p CTL_LF) p.

Definition Align (align : string) (p : Printer) : Printer :=
  if one_of align ["left"; "lt"; "LT"] then append p TXT_ALIGN_LT
  else if one_of align ["center"; "ct"; "CT"] then append p TXT_ALIGN_CT
  else if one_of align ["right"; "rt"; "RT"] then append p TXT_ALIGN_RT
  else p.

Definition Bold (on : bool) (p : Printer) : Printer :=
  if on then append p TXT_BOLD_ON else append p TXT_BOLD_OFF.

Definition Underline (mode : Z) (p : Printer) : Printer :=
  if mode =? 0 then append p TXT_UNDERL_OFF
  else if mode =? 1 then append p TXT_UNDERL_ON
  else if mode =? 2 then append p TXT_UNDERL2_ON
  else p.

Definition Size (width height : Z) (p : Printer) : Printer :=
  append p (TxtCustomSize width height).

Definition Font (font : string) (p : Printer) : Printer :=
  if one_of font ["a"; "A"] then set_width (append p TXT_FONT_A) 48
  else if one_of font ["b"; "B"] then set_width (append p TXT_FONT_B) 64
  else if one_of font ["c"; "C"] then set_width (append p TXT_FONT_C) 64
  else p.

Definition Normal (p : Printer) : Printer := append p TXT_NORMAL.

Definition DrawLine (char : string) (p : Printer) : Printer :=
  let char := if String.eqb char EmptyString then "-" else char in
  NewLine (times (width p) (fun p => append p (bytes char)) p).

Definition Cut (partial : bool) (p : Printer) : Printer :=
  let p := Feed 3 p in
  if partial then append p PAPER_PART_CUT else append p PAPER_FULL_CUT.

Definition CashDraw (pin : Z) (p : Printer) : Printer :=
  if pin =? 5 then append p CD_KICK_5 else append p CD_KICK_2.

Definition Beep (times duration : Z) (p : Printer) : Printer :=
  let p := append p BEEP in
  append p [to_byte times; to_byte duration].

Definition Barcode (code barcodeType : string) (width height : Z)
    (p : Printer) : Printer :=
  let p := append p BARCODE_TXT_BLW in
  let p := append p BARCODE_FONT_A in
  let p := append p (BarcodeHeight height) in
  let p := append p (BarcodeWidth width) in
  let p :=
    if one_of barcodeType ["UPC_A"; "UPC-A"] then append p BARCODE_UPC_A
    else if one_of barcodeType ["UPC_E"; "UPC-E"] then append p BARCODE_UPC_E
    else if String.eqb barcodeType "EAN13" then append p BARCODE_EAN13
    else if String.eqb barcodeType "EAN8" then append p BARCODE_EAN8
    else if String.eqb barcodeType "CODE39" then append p BARCODE_CODE39
    else if String.eqb barcodeType "CODE128" then append p BARCODE_CODE128
    else append p BARCODE_CODE39 in
  let p := append p (bytes code) in
  append p [0x00].

(** QR code error-correction levels and models *)
Definition QRErrorL : Z := 48.
Definition QRErrorM : Z := 49.
Definition QRErrorQ : Z := 50.
Definition QRErrorH : Z := 51.
Definition QRModel1 : Z := 49.
Definition QRModel2 : Z := 50.

Definition QRCodeAdvanced (content : string) (size errorLevel model : Z)
    (p : Printer) : Printer :=
  let size := if size <? 1 then 6 else size in
  let size := if size >? 16 then 16 else size in
  (* Set QR model *)
  let p := append p QR_MODEL in
  let p := append p [to_byte model; 0x00] in
  (* Set QR size *)
  let p := append p QR_SIZE in
  let p := append p [to_byte size] in
  (* Set error correction level *)
  let p := append p QR_ERROR in
  let p := append p [to_byte errorLevel] in
  (* Store data *)
  let data := bytes content in
  let storeLen := len data + 3 in
  let pL := to_byte (rem storeLen 256) in
  let pH := to_byte (div storeLen 256) in
  let p := append p QR_STORE_PRE in
  let p := append p [pL; pH] in
  let p := append p QR_STORE_POST in
  let p := append p data in
  (* Print QR *)
  append p QR_PRINT.

Definition QRCode (content : string) (size : Z) (p : Printer) : Printer :=
  QRCodeAdvanced content size QRErrorL QRModel2 p.

Definition QRCodeURL (url : string) (size : Z) (p : Printer) : Printer :=
  QRCodeAdvanced url size QRErrorM QRModel2 p.

Definition QRCodeWiFi (ssid password authType : string) (hidden : bool)
    (p : Printer) : Printer :=
  let hiddenStr := if hidden then "true" else "false" in
  let content :=
    "WIFI:T:" ++ authType ++ ";S:" ++ ssid ++ ";P:" ++ password
      ++ ";H:" ++ hiddenStr ++ ";;" in
  QRCodeAdvanced content 6 QRErrorM QRModel2 p.

Definition QRCodeVCard (name phone email org : string) (p : Printer)
    : Printer :=
  let content :=
    "BEGIN:VCARD" ++ LF ++
    "VERSION:3.0" ++ LF ++
    "N:" ++ name ++ LF ++
    "TEL:" ++ phone ++ LF ++
    "EMAIL:" ++ email ++ LF ++
    "ORG:" ++ org ++ LF ++
    "END:VCARD" in
  QRCodeAdvanced content 5 QRErrorM QRModel2 p.

Definition QRCodeSMS (phone message : string) (p : Printer) : Printer :=
  QRCodeAdvanced ("smsto:" ++ phone ++ ":" ++ message) 6 QRErrorM QRModel2 p.

Definition QRCodeEmail (to subject body : string) (p : Printer) : Printer :=
  QRCodeAdvanced ("mailto:" ++ to ++ "?subject=" ++ subject ++ "&body=" ++ body)
    6 QRErrorM QRModel2 p.

Definition QRCodePhone (phone : string) (p : Printer) : Printer :=
  QRCodeAdvanced ("tel:" ++ phone) 6 QRErrorM QRModel2 p.

Definition Raw (data : list byte) (p : Printer) : Printer := append p data.

Definition Clear (p : Printer) : Printer := set_buffer p [].

Definition Buffer (p : Printer) : list byte := buffer p.

(** [Flush] sends all buffered commands to the printer and clears the
    buffer.  It returns the error and the builder as the call leaves it. *)
Definition Flush (p : Printer) : option error * Printer :=
  if len (buffer p) =? 0 then (None, p)
  else
    let (isOpen, s) := adapter.IsOpen a (adapter p) in
    let p := set_adapter p s in
    let opened :=
      if negb isOpen then
        let (err, s) := adapter.Open a (adapter p) in
        (err, set_adapter p s)
      else (None, p) in
    match opened with
    | (Some err, p) =>
        (Some (Errorf "failed to open adapter: %w" [VErr err]), p)
    | (None, p) =>
        let (err, s) := adapter.Write a (buffer p) (adapter p) in
        let p := set_adapter p s in
        let p := set_buffer p [] in
        (err, p)
    end.

Definition Close (p : Printer) : option error * Printer :=
  let (err, s) := adapter.Close a (adapter p) in (err, set_adapter p s).

Definition Charset (n : Z) (p : Printer) : Printer :=
  append p (SetCharset n).

Definition CodePage (n : Z) (p : Printer) : Printer :=
  append p (SetCodePage n).

Definition Reverse (on : bool) (p : Printer) : Printer :=
  if on then append p REVERSE_ON else append p REVERSE_OFF.

Definition LineSpacing (n : Z) (p : Printer) : Printer :=
  append p (SetLineSpacing n).

Definition LineSpacingDefault (p : Printer) : Printer :=
  append p LINE_SPACING_DEFAULT.

Definition FeedDots (n : Z) (p : Printer) : Printer :=
  append p (commands.FeedDots n).

Definition FeedLines (n : Z) (p : Printer) : Printer :=
  append p (commands.FeedLines n).

Definition RasterImage (mode widthBytes heightDots : Z) (data : list byte)
    (p : Printer) : Printer :=
  let p := append p (RasterImageCmd mode widthBytes heightDots) in
  append p data.

End Builder.

Arguments adapter {a} _.
Arguments buffer {a} _.
Arguments encoding {a} _.
Arguments width {a} _.
Arguments New {a} s.
Arguments append {a} p bs.
Arguments set_width {a} p w.
Arguments set_buffer {a} p b.
Arguments set_adapter {a} p s.
Arguments Init {a} p.
Arguments Text {a} content p.
Arguments Println {a} content p.
Arguments NewLine {a} p.
Arguments Feed {a} n p.
Arguments Align {a} align p.
Arguments Bold {a} on p.
Arguments Underline {a} mode p.
Arguments Size {a} width height p.
Arguments Font {a} font p.
Arguments Normal {a} p.
Arguments DrawLine {a} char p.
Arguments Cut {a} partial p.
Arguments CashDraw {a} pin p.
Arguments Beep {a} times duration p.
Arguments Barcode {a} code barcodeType width height p.
Arguments QRCodeAdvanced {a} content size errorLevel model p.
Arguments QRCode {a} content size p.
Arguments QRCodeURL {a} url size p.
Arguments QRCodeWiFi {a} ssid password authType hidden p.
Arguments QRCodeVCard {a} name phone email org p.
Arguments QRCodeSMS {a} phone message p.
Arguments QRCodeEmail {a} to subject body p.
Arguments QRCodePhone {a} phone p.
Arguments Raw {a} data p.
Arguments Clear {a} p.
Arguments Buffer {a} p.
Arguments Flush {a} p.
Arguments Close {a} p.
Arguments Charset {a} n p.
Arguments CodePage {a} n p.
Arguments Reverse {a} on p.
Arguments LineSpacing {a} n p.
Arguments LineSpacingDefault {a} p.
Arguments FeedDots {a} n p.
Arguments FeedLines {a} n p.
Arguments RasterImage {a} mode widthBytes heightDots data p.

End printer.

(** ** pkg/adapter/console.go *)

Module console.

Import commands.

Record ConsoleAdapter : Type := { open : bool }.

(** The world of the console adapter is the text written to the standard
    output. *)
Definition Stdout : Type := string.
Definition St : Type := (ConsoleAdapter * Stdout)%type.

Definition Println (line : string) (out : Stdout) : Stdout :=
  out ++ line ++ LF.
Definition Fprintf_s (prefix arg : string) (out : Stdout) : Stdout :=
  out ++ prefix ++ arg.

Definition NewConsoleAdapter : ConsoleAdapter := {| open := false |}.

Definition Open : M St (option error) :=
  update (fun _ => {| open := true |}) ;;
  call_ (Println "[ConsoleAdapter] Opened") ;;
  ret None.

Definition Write (data : list byte) : M St (option error) :=
  c <- self ;;
  if negb (open c) then ret (Some (Errorf "adapter not open" []))
  else
    call_ (Fprintf_s "[PRINT] " (string_of_bytes data)) ;;
    ret None.

Definition Read : M St (list byte * option error) := ret ([], None).

Definition Close : M St (option error) :=
  update (fun _ => {| open := false |}) ;;
  call_ (Println "[ConsoleAdapter] Closed") ;;
  ret None.

Definition IsOpen : M St bool := c <- self ;; ret (open c).

Definition Adapter : adapter.Adapter := {|
  adapter.St := St;
  adapter.Open := Open;
  adapter.Write := Write;
  adapter.Read := Read;
  adapter.Close := Close;
  adapter.IsOpen := IsOpen
|}.

End console.

(** ** The network adapter *)

Module network.

(** What the adapter uses of Go's [net] and [time] packages, over a world
    [W] of connections and clock. *)
Record Net : Type := {
  W : Type;
  Conn : Type;
  DialTimeout : string -> string -> Z -> W -> (Conn + error) * W;
  Conn_Write : Conn -> list byte -> W -> (Z * option error) * W;
  Conn_Read : Conn -> Z -> W -> (list byte * option error) * W;
  Conn_SetReadDeadline : Conn -> Z -> W -> W;
  Conn_Close : Conn -> W -> option error * W;
  Now : W -> Z * W
}.

Definition Second : Z := 1000000000.

Section Network.

Variable N : Net.

Record NetworkAdapter : Type := {
  address : string;
  port : Z;
  timeout : Z;
  conn : option (Conn N);
  open : bool
}.

Definition St : Type := (NetworkAdapter * W N)%type.

Definition NewNetworkAdapter (address : string) (port : Z)
    : NetworkAdapter :=
  let port := if port =? 0 then 9100 else port in
  {| address := address; port := port; timeout := 30 * Second;
     conn := None; open := false |}.

Definition connected (c : Conn N) (n : NetworkAdapter) : NetworkAdapter :=
  {| address := address n; port := port n; timeout := timeout n;
     conn := Some c; open := true |}.

Definition set_open (b : bool) (n : NetworkAdapter) : NetworkAdapter :=
  {| address := address n; port := port n; timeout := timeout n;
     conn := conn n; open := b |}.

Definition Open : M St (option error) :=
  n <- self ;;
  if open n then ret None
  else
    let addr := address n ++ ":" ++ itoa (port n) in
    r <- call (DialTimeout N "tcp" addr (timeout n)) ;;
    match r with
    | inr err =>
        ret (Some (Errorf "failed to connect to %s: %v" [VStr addr; VErr err]))
    | inl c =>
        update (connected c) ;;
        ret None
    end.

Definition Write (data : list byte) : M St (option error) :=
  n <- self ;;
  if negb (open n) then ret (Some (Errorf "adapter not open" []))
  else
    match conn n with
    | None => ret (Some nil_dereference)
    | Some c =>
        r <- call (Conn_Write N c data) ;;
        ret (snd r)
    end.

Definition Read : M St (list byte * option error) :=
  n <- self ;;
  if negb (open n) then ret ([], Some (Errorf "adapter not open" []))
  else
    match conn n with
    | None => ret ([], Some nil_dereference)
    | Some c =>
        now <- call (Now N) ;;
        call_ (Conn_SetReadDeadline N c (now + 5 * Second)) ;;
        r <- call (Conn_Read N c 1024) ;;
        match snd r with
        | Some err => ret ([], Some err)
        | None => ret (fst r, None)
        end
    end.

Definition Close : M St (option error) :=
  n <- self ;;
  if negb (open n) then ret None
  else
    match conn n with
    | None => ret (Some nil_dereference)
    | Some c =>
        err <- call (Conn_Close N c) ;;
        update (set_open false) ;;
        ret err
    end.

Definition IsOpen : M St bool := n <- self ;; ret (open n).

Definition Adapter : adapter.Adapter := {|
  adapter.St := St;
  adapter.Open := Open;
  adapter.Write := Write;
  adapter.Read := Read;
  adapter.Close := Close;
  adapter.IsOpen := IsOpen
|}.

End Network.

End network.

(** ** pkg/adapter/usb.go, built with cgo on Linux and macOS *)

Module usb.

(** USB descriptors as [gousb] presents them.  Go iterates over the maps
    of configurations and endpoints in an order of its choosing: the lists
    below are in that order. *)
Inductive EndpointDirection : Type :=
| EndpointDirectionIn
| EndpointDirectionOut.

Definition is_out (d : EndpointDirection) : bool :=
  match d with EndpointDirectionOut => true | EndpointDirectionIn => false end.
Definition is_in (d : EndpointDirection) : bool := negb (is_out d).

Record EndpointDesc : Type := { Number : Z; Direction : EndpointDirection }.
Record InterfaceSetting : Type := { Class : Z; Endpoints : list EndpointDesc }.
Record InterfaceDesc : Type := { AltSettings : list InterfaceSetting }.
Record ConfigDesc : Type := { Interfaces : list InterfaceDesc }.
Record DeviceDesc : Type := {
  Vendor : Z;
  Product : Z;
  Configs : list ConfigDesc
}.

Definition ClassPrinter : Z := 0x07.

(** What the adapter uses of [gousb], over a world [W] of the USB host. *)
Record Gousb : Type := {
  W : Type;
  Context : Type;
  Device : Type;
  Interface : Type;
  OutEndpoint : Type;
  InEndpoint : Type;
  NewContext : W -> Context * W;
  Context_Close : Context -> W -> W;
  OpenDeviceWithVIDPID :
    Context -> Z -> Z -> W -> (option Device * option error) * W;
  OpenDevices :
    Context -> (DeviceDesc -> bool) -> W -> (list Device * option error) * W;
  Device_Close : Device -> W -> W;
  SetAutoDetach : Device -> bool -> W -> option error * W;
  DefaultInterface :
    Device -> W -> ((Interface * (W -> W)) + error) * W;
  Setting : Interface -> InterfaceSetting;
  Interface_OutEndpoint :
    Interface -> Z -> option OutEndpoint * option error;
  Interface_InEndpoint :
    Interface -> Z -> option InEndpoint * option error;
  OutEndpoint_Write : OutEndpoint -> list byte -> W -> (Z * option error) * W;
  InEndpoint_Read : InEndpoint -> Z -> W -> (list byte * option error) * W
}.

Section USB.

Variable G : Gousb.

(** The mutex [mu] that every method holds for its duration is left out:
    the embedding is sequential. *)
Record USBAdapter : Type := {
  ctx : option (Context G);
  device : option (Device G);
  intf : option (Interface G);
  outEP : option (OutEndpoint G);
  inEP : option (InEndpoint G);
  done : option (W G -> W G);
  open : bool;
  VendorID : Z;
  ProductID : Z
}.

Definition St : Type := (USBAdapter * W G)%type.

Definition NewUSBAdapter (vendorID productID : Z) : USBAdapter :=
  {| ctx := None; device := None; intf := None; outEP := None;
     inEP := None; done := None; open := false;
     VendorID := vendorID; ProductID := productID |}.

Definition set_ctx (c : Context G) (u : USBAdapter) : USBAdapter :=
  {| ctx := Some c; device := device u; intf := intf u; outEP := outEP u;
     inEP := inEP u; done := done u; open := open u;
     VendorID := VendorID u; ProductID := ProductID u |}.

Definition set_device (d : Device G) (u : USBAdapter) : USBAdapter :=
  {| ctx := ctx u; device := Some d; intf := intf u; outEP := outEP u;
     inEP := inEP u; done := done u; open := open u;
     VendorID := VendorID u; ProductID := ProductID u |}.

Definition set_intf (i : Interface G) (f : W G -> W G) (u : USBAdapter)
    : USBAdapter :=
  {| ctx := ctx u; device := device u; intf := Some i; outEP := outEP u;
     inEP := inEP u; done := Some f; open := open u;
     VendorID := VendorID u; ProductID := ProductID u |}.

Definition set_outEP (e : option (OutEndpoint G)) (u : USBAdapter)
    : USBAdapter :=
  {| ctx := ctx u; device := device u; intf := intf u; outEP := e;
     inEP := inEP u; done := done u; open := open u;
     VendorID := VendorID u; ProductID := ProductID u |}.

Definition set_inEP (e : option (InEndpoint G)) (u : USBAdapter)
    : USBAdapter :=
  {| ctx := ctx u; device := device u; intf := intf u; outEP := outEP u;
     inEP := e; done := done u; open := open u;
     VendorID := VendorID u; ProductID := ProductID u |}.

Definition set_open (b : bool) (u : USBAdapter) : USBAdapter :=
  {| ctx := ctx u; device := device u; intf := intf u; outEP := outEP u;
     inEP := inEP u; done := done u; open := b;
     VendorID := VendorID u; ProductID := ProductID u |}.

(** The filter handed to [OpenDevices]: some alternate setting of some
    interface of some configuration is of the printer class. *)
Definition has_printer_class (desc : DeviceDesc) : bool :=
  existsb (fun cfg =>
    existsb (fun intf =>
      existsb (fun alt => Class alt =? ClassPrinter) (AltSettings intf))
      (Interfaces cfg))
    (Configs desc).

(** The two endpoint loops: the first endpoint of the wanted direction
    that the interface hands out is kept; one that it refuses overwrites
    the field with nil and the loop goes on. *)
Fixpoint find_out (i : Interface G) (eps : list EndpointDesc)
    (cur : option (OutEndpoint G)) : option (OutEndpoint G) :=
  match eps with
  | [] => cur
  | ep :: rest =>
      if is_out (Direction ep) then
        match Interface_OutEndpoint G i (Number ep) with
        | (e, Some _) => find_out i rest e
        | (e, None) => e
        end
      else find_out i rest cur
  end.

Fixpoint find_in (i : Interface G) (eps : list EndpointDesc)
    (cur : option (InEndpoint G)) : option (InEndpoint G) :=
  match eps with
  | [] => cur
  | ep :: rest =>
      if is_in (Direction ep) then
        match Interface_InEndpoint G i (Number ep) with
        | (e, Some _) => find_in i rest e
        | (e, None) => e
        end
      else find_in i rest cur
  end.

(** The first half of [Open]: the device, by its identifiers when both
    are given, else the first device of the printer class. *)
Definition open_device (c : Context G) (u : USBAdapter)
    : M St (Device G + error) :=
  if negb (VendorID u =? 0) && negb (ProductID u =? 0) then
    r <- call (OpenDeviceWithVIDPID G c (VendorID u) (ProductID u)) ;;
    match r with
    | (_, Some err) =>
        call_ (Context_Close G c) ;;
        ret (inr (Errorf "failed to open device %04x:%04x: %v"
                    [VInt (VendorID u); VInt (ProductID u); VErr err]))
    | (None, None) =>
        call_ (Context_Close G c) ;;
        ret (inr (Errorf "device %04x:%04x not found"
                    [VInt (VendorID u); VInt (ProductID u)]))
    | (Some d, None) => ret (inl d)
    end
  else
    r <- call (OpenDevices G c has_printer_class) ;;
    match r with
    | (_, Some err) =>
        call_ (Context_Close G c) ;;
        ret (inr (Errorf "failed to enumerate USB devices: %v" [VErr err]))
    | ([], None) =>
        call_ (Context_Close G c) ;;
        ret (inr (Errorf "no USB printer found" []))
    | (d :: extra, None) =>
        call_ (fun w => fold_left (fun w d' => Device_Close G d' w) extra w) ;;
        ret (inl d)
    end.

Definition Open : M St (option error) :=
  u <- self ;;
  if open u then ret None
  else
    c <- call (NewContext G) ;;
    update (set_ctx c) ;;
    r <- open_device c u ;;
    match r with
    | inr err => ret (Some err)
    | inl d =>
        update (set_device d) ;;
        _ <- call (SetAutoDetach G d true) ;;
        r <- call (DefaultInterface G d) ;;
        match r with
        | inr err =>
            call_ (Device_Close G d) ;;
            call_ (Context_Close G c) ;;
            ret (Some (Errorf "failed to claim interface: %v" [VErr err]))
        | inl (i, release) =>
            update (set_intf i release) ;;
            update (fun u =>
              set_outEP (find_out i (Endpoints (Setting G i)) (outEP u)) u) ;;
            update (fun u =>
              set_inEP (find_in i (Endpoints (Setting G i)) (inEP u)) u) ;;
            u <- self ;;
            match outEP u with
            | None =>
                call_ release ;;
                call_ (Device_Close G d) ;;
                call_ (Context_Close G c) ;;
                ret (Some (Errorf "no OUT endpoint found" []))
            | Some _ =>
                update (set_open true) ;;
                ret None
            end
        end
    end.

Definition Write (data : list byte) : M St (option error) :=
  u <- self ;;
  if negb (open u) then ret (Some (Errorf "adapter not open" []))
  else
    match outEP u with
    | None => ret (Some nil_dereference)
    | Some e =>
        r <- call (OutEndpoint_Write G e data) ;;
        ret (snd r)
    end.

Definition Read : M St (list byte * option error) :=
  u <- self ;;
  match open u, inEP u with
  | true, Some e =>
      r <- call (InEndpoint_Read G e 64) ;;
      match snd r with
      | Some err => ret ([], Some err)
      | None => ret (fst r, None)
      end
  | _, _ => ret ([], None)
  end.

Definition Close : M St (option error) :=
  u <- self ;;
  if negb (open u) then ret None
  else
    match done u with Some release => call_ release | None => ret tt end ;;
    match device u with Some d => call_ (Device_Close G d) | None => ret tt end ;;
    match ctx u with Some c => call_ (Context_Close G c) | None => ret tt end ;;
    update (set_open false) ;;
    ret None.

Definition IsOpen : M St bool := u <- self ;; ret (open u).

Definition Adapter : adapter.Adapter := {|
  adapter.St := St;
  adapter.Open := Open;
  adapter.Write := Write;
  adapter.Read := Read;
  adapter.Close := Close;
  adapter.IsOpen := IsOpen
|}.

End USB.

End usb.

(** ** The USB adapter of builds without cgo, and of Windows *)

Module usb_stub.

Record USBAdapter : Type := { VendorID : Z; ProductID : Z }.

Definition St : Type := (USBAdapter * unit)%type.

Definition NewUSBAdapter (vendorID productID : Z) : USBAdapter :=
  {| VendorID := vendorID; ProductID := productID |}.

Definition Open : M St (option error) :=
  ret (Some (Errorf "USB adapter not available: requires native build with CGO. Use 'network' or 'console' adapter instead" [])).

Definition Write (data : list byte) : M St (option error) :=
  ret (Some (Errorf "USB adapter not available" [])).

Definition Read : M St (list byte * option error) :=
  ret ([], Some (Errorf "USB adapter not available" [])).

Definition Close : M St (option error) := ret None.

Definition IsOpen : M St bool := ret false.

Definition Adapter : adapter.Adapter := {|
  adapter.St := St;
  adapter.Open := Open;
  adapter.Write := Write;
  adapter.Read := Read;
  adapter.Close := Close;
  adapter.IsOpen := IsOpen
|}.

End usb_stub.

(** ** The serial adapter, a placeholder *)

Module serial.

Record SerialAdapter : Type := {
  port : string;
  baudRate : Z;
  open : bool
}.

Definition St : Type := (SerialAdapter * unit)%type.

Definition NewSerialAdapter (port : string) (baudRate : Z) : SerialAdapter :=
  let baudRate := if baudRate =? 0 then 9600 else baudRate in
  {| port := port; baudRate := baudRate; open := false |}.

Definition set_open (b : bool) (s : SerialAdapter) : SerialAdapter :=
  {| port := port s; baudRate := baudRate s; open := b |}.

Definition Open : M St (option error) :=
  ret (Some (Errorf "serial adapter not yet implemented" [])).

Definition Write (data : list byte) : M St (option error) :=
  s <- self ;;
  if negb (open s) then ret (Some (Errorf "adapter not open" []))
  else ret None.

Definition Read : M St (list byte * option error) :=
  s <- self ;;
  if negb (open s) then ret ([], Some (Errorf "adapter not open" []))
  else ret ([], None).

Definition Close : M St (option error) :=
  update (set_open false) ;;
  ret None.

Definition IsOpen : M St bool := s <- self ;; ret (open s).

Definition Adapter : adapter.Adapter := {|
  adapter.St := St;
  adapter.Open := Open;
  adapter.Write := Write;
  adapter.Read := Read;
  adapter.Close := Close;
  adapter.IsOpen := IsOpen
|}.

End serial.

(** ** pkg/adapter/printer_windows.go: the Windows print spooler *)

Module windows.

(** [syscall.UTF16PtrFromString] refuses a string with a NUL byte. *)
Definition EINVAL : error := Errorf "invalid argument" [].

Definition has_nul (s : string) : bool :=
  existsb (fun c => Ascii.eqb c zero) (list_ascii_of_string s).

Definition UTF16PtrFromString (s : string) : option string * option error :=
  if has_nul s then (None, Some EINVAL) else (Some s, None).

Record DOC_INFO_1 : Type := {
  pDocName : option string;
  pOutputFile : option string;
  pDatatype : option string
}.

(** The procedures of [winspool.drv], over a world [W] of the spooler.
    Each returns the [r1] of the call, zero on failure, and the error of
    the thread; [OpenPrinterW] also returns the handle it stores through
    its second argument. *)
Record Winspool : Type := {
  W : Type;
  OpenPrinterW : string -> W -> (Z * Z * error) * W;
  ClosePrinter : Z -> W -> (Z * error) * W;
  StartDocPrinterW : Z -> Z -> DOC_INFO_1 -> W -> (Z * error) * W;
  StartPagePrinter : Z -> W -> (Z * error) * W;
  WritePrinter : Z -> list byte -> W -> (Z * error) * W;
  EndPagePrinter : Z -> W -> (Z * error) * W;
  EndDocPrinter : Z -> W -> (Z * error) * W
}.

Section Windows.

Variable Sp : Winspool.

Record WindowsPrinter : Type := { handle : Z; name : string }.

Definition St : Type := (WindowsPrinter * W Sp)%type.

Definition NewWindowsPrinter (name : string) : WindowsPrinter :=
  {| handle := 0; name := name |}.

Definition set_handle (h : Z) (w : WindowsPrinter) : WindowsPrinter :=
  {| handle := h; name := name w |}.

Definition Open : M St (option error) :=
  w <- self ;;
  match UTF16PtrFromString (name w) with
  | (_, Some err) => ret (Some err)
  | (None, None) => ret (Some nil_dereference)
  | (Some namePtr, None) =>
      r <- call (OpenPrinterW Sp namePtr) ;;
      let '(r1, h, e1) := r in
      if r1 =? 0 then
        ret (Some (Errorf "OpenPrinterW failed: %v" [VErr e1]))
      else
        update (set_handle h) ;;
        ret None
  end.

Definition Write (data : list byte) : M St (option error) :=
  w <- self ;;
  if handle w =? 0 then ret (Some (Errorf "printer not open" []))
  else
    (* StartDoc *)
    let docName := fst (UTF16PtrFromString "PrintBridge Raw Data") in
    let dataType := fst (UTF16PtrFromString "RAW") in
    let di := {| pDocName := docName; pOutputFile := None;
                 pDatatype := dataType |} in
    r <- call (StartDocPrinterW Sp (handle w) 1 di) ;;
    if fst r =? 0 then
      ret (Some (Errorf "StartDocPrinterW failed: %v" [VErr (snd r)]))
    else
      (* StartPage *)
      r <- call (StartPagePrinter Sp (handle w)) ;;
      if fst r =? 0 then
        _ <- call (EndDocPrinter Sp (handle w)) ;;
        ret (Some (Errorf "StartPagePrinter failed: %v" [VErr (snd r)]))
      else
        (* WritePrinter, whose argument [&data[0]] needs a first byte *)
        match data with
        | [] => ret (Some index_out_of_range)
        | _ :: _ =>
            r <- call (WritePrinter Sp (handle w) data) ;;
            if fst r =? 0 then
              _ <- call (EndPagePrinter Sp (handle w)) ;;
              _ <- call (EndDocPrinter Sp (handle w)) ;;
              ret (Some (Errorf "WritePrinter failed: %v" [VErr (snd r)]))
            else
              (* EndPage, EndDoc *)
              _ <- call (EndPagePrinter Sp (handle w)) ;;
              _ <- call (EndDocPrinter Sp (handle w)) ;;
              ret None
        end.

Definition Read : M St (list byte * option error) := ret ([], None).

Definition Close : M St (option error) :=
  w <- self ;;
  if negb (handle w =? 0) then
    _ <- call (ClosePrinter Sp (handle w)) ;;
    update (set_handle 0) ;;
    ret None
  else ret None.

Definition IsOpen : M St bool := w <- self ;; ret (negb (handle w =? 0)).

Definition Adapter : adapter.Adapter := {|
  adapter.St := St;
  adapter.Open := Open;
  adapter.Write := Write;
  adapter.Read := Read;
  adapter.Close := Close;
  adapter.IsOpen := IsOpen
|}.

End Windows.

(** A spooler that hands out fresh handles: its world is the list of the
    handles that are open, newest first, and the next handle to give.  It
    knows one printer queue, [POS-80]. *)
Record Spooler : Type := { live : list Z; next : Z }.

Definition ERROR_INVALID_PRINTER_NAME : error :=
  Errorf "The printer name is invalid." [].
Definition ERROR_SUCCESS : error :=
  Errorf "The operation completed successfully." [].

Definition ok (w : Spooler) : (Z * error) * Spooler := ((1, ERROR_SUCCESS), w).

Definition counting_spooler : Winspool := {|
  W := Spooler;
  OpenPrinterW := fun queue w =>
    if String.eqb queue "POS-80" then
      ((1, next w, ERROR_SUCCESS),
       {| live := next w :: live w; next := next w + 1 |})
    else ((0, 0, ERROR_INVALID_PRINTER_NAME), w);
  ClosePrinter := fun h w =>
    ok {| live := List.filter (fun h' => negb (h' =? h)) (live w);
          next := next w |};
  StartDocPrinterW := fun _ _ _ w => ok w;
  StartPagePrinter := fun _ w => ok w;
  WritePrinter := fun _ _ w => ok w;
  EndPagePrinter := fun _ w => ok w;
  EndDocPrinter := fun _ w => ok w
|}.

End windows.

(** ** The transports of the repository *)

Inductive Backend : Type :=
| Console
| Network (N : network.Net)
| USB (G : usb.Gousb)
| USBStub
| Serial
| Windows (Sp : windows.Winspool).

Definition transport (b : Backend) : adapter.Adapter :=
  match b with
  | Console => console.Adapter
  | Network N => network.Adapter N
  | USB G => usb.Adapter G
  | USBStub => usb_stub.Adapter
  | Serial => serial.Adapter
  | Windows Sp => windows.Adapter Sp
  end.

(** ** Vocabulary of the properties *)

Module props.

Import commands printer.

(** A value brought to the nearest bound of [[lo,hi]]. *)
Definition clamped (lo hi x : Z) : Z := Z.max lo (Z.min hi x).

(** The type names [Barcode] knows. *)
Definition recognized_types : list string :=
  ["UPC_A"; "UPC-A"; "UPC_E"; "UPC-E"; "EAN13"; "EAN8"; "CODE39"; "CODE128"].

(** The enumeration of barcode types, CODE39 standing for every name that
    is not in it. *)
Definition type_code (barcodeType : string) : byte :=
  let table :=
    [("UPC_A", 0x00); ("UPC-A", 0x00); ("UPC_E", 0x01); ("UPC-E", 0x01);
     ("EAN13", 0x02); ("EAN8", 0x03); ("CODE39", 0x04); ("CODE128", 0x49)] in
  match List.find (fun e => String.eqb (fst e) barcodeType) table with
  | Some e => snd e
  | None => 0x04
  end.

(** The content of a WiFi QR code as the specification words it. *)
Definition wifi_payload (ssid password authType : string) (hidden : bool)
    : string :=
  "WIFI:T:" ++ authType ++ ";S:" ++ ssid ++ ";P:" ++ password ++ ";H:"
    ++ (if hidden then "true" else "false") ++ ";;".

(** The bytes of a QR job: model, module size, error level, the stored
    payload behind its two length bytes, and the print command. *)
Definition qr_job (model size level pL pH : byte) (payload : list byte)
    : list byte :=
  (QR_MODEL ++ [model; 0x00] ++ QR_SIZE ++ [size] ++ QR_ERROR ++ [level]
    ++ QR_STORE_PRE ++ [pL; pH] ++ QR_STORE_POST ++ payload ++ QR_PRINT)%list.

(** [strings.Repeat] *)
Definition Repeat (s : string) (count : Z) : string :=
  Nat.iter (Z.to_nat count) (String.append s) EmptyString.

(** A closed console transport that has printed nothing. *)
Definition quiet_console : console.St :=
  (console.NewConsoleAdapter, EmptyString).

(** The calls a recording transport received during a [Flush]: what its
    log holds beyond the log before the call. *)
Definition calls_since {A : Type} (before after : list A) : list A :=
  skipn (List.length before) after.

(** The messages of a write on a transport that is not open. *)
Definition not_open_messages : list string :=
  ["adapter not open"; "printer not open"; "USB adapter not available"].

End props.

(** ** Vocabulary of the further properties: builder calls *)

Module calls.

Import commands.

(** The methods of the builder that add to the buffer, as values, so that a
    property can speak of every method and of every sequence of calls.
    [Clear], [Flush] and [Close] are not among them. *)
Inductive call : Type :=
| Init
| Text (content : string)
| Println (content : string)
| NewLine
| Feed (n : Z)
| Align (align : string)
| Bold (on : bool)
| Underline (mode : Z)
| Size (width height : Z)
| Font (font : string)
| Normal
| DrawLine (char : string)
| Cut (partial : bool)
| CashDraw (pin : Z)
| Beep (times duration : Z)
| Barcode (code barcodeType : string) (width height : Z)
| QRCode (content : string) (size : Z)
| QRCodeAdvanced (content : string) (size errorLevel model : Z)
| QRCodeURL (url : string) (size : Z)
| QRCodeWiFi (ssid password authType : string) (hidden : bool)
| QRCodeVCard (name phone email org : string)
| QRCodeSMS (phone message : string)
| QRCodeEmail (to subject body : string)
| QRCodePhone (phone : string)
| Raw (data : list byte)
| Charset (n : Z)
| CodePage (n : Z)
| Reverse (on : bool)
| LineSpacing (n : Z)
| LineSpacingDefault
| FeedDots (n : Z)
| FeedLines (n : Z)
| RasterImage (mode widthBytes heightDots : Z) (data : list byte).

(** The method a call stands for. *)
Definition run {a : adapter.Adapter} (c : call) (p : printer.Printer a)
    : printer.Printer a :=
  match c with
  | Init => printer.Init p
  | Text content => printer.Text content p
  | Println content => printer.Println content p
  | NewLine => printer.NewLine p
  | Feed n => printer.Feed n p
  | Align align => printer.Align align p
  | Bold on => printer.Bold on p
  | Underline mode => printer.Underline mode p
  | Size width height => printer.Size width height p
  | Font font => printer.Font font p
  | Normal => printer.Normal p
  | DrawLine char => printer.DrawLine char p
  | Cut partial => printer.Cut partial p
  | CashDraw pin => printer.CashDraw pin p
  | Beep times duration => printer.Beep times duration p
  | Barcode code barcodeType width height =>
      printer.Barcode code barcodeType width height p
  | QRCode content size => printer.QRCode content size p
  | QRCodeAdvanced content size errorLevel model =>
      printer.QRCodeAdvanced content size errorLevel model p
  | QRCodeURL url size => printer.QRCodeURL url size p
  | QRCodeWiFi ssid password authType hidden =>
      printer.QRCodeWiFi ssid password authType hidden p
  | QRCodeVCard name phone email org =>
      printer.QRCodeVCard name phone email org p
  | QRCodeSMS phone message => printer.QRCodeSMS phone message p
  | QRCodeEmail to subject body => printer.QRCodeEmail to subject body p
  | QRCodePhone phone => printer.QRCodePhone phone p
  | Raw data => printer.Raw data p
  | Charset n => printer.Charset n p
  | CodePage n => printer.CodePage n p
  | Reverse on => printer.Reverse on p
  | LineSpacing n => printer.LineSpacing n p
  | LineSpacingDefault => printer.LineSpacingDefault p
  | FeedDots n => printer.FeedDots n p
  | FeedLines n => printer.FeedLines n p
  | RasterImage mode widthBytes heightDots data =>
      printer.RasterImage mode widthBytes heightDots data p
  end.

(** A chain of calls, first call first. *)
Definition run_all {a : adapter.Adapter} (cs : list call)
    (p : printer.Printer a) : printer.Printer a :=
  fold_left (fun p c => run c p) cs p.

(** A list of bytes: every element is in [0,256). *)
Definition is_bytes (l : list Z) : Prop := Forall (fun b => 0 <= b < 256) l.



End calls.

(** ** What a call may do besides returning *)

Module outcome.

(** A Go function returns, or panics with a run-time error. *)
Inductive outcome (A : Type) : Type :=
| Returns (x : A)
| Panics (e : error).

Arguments Returns {A} x.
Arguments Panics {A} e.

Definition slice_bounds_out_of_range : error :=
  Errorf "panic: runtime error: slice bounds out of range" [].

End outcome.

(** ** handlers/handlers.go: the parts that build and send *)

Module handlers.

Import outcome.

(** [truncate]: the slice [s[:maxLen-3]] panics when [maxLen-3] is
    negative; it cannot exceed the length, the string being longer than
    [maxLen]. *)
Definition truncate (s : string) (maxLen : Z) : outcome string :=
  if Z.of_nat (String.length s) <=? maxLen then Returns s
  else if maxLen - 3 <? 0 then Panics slice_bounds_out_of_range
  else Returns (substring 0 (Z.to_nat (maxLen - 3)) s ++ "...").

(** [RawPrintHandler] between the decoding of the request and the writing
    of the response: the bytes of the request go through the builder of the
    service. *)
Definition RawPrintHandler {a : adapter.Adapter} (data : list byte)
    (p : printer.Printer a) : option error * printer.Printer a :=
  printer.Flush (printer.Raw data p).

End handlers.

(** ** Sequences of calls on a transport *)

Module session.

Inductive Method : Type :=
| MOpen
| MWrite (data : list byte)
| MRead
| MClose
| MIsOpen.

(** The state a method call leaves, its result dropped. *)
Definition exec (a : adapter.Adapter) (m : Method) (s : adapter.St a)
    : adapter.St a :=
  match m with
  | MOpen => snd (adapter.Open a s)
  | MWrite data => snd (adapter.Write a data s)
  | MRead => snd (adapter.Read a s)
  | MClose => snd (adapter.Close a s)
  | MIsOpen => snd (adapter.IsOpen a s)
  end.

Definition exec_all (a : adapter.Adapter) (ms : list Method)
    (s : adapter.St a) : adapter.St a :=
  fold_left (fun s m => exec a m s) ms s.

(** A network whose first dial is refused and whose later dials succeed.
    Its world counts the dials and keeps what was written. *)
Definition down_once : network.Net := {|
  network.W := (nat * list (list byte))%type;
  network.Conn := unit;
  network.DialTimeout := fun _ _ _ w =>
    match fst w with
    | O => (inr (Errorf "connection refused" []), (S (fst w), snd w))
    | S _ => (inl tt, (S (fst w), snd w))
    end;
  network.Conn_Write := fun _ data w =>
    ((Z.of_nat (List.length data), None), (fst w, (snd w ++ [data])%list));
  network.Conn_Read := fun _ _ w => (([], None), w);
  network.Conn_SetReadDeadline := fun _ _ w => w;
  network.Conn_Close := fun _ w => (None, w);
  network.Now := fun w => (0, w)
|}.

(** A USB host with nothing attached.  Its world counts the contexts that
    are open. *)
Definition bare_host : usb.Gousb := {|
  usb.W := nat;
  usb.Context := unit;
  usb.Device := unit;
  usb.Interface := unit;
  usb.OutEndpoint := unit;
  usb.InEndpoint := unit;
  usb.NewContext := fun n => (tt, S n);
  usb.Context_Close := fun _ n => Nat.pred n;
  usb.OpenDeviceWithVIDPID := fun _ _ _ n => ((None, None), n);
  usb.OpenDevices := fun _ _ n => (([], None), n);
  usb.Device_Close := fun _ n => n;
  usb.SetAutoDetach := fun _ _ n => (None, n);
  usb.DefaultInterface := fun _ n => (inr (Errorf "no device" []), n);
  usb.Setting := fun _ => {| usb.Class := 0; usb.Endpoints := [] |};
  usb.Interface_OutEndpoint := fun _ _ => (None, Some (Errorf "no endpoint" []));
  usb.Interface_InEndpoint := fun _ _ => (None, Some (Errorf "no endpoint" []));
  usb.OutEndpoint_Write := fun _ _ n => ((0, None), n);
  usb.InEndpoint_Read := fun _ _ n => (([], None), n)
|}.

(** A USB host with one printer, whose interface has an OUT endpoint 1 and
    an IN endpoint 2.  Its world keeps what was written to the printer. *)
Definition one_printer : usb.Gousb := {|
  usb.W := list (list byte);
  usb.Context := unit;
  usb.Device := unit;
  usb.Interface := unit;
  usb.OutEndpoint := Z;
  usb.InEndpoint := Z;
  usb.NewContext := fun w => (tt, w);
  usb.Context_Close := fun _ w => w;
  usb.OpenDeviceWithVIDPID := fun _ _ _ w => ((Some tt, None), w);
  usb.OpenDevices := fun _ _ w => (([tt], None), w);
  usb.Device_Close := fun _ w => w;
  usb.SetAutoDetach := fun _ _ w => (None, w);
  usb.DefaultInterface := fun _ w => (inl (tt, fun w => w), w);
  usb.Setting := fun _ =>
    {| usb.Class := usb.ClassPrinter;
       usb.Endpoints :=
         [ {| usb.Number := 2; usb.Direction := usb.EndpointDirectionIn |};
           {| usb.Number := 1; usb.Direction := usb.EndpointDirectionOut |} ] |};
  usb.Interface_OutEndpoint := fun _ n => (Some n, None);
  usb.Interface_InEndpoint := fun _ n => (Some n, None);
  usb.OutEndpoint_Write := fun _ data w =>
    ((Z.of_nat (List.length data), None), (w ++ [data])%list);
  usb.InEndpoint_Read := fun _ _ w => (([], None), w)
|}.

End session.

(** ** Libraries that keep a record of the calls they receive *)

(** A list whose last element is [z]. *)
Definition ends_with {A : Type} (l : list A) (z : A) : Prop :=
  exists pre : list A, l = (pre ++ [z])%list.

Module spool_trace.

(** The calls into [winspool.drv]. *)
Inductive SpoolCall : Type :=
| OpenPrinterW (name : string)
| ClosePrinter (h : Z)
| StartDocPrinterW (h : Z)
| StartPagePrinter (h : Z)
| WritePrinter (h : Z) (data : list byte)
| EndPagePrinter (h : Z)
| EndDocPrinter (h : Z).

(** A spooler that answers as [Sp] does and lists the calls it gets,
    oldest first. *)
Definition Traced (Sp : windows.Winspool) : windows.Winspool := {|
  windows.W := (list SpoolCall * windows.W Sp)%type;
  windows.OpenPrinterW := fun name w =>
    let (r, os) := windows.OpenPrinterW Sp name (snd w) in
    (r, ((fst w ++ [OpenPrinterW name])%list, os));
  windows.ClosePrinter := fun h w =>
    let (r, os) := windows.ClosePrinter Sp h (snd w) in
    (r, ((fst w ++ [ClosePrinter h])%list, os));
  windows.StartDocPrinterW := fun h level di w =>
    let (r, os) := windows.StartDocPrinterW Sp h level di (snd w) in
    (r, ((fst w ++ [StartDocPrinterW h])%list, os));
  windows.StartPagePrinter := fun h w =>
    let (r, os) := windows.StartPagePrinter Sp h (snd w) in
    (r, ((fst w ++ [StartPagePrinter h])%list, os));
  windows.WritePrinter := fun h data w =>
    let (r, os) := windows.WritePrinter Sp h data (snd w) in
    (r, ((fst w ++ [WritePrinter h data])%list, os));
  windows.EndPagePrinter := fun h w =>
    let (r, os) := windows.EndPagePrinter Sp h (snd w) in
    (r, ((fst w ++ [EndPagePrinter h])%list, os));
  windows.EndDocPrinter := fun h w =>
    let (r, os) := windows.EndDocPrinter Sp h (snd w) in
    (r, ((fst w ++ [EndDocPrinter h])%list, os))
|}.

End spool_trace.

Module usb_trace.

Section Traced.

Variable G : usb.Gousb.

(** The calls into [gousb] that act on the host. *)
Inductive UsbCall : Type :=
| NewContext (c : usb.Context G)
| Context_Close (c : usb.Context G)
| OpenDeviceWithVIDPID (vid pid : Z)
| OpenDevices
| Device_Close (d : usb.Device G)
| SetAutoDetach (d : usb.Device G)
| DefaultInterface (d : usb.Device G)
| Release (i : usb.Interface G)
| OutEndpoint_Write (e : usb.OutEndpoint G) (data : list byte)
| InEndpoint_Read (e : usb.InEndpoint G).

Definition World : Type := (list UsbCall * usb.W G)%type.

Definition note (c : UsbCall) (w : World) (host : usb.W G) : World :=
  ((fst w ++ [c])%list, host).

(** A host that answers as [G] does and lists the calls it gets, oldest
    first; the release function of a claimed interface is listed when it
    runs. *)
Definition Traced : usb.Gousb := {|
  usb.W := World;
  usb.Context := usb.Context G;
  usb.Device := usb.Device G;
  usb.Interface := usb.Interface G;
  usb.OutEndpoint := usb.OutEndpoint G;
  usb.InEndpoint := usb.InEndpoint G;
  usb.NewContext := fun w =>
    let (c, host) := usb.NewContext G (snd w) in (c, note (NewContext c) w host);
  usb.Context_Close := fun c w =>
    note (Context_Close c) w (usb.Context_Close G c (snd w));
  usb.OpenDeviceWithVIDPID := fun c vid pid w =>
    let (r, host) := usb.OpenDeviceWithVIDPID G c vid pid (snd w) in
    (r, note (OpenDeviceWithVIDPID vid pid) w host);
  usb.OpenDevices := fun c filter w =>
    let (r, host) := usb.OpenDevices G c filter (snd w) in
    (r, note OpenDevices w host);
  usb.Device_Close := fun d w =>
    note (Device_Close d) w (usb.Device_Close G d (snd w));
  usb.SetAutoDetach := fun d on w =>
    let (r, host) := usb.SetAutoDetach G d on (snd w) in
    (r, note (SetAutoDetach d) w host);
  usb.DefaultInterface := fun d w =>
    let (r, host) := usb.DefaultInterface G d (snd w) in
    (match r with
     | inl (i, release) =>
         inl (i, fun w' : World => note (Release i) w' (release (snd w')))
     | inr err => inr err
     end,
     note (DefaultInterface d) w host);
  usb.Setting := usb.Setting G;
  usb.Interface_OutEndpoint := usb.Interface_OutEndpoint G;
  usb.Interface_InEndpoint := usb.Interface_InEndpoint G;
  usb.OutEndpoint_Write := fun e data w =>
    let (r, host) := usb.OutEndpoint_Write G e data (snd w) in
    (r, note (OutEndpoint_Write e data) w host);
  usb.InEndpoint_Read := fun e n w =>
    let (r, host) := usb.InEndpoint_Read G e n (snd w) in
    (r, note (InEndpoint_Read e) w host)
|}.

End Traced.

End usb_trace.

(** ** What an open transport holds *)

(** An open USB adapter holds its context, its device, the release
    function of its interface and an OUT endpoint. *)
Definition usb_ready (G : usb.Gousb) (s : usb.St G) : Prop :=
  usb.open G (fst s) = true ->
  usb.ctx G (fst s) <> None /\ usb.device G (fst s) <> None
  /\ usb.done G (fst s) <> None /\ usb.outEP G (fst s) <> None.


(** An open network adapter holds its connection. *)
Definition network_ready (N : network.Net) (s : network.St N) : Prop :=
  network.open N (fst s) = true -> network.conn N (fst s) <> None.

(** ** The desktop application: escape sequences of the raw editor *)

Module gui.

(** The replacement rune of an invalid encoding. *)
Definition RuneError : Z := 0xFFFD.

(** The runes [range] yields over a string of two bytes: one rune for a
    valid two-byte encoding, else one rune per byte, a byte that is not
    ASCII giving [RuneError]. *)
Definition runes2 (b0 b1 : byte) : list Z :=
  let single (b : byte) := if b <? 0x80 then b else RuneError in
  if b0 <? 0x80 then [b0; single b1]
  else if (0xC2 <=? b0) && (b0 <=? 0xDF) && (0x80 <=? b1) && (b1 <=? 0xBF)
  then [Z.lor (Z.shiftl (Z.land b0 0x1F) 6) (Z.land b1 0x3F)]
  else [RuneError; single b1].

(** The body of the loop of [parseHexByte]: the byte so far and the next
    rune. *)
Definition hex_step (b : byte) (c : Z) : byte + error :=
  let b := to_byte (Z.shiftl b 4) in
  if (0x30 <=? c) && (c <=? 0x39) then inl (Z.lor b (to_byte (c - 0x30)))
  else if (0x61 <=? c) && (c <=? 0x66) then inl (Z.lor b (to_byte (c - 0x61 + 10)))
  else if (0x41 <=? c) && (c <=? 0x46) then inl (Z.lor b (to_byte (c - 0x41 + 10)))
  else inr (Errorf "invalid hex char: %c" [VInt c]).

Fixpoint hex_loop (b : byte) (cs : list Z) : byte * option error :=
  match cs with
  | [] => (b, None)
  | c :: cs =>
      match hex_step b c with
      | inl b' => hex_loop b' cs
      | inr err => (0, Some err)
      end
  end.

Definition parseHexByte (hex : string) : byte * option error :=
  match bytes hex with
  | [b0; b1] => hex_loop 0 (runes2 b0 b1)
  | _ => (0, Some (Errorf "invalid hex length" []))
  end.

(** [parseEscapeSequences].  The index [i] of the source only grows, by
    one, two or four: the function goes down the string that is left from
    [i] on.  [s[i+1]] exists when that string has two characters, and
    [s[i+2:i+4]] when it has four. *)
Fixpoint parseEscapeSequences (s : string) : list byte :=
  match s with
  | EmptyString => []
  | String c rest =>
      let literal := byte_of_ascii c :: parseEscapeSequences rest in
      if Ascii.eqb c "\" then
        match rest with
        | EmptyString => literal
        | String e rest1 =>
            if Ascii.eqb e "x" || Ascii.eqb e "X" then
              match rest1 with
              | String h1 (String h2 rest2) =>
                  match parseHexByte (String h1 (String h2 EmptyString)) with
                  | (b, None) => b :: parseEscapeSequences rest2
                  | (_, Some _) => literal
                  end
              | _ => literal
              end
            else if Ascii.eqb e "n" then 0x0a :: parseEscapeSequences rest1
            else if Ascii.eqb e "r" then 0x0d :: parseEscapeSequences rest1
            else if Ascii.eqb e "t" then 0x09 :: parseEscapeSequences rest1
            else if Ascii.eqb e "\" then 0x5c :: parseEscapeSequences rest1
            else literal
        end
      else literal
  end.

(** Writing bytes down for the raw editor: two hexadecimal digits behind a
    backslash and an x, for each byte. *)
Definition hex_digit (upper : bool) (d : Z) : ascii :=
  ascii_of_byte (if d <? 10 then 0x30 + d
                 else if upper then 0x41 + (d - 10) else 0x61 + (d - 10)).

Definition hex2 (upper : bool) (b : byte) : string :=
  String (hex_digit upper (b / 16))
    (String (hex_digit upper (b mod 16)) EmptyString).

Fixpoint escape (upper : bool) (bs : list byte) : string :=
  match bs with
  | [] => EmptyString
  | b :: bs => String "\" (String "x" (hex2 upper b ++ escape upper bs))
  end.

(** A hexadecimal digit, as a character. *)
Definition is_hex (c : ascii) : bool :=
  let n := byte_of_ascii c in
  ((0x30 <=? n) && (n <=? 0x39)) || ((0x61 <=? n) && (n <=? 0x66))
  || ((0x41 <=? n) && (n <=? 0x46)).

(** A string without a backslash. *)
Fixpoint no_backslash (s : string) : Prop :=
  match s with
  | EmptyString => True
  | String c rest => c <> "\"%char /\ no_backslash rest
  end.

End gui.

(** ** pkg/update/update.go: version numbers *)

Module update.

(** [strings.TrimPrefix] with a prefix of one character. *)
Definition TrimPrefix (s : string) (prefix : ascii) : string :=
  match s with
  | String c rest => if Ascii.eqb c prefix then rest else s
  | EmptyString => s
  end.

Definition is_digit (c : ascii) : bool :=
  (0x30 <=? byte_of_ascii c) && (byte_of_ascii c <=? 0x39).

(** [FindAllString] for the expression [\d+]: the maximal runs of decimal
    digits, from left to right.  [cur] is the run being read, if any. *)
Fixpoint digit_runs_from (cur : option string) (s : string) : list string :=
  let closed := match cur with Some run => [run] | None => [] end in
  match s with
  | EmptyString => closed
  | String c rest =>
      if is_digit c then
        let run := match cur with Some run => run | None => EmptyString end in
        digit_runs_from (Some (run ++ String c EmptyString)) rest
      else (closed ++ digit_runs_from None rest)%list
  end.

Definition digit_runs (s : string) : list string := digit_runs_from None s.

Definition MaxInt64 : Z := 9223372036854775807.

(** The number a run of digits writes. *)
Definition decimal (digits : string) : Z :=
  fold_left (fun n c => 10 * n + (byte_of_ascii c - 0x30))
    (list_ascii_of_string digits) 0.

(** [strconv.Atoi] on a run of digits, its error dropped as the caller
    drops it: the number, or the largest [int] when the number does not fit
    (an [int] has 64 bits). *)
Definition Atoi (digits : string) : Z := Z.min (decimal digits) MaxInt64.

Definition parseVersion (v : string) : list Z :=
  let v := TrimPrefix v "v" in
  let v := TrimPrefix v "V" in
  List.map Atoi (digit_runs v).

(** The loop of [CompareVersions] from index [i] on, with [fuel] rounds to
    go. *)
Fixpoint compare_from (fuel : nat) (i : Z) (parts1 parts2 : list Z) : Z :=
  match fuel with
  | O => 0
  | S fuel =>
      let p1 := if i <? len parts1 then nth (Z.to_nat i) parts1 0 else 0 in
      let p2 := if i <? len parts2 then nth (Z.to_nat i) parts2 0 else 0 in
      if p1 <? p2 then -1
      else if p1 >? p2 then 1
      else compare_from fuel (i + 1) parts1 parts2
  end.

Definition CompareVersions (v1 v2 : string) : Z :=
  let parts1 := parseVersion v1 in
  let parts2 := parseVersion v2 in
  let maxLen := len parts1 in
  let maxLen := if len parts2 >? maxLen then len parts2 else maxLen in
  compare_from (Z.to_nat maxLen) 0 parts1 parts2.

End update.

(** ** Discovery: the printers of the machine *)

Module discovery.

(** A USB device as the Windows SetupAPI describes it. *)
Record USBDeviceInfo : Type := {
  VendorID : Z;
  ProductID : Z;
  Description : string;
  Manufacturer : string;
  DeviceClass : string;
  InstanceID : string;
  IsPrinter : bool
}.

(** The value of a hexadecimal digit. *)
Definition hex_value (c : ascii) : option Z :=
  let n := byte_of_ascii c in
  if (0x30 <=? n) && (n <=? 0x39) then Some (n - 0x30)
  else if (0x41 <=? n) && (n <=? 0x46) then Some (n - 0x41 + 10)
  else if (0x61 <=? n) && (n <=? 0x66) then Some (n - 0x61 + 10)
  else None.

(** The string behind a prefix, when it starts with it. *)
Fixpoint strip (prefix s : string) : option string :=
  match prefix, s with
  | EmptyString, _ => Some s
  | String p prefix, String c s => if Ascii.eqb p c then strip prefix s else None
  | String _ _, EmptyString => None
  end.

(** Four hexadecimal digits at the head of a string, as the number they
    write ([strconv.ParseUint] in base 16), and what follows them. *)
Definition hex4 (s : string) : option (Z * string) :=
  match s with
  | String c1 (String c2 (String c3 (String c4 rest))) =>
      match hex_value c1, hex_value c2, hex_value c3, hex_value c4 with
      | Some d1, Some d2, Some d3, Some d4 =>
          Some (((d1 * 16 + d2) * 16 + d3) * 16 + d4, rest)
      | _, _, _, _ => None
      end
  | _ => None
  end.

(** A match of [VID_([0-9A-Fa-f]{4})&PID_([0-9A-Fa-f]{4})] at the head of
    a string: the two groups, as numbers. *)
Definition match_here (s : string) : option (Z * Z) :=
  match strip "VID_" s with
  | None => None
  | Some s =>
      match hex4 s with
      | None => None
      | Some (vid, s) =>
          match strip "&PID_" s with
          | None => None
          | Some s =>
              match hex4 s with
              | None => None
              | Some (pid, _) => Some (vid, pid)
              end
          end
      end
  end.

(** [FindStringSubmatch]: the leftmost match. *)
Fixpoint find_match (s : string) : option (Z * Z) :=
  match match_here s with
  | Some m => Some m
  | None =>
      match s with
      | EmptyString => None
      | String _ rest => find_match rest
      end
  end.

(** [parseVIDPID], with [uint16] results. *)
Definition parseVIDPID (instanceID : string) : Z * Z :=
  match find_match instanceID with
  | None => (0, 0)
  | Some (vid, pid) => (vid mod 65536, pid mod 65536)
  end.

(** A number below 65536 in four capital hexadecimal digits. *)
Definition to_hex4 (v : Z) : string :=
  gui.hex2 true (v / 256) ++ gui.hex2 true (v mod 256).

(** A string without the letter V. *)
Fixpoint no_V (s : string) : Prop :=
  match s with
  | EmptyString => True
  | String c rest => c <> "V"%char /\ no_V rest
  end.

(** [FindPrinters].  The enumerations it calls are taken as functions of
    the world [W]; [log.Printf] adds a line to the log. *)
Section FindPrinters.

Variable W : Type.
Variable GOOS : string.
Variable FindWindowsPrinters : W -> (list adapter.PrinterInfo * option error) * W.
Variable FindAllUSBDevices : W -> (list USBDeviceInfo * option error) * W.
Variable FindUSBPrinters : W -> (list adapter.PrinterInfo * option error) * W.

Definition Log : Type := list (string * error).

Definition of_usb_device (dev : USBDeviceInfo) : adapter.PrinterInfo :=
  {| adapter.VendorID := VendorID dev;
     adapter.ProductID := ProductID dev;
     adapter.Manufacturer := Manufacturer dev;
     adapter.Product := Description dev;
     adapter.IsPrinter := IsPrinter dev;
     adapter.DeviceType := "USB" |}.

Definition set_DeviceType (t : string) (info : adapter.PrinterInfo)
    : adapter.PrinterInfo :=
  {| adapter.VendorID := adapter.VendorID info;
     adapter.ProductID := adapter.ProductID info;
     adapter.Manufacturer := adapter.Manufacturer info;
     adapter.Product := adapter.Product info;
     adapter.IsPrinter := adapter.IsPrinter info;
     adapter.DeviceType := t |}.

Definition FindPrinters
    : M (Log * W) (list adapter.PrinterInfo * option error) :=
  let allPrinters : list adapter.PrinterInfo := [] in
  if String.eqb GOOS "windows" then
    (* 1. Windows Spooler Printers *)
    r <- call FindWindowsPrinters ;;
    allPrinters <-
      match r with
      | (_, Some err) =>
          update (fun log =>
            (log ++ [("[Discovery] Failed to list Windows printers: %v", err)])%list) ;;
          ret allPrinters
      | (winPrinters, None) => ret (allPrinters ++ winPrinters)%list
      end ;;
    (* 2. All USB Devices (via SetupAPI) *)
    r <- call FindAllUSBDevices ;;
    allPrinters <-
      match r with
      | (_, Some err) =>
          update (fun log =>
            (log ++ [("[Discovery] Failed to list USB devices: %v", err)])%list) ;;
          ret allPrinters
      | (usbDevices, None) =>
          ret (allPrinters ++ List.map of_usb_device usbDevices)%list
      end ;;
    ret (allPrinters, None)
  else
    (* Non-Windows: use libusb-based discovery *)
    r <- call FindUSBPrinters ;;
    allPrinters <-
      match r with
      | (_, Some err) =>
          update (fun log =>
            (log ++ [("[Discovery] Failed to list USB printers: %v", err)])%list) ;;
          ret allPrinters
      | (usbPrinters, None) =>
          ret (allPrinters ++ List.map (set_DeviceType "USB") usbPrinters)%list
      end ;;
    ret (allPrinters, None).

End FindPrinters.

(** What a source contributes: its list, or nothing when it failed. *)
Definition found {A : Type} (r : list A * option error) : list A :=
  match snd r with
  | None => fst r
  | Some _ => []
  end.

End discovery.

(** ** Templates of the delivery platforms: logos and platform names *)

Module templates.

(** An [image.Image]: its bounds and, at a point, the red, green and blue
    of [At(x, y).RGBA()], each a [uint32]. *)
Record Image : Type := {
  MinX : Z;
  MinY : Z;
  MaxX : Z;
  MaxY : Z;
  RGBA : Z -> Z -> Z * Z * Z
}.

Definition uint32 (x : Z) : Z := x mod 4294967296.

(** [for i := 0; i < n; i++ { body }] where the body reads [i]. *)
Definition for_range {A : Type} (n : Z) (body : Z -> A -> A) (init : A) : A :=
  fold_left (fun acc i => body (Z.of_nat i) acc) (seq 0 (Z.to_nat n)) init.

(** [data[i] |= m].  The index is within the slice wherever
    [ImageToRaster] stores. *)
Fixpoint or_at (data : list byte) (i : nat) (m : byte) : list byte :=
  match data, i with
  | [], _ => []
  | b :: data, O => Z.lor b m :: data
  | b :: data, S i => b :: or_at data i m
  end.

(** The grey level of a point, and whether it is printed. *)
Definition gray (img : Image) (x y : Z) : Z :=
  let '(r, g, b) := RGBA img (MinX img + x) (MinY img + y) in
  Go.div (uint32 (uint32 (uint32 (r * 299) + uint32 (g * 587)) + uint32 (b * 114)))
    1000.

Definition dark (img : Image) (x y : Z) : bool := gray img x y <? 32768.

Definition ImageToRaster (img : Image) : list byte * Z * Z :=
  let width := MaxX img - MinX img in
  let height := MaxY img - MinY img in
  (* Width in bytes (8 pixels per byte) *)
  let widthBytes := Go.div (width + 7) 8 in
  let data := repeat 0 (Z.to_nat (widthBytes * height)) in
  let data :=
    for_range height (fun y data =>
      for_range width (fun x data =>
        if dark img x y then
          let byteIndex := y * widthBytes + Go.div x 8 in
          let bitIndex := 7 - Go.rem x 8 in
          or_at data (Z.to_nat byteIndex) (to_byte (Z.shiftl 1 bitIndex))
        else data) data) data in
  (data, widthBytes, height).

(** The bit of a raster that stands for the point (x, y). *)
Definition raster_bit (data : list byte) (widthBytes x y : Z) : bool :=
  Z.testbit (nth (Z.to_nat (y * widthBytes + x / 8)) data 0) (7 - x mod 8).

(** One pixel of the loops: the points are stored in the order of the
    list. *)
Definition paint (img : Image) (widthBytes : Z) (data : list byte)
    (p : Z * Z) : list byte :=
  let (x, y) := p in
  if dark img x y then
    or_at data (Z.to_nat (y * widthBytes + Go.div x 8))
      (to_byte (Z.shiftl 1 (7 - Go.rem x 8)))
  else data.

Definition points (width height : Z) : list (Z * Z) :=
  flat_map (fun y => List.map (fun x => (Z.of_nat x, Z.of_nat y))
                       (seq 0 (Z.to_nat width)))
    (seq 0 (Z.to_nat height)).

(** The logo step of [PrintTemplateOrder]: the raster of the logo, centred,
    and a line feed. *)
Definition print_logo {a : adapter.Adapter} (img : Image)
    (p : printer.Printer a) : printer.Printer a :=
  let '(rasterData, widthBytes, height) := ImageToRaster img in
  printer.NewLine
    (printer.RasterImage 0 widthBytes height rasterData
       (printer.Align "center" p)).

(** A receipt template of a delivery platform. *)
Record Template : Type := {
  ID : string;
  Name : string;
  LogoPath : string
}.

Definition no_template : Template :=
  {| ID := EmptyString; Name := EmptyString; LogoPath := EmptyString |}.

(** A Go map with string keys, as the list of its entries; the keys of the
    two maps below are distinct. *)
Definition lookup {A : Type} (m : list (string * A)) (key : string)
    : option A :=
  match List.find (fun e => String.eqb (fst e) key) m with
  | Some e => Some (snd e)
  | None => None
  end.

Definition PlatformTemplates : list (string * Template) :=
  [ ("getir_yemek",
     {| ID := "getir_yemek"; Name := "Getir Yemek";
        LogoPath := "logos/getir_yemek.bmp" |});
    ("yemeksepeti",
     {| ID := "yemeksepeti"; Name := "Yemeksepeti";
        LogoPath := "logos/yemeksepeti.bmp" |});
    ("trendyol_go",
     {| ID := "trendyol_go"; Name := "Trendyol Go";
        LogoPath := "logos/trendyol_go.bmp" |});
    ("migros_yemek",
     {| ID := "migros_yemek"; Name := "Migros Yemek";
        LogoPath := "logos/migros_yemek.bmp" |}) ].

Definition variations : list (string * string) :=
  [ ("getir", "getir_yemek");
    ("getiryemek", "getir_yemek");
    ("getir yemek", "getir_yemek");
    ("yemeksepeti", "yemeksepeti");
    ("yemek sepeti", "yemeksepeti");
    ("trendyol", "trendyol_go");
    ("trendyolgo", "trendyol_go");
    ("trendyol go", "trendyol_go");
    ("trendyol_go", "trendyol_go");
    ("migros", "migros_yemek");
    ("migrosyemek", "migros_yemek");
    ("migros yemek", "migros_yemek");
    ("migros_yemek", "migros_yemek") ].

(** [strings.ReplaceAll] of one character by one character. *)
Fixpoint ReplaceAll (s : string) (old new : ascii) : string :=
  match s with
  | EmptyString => EmptyString
  | String c rest =>
      String (if Ascii.eqb c old then new else c) (ReplaceAll rest old new)
  end.

(** A string without a space. *)
Fixpoint no_space (s : string) : Prop :=
  match s with
  | EmptyString => True
  | String c rest => c <> " "%char /\ no_space rest
  end.

Section Platforms.

(** [strings.ToLower] and [strings.TrimSpace], which follow Unicode, are
    taken from the library. *)
Variable ToLower : string -> string.
Variable TrimSpace : string -> string.

Definition NormalizePlatform (platform : string) : string :=
  let normalized := ToLower (TrimSpace platform) in
  let normalized := ReplaceAll normalized " " "_" in
  match lookup variations normalized with
  | Some key => key
  | None => normalized
  end.

Definition GetTemplate (platform : string) : Template * bool :=
  let key := NormalizePlatform platform in
  match lookup PlatformTemplates key with
  | Some tmpl => (tmpl, true)
  | None => (no_template, false)
  end.

End Platforms.

(** Lower case for the letters of ASCII. *)
Definition ascii_lower (s : string) : string :=
  string_of_list_ascii
    (List.map (fun c =>
       let n := byte_of_ascii c in
       if (0x41 <=? n) && (n <=? 0x5a) then ascii_of_byte (n + 32) else c)
       (list_ascii_of_string s)).

End templates.

Import commands printer props.

Notation "p |> f" := (f p) (at level 50, left associativity, only parsing).

(** ** The byte table and the builder *)

Ltac go_cmp :=
  repeat match goal with
  | |- context [?x <? ?y] => destruct (Z.ltb_spec x y); cbv iota
  | |- context [?x >? ?y] => rewrite (Z.gtb_ltb x y)
  | |- context [?x =? ?y] => destruct (Z.eqb_spec x y); cbv iota
  end.

Lemma to_byte_small (x : Z) : 0 <= x < 256 -> to_byte x = x.
Proof. intros H. unfold to_byte. now apply Z.mod_small. Qed.

Lemma TxtCustomSize_clamped (width height : Z) :
  TxtCustomSize width height =
    [0x1d; 0x21; (clamped 1 8 width - 1) * 16 + (clamped 1 8 height - 1)].
Proof.
  unfold TxtCustomSize, clamped.
  rewrite to_byte_small; go_cmp; try lia; do 3 f_equal; lia.
Qed.

Lemma BarcodeHeight_clamped (height : Z) :
  BarcodeHeight height = [0x1d; 0x68; clamped 1 255 height].
Proof.
  unfold BarcodeHeight, clamped.
  rewrite to_byte_small; go_cmp; try lia; do 3 f_equal; lia.
Qed.

Lemma BarcodeWidth_clamped (width : Z) :
  BarcodeWidth width = [0x1d; 0x77; clamped 2 6 width].
Proof.
  unfold BarcodeWidth, clamped.
  rewrite to_byte_small; go_cmp; try lia; do 3 f_equal; lia.
Qed.

(** The builder on a few inputs. *)
Example TxtCustomSize_out_of_range : TxtCustomSize 0 9 = [0x1d; 0x21; 0x07].
Proof. reflexivity. Qed.

Example TxtCustomSize_largest : TxtCustomSize 8 8 = [0x1d; 0x21; 0x77].
Proof. reflexivity. Qed.

Example Barcode_code128 :
  buffer (Barcode "AB" "CODE128" 1 300
            (New (a := console.Adapter) quiet_console)) =
    [0x1d; 0x48; 0x02; 0x1d; 0x66; 0x00; 0x1d; 0x68; 0xff; 0x1d; 0x77; 0x02;
     0x1d; 0x6b; 0x49; 0x41; 0x42; 0x00].
Proof. reflexivity. Qed.

Example Cut_partial :
  buffer (Cut true (New (a := console.Adapter) quiet_console)) =
    [0x0a; 0x0a; 0x0a; 0x1d; 0x56; 0x01].
Proof. reflexivity. Qed.

(** C1: on a fresh builder, Init, Align(center), Bold(true), Text(HELLO),
    Bold(false), Cut(false) leave in the buffer exactly the init bytes, the
    align-center bytes, the bold-on bytes, the ASCII bytes of HELLO, the
    bold-off bytes, three line feeds and the full-cut bytes, in that order
    and with nothing else. *)
Theorem receipt_header_bytes (a : adapter.Adapter) (s : adapter.St a) :
  let p := New s |> Init |> Align "center" |> Bold true |> Text "HELLO"
             |> Bold false |> Cut false in
  buffer p =
    ([0x1b; 0x40] ++ [0x1b; 0x61; 0x01] ++ [0x1b; 0x45; 0x01]
      ++ [0x48; 0x45; 0x4c; 0x4c; 0x4f] ++ [0x1b; 0x45; 0x00]
      ++ [0x0a; 0x0a; 0x0a] ++ [0x1d; 0x56; 0x00])%list
  /\ buffer p =
    (HW_INIT ++ TXT_ALIGN_CT ++ TXT_BOLD_ON ++ bytes "HELLO" ++ TXT_BOLD_OFF
      ++ CTL_LF ++ CTL_LF ++ CTL_LF ++ PAPER_FULL_CUT)%list.
Proof. split; reflexivity. Qed.

(** C3: Size(width, height) appends 0x1D 0x21 s, where s is
    (w-1)*16 + (h-1) for w and h the width and the height brought to the
    nearest bound of [1,8]; for width and height already in [1,8] the byte
    is (width-1)*16 + (height-1); the call is total and s is a byte. *)
Theorem Size_encoding (a : adapter.Adapter) (p : Printer a) (width height : Z) :
  let w := clamped 1 8 width in
  let h := clamped 1 8 height in
  buffer (Size width height p)
    = (buffer p ++ [0x1d; 0x21; (w - 1) * 16 + (h - 1)])%list
  /\ 0 <= (w - 1) * 16 + (h - 1) < 256
  /\ (1 <= width <= 8 -> 1 <= height <= 8 ->
      buffer (Size width height p)
        = (buffer p ++ [0x1d; 0x21; (width - 1) * 16 + (height - 1)])%list).
Proof.
  cbn zeta. unfold Size. cbn [append buffer].
  rewrite TxtCustomSize_clamped. unfold clamped.
  repeat split; try lia.
  intros Hw Hh. do 4 f_equal; lia.
Qed.

Lemma Size_encoding_witness :
  buffer (Size 2 3 (New (a := console.Adapter) quiet_console))
    = [0x1d; 0x21; 0x12].
Proof.
  destruct (Size_encoding console.Adapter (New (a := console.Adapter) quiet_console) 2 3)
    as (_ & _ & H).
  rewrite H; [reflexivity | lia | lia].
Defined.

(** *** Barcodes *)

Lemma type_code_cases (barcodeType : string) :
  type_code barcodeType =
    if one_of barcodeType ["UPC_A"; "UPC-A"] then 0x00
    else if one_of barcodeType ["UPC_E"; "UPC-E"] then 0x01
    else if String.eqb barcodeType "EAN13" then 0x02
    else if String.eqb barcodeType "EAN8" then 0x03
    else if String.eqb barcodeType "CODE39" then 0x04
    else if String.eqb barcodeType "CODE128" then 0x49
    else 0x04.
Proof.
  unfold type_code, one_of. cbn [List.find existsb fst snd orb].
  repeat match goal with
  | |- context [String.eqb ?l barcodeType] =>
      rewrite (String.eqb_sym l barcodeType)
  end.
  repeat match goal with
  | |- context [String.eqb barcodeType ?l] =>
      destruct (String.eqb barcodeType l); cbn [orb]; try reflexivity
  end.
Qed.

Lemma type_code_unrecognized (barcodeType : string) :
  ~ In barcodeType recognized_types -> type_code barcodeType = 0x04.
Proof.
  intros Hnot. rewrite type_code_cases. unfold one_of. cbn [existsb].
  repeat match goal with
  | |- context [String.eqb barcodeType ?l] =>
      destruct (String.eqb_spec barcodeType l) as [-> | _];
        [exfalso; apply Hnot; cbn; tauto | cbn [orb]]
  end.
  reflexivity.
Qed.

(** What one call of [Barcode] appends, whatever the arguments. *)
Lemma Barcode_buffer (a : adapter.Adapter) (p : Printer a)
    (code barcodeType : string) (width height : Z) :
  buffer (Barcode code barcodeType width height p) =
    (buffer p ++ BARCODE_TXT_BLW ++ BARCODE_FONT_A ++ BarcodeHeight height
      ++ BarcodeWidth width ++ [0x1d; 0x6b; type_code barcodeType]
      ++ bytes code ++ [0x00])%list.
Proof.
  rewrite type_code_cases. unfold Barcode.
  repeat match goal with
  | |- context [if ?c then _ else _] => destruct c
  end; cbn [append buffer]; repeat rewrite <- app_assoc; reflexivity.
Qed.

(** C5: Barcode(code, EAN13, width, height) appends the selector
    0x1D 0x6B 0x02 immediately followed by the bytes of code, and a type
    name outside the recognized set gets the CODE39 selector 0x1D 0x6B 0x04
    followed by the bytes of code: the call does not fail. *)
Theorem Barcode_selector (a : adapter.Adapter) (p : Printer a)
    (code : string) (width height : Z) :
  buffer (Barcode code "EAN13" width height p) =
    (buffer p ++ BARCODE_TXT_BLW ++ BARCODE_FONT_A ++ BarcodeHeight height
      ++ BarcodeWidth width ++ [0x1d; 0x6b; 0x02] ++ bytes code ++ [0x00])%list
  /\ forall barcodeType : string,
       ~ In barcodeType recognized_types ->
       buffer (Barcode code barcodeType width height p) =
         (buffer p ++ BARCODE_TXT_BLW ++ BARCODE_FONT_A ++ BarcodeHeight height
           ++ BarcodeWidth width ++ [0x1d; 0x6b; 0x04] ++ bytes code
           ++ [0x00])%list.
Proof.
  split.
  - now rewrite Barcode_buffer.
  - intros barcodeType Hnot.
    now rewrite Barcode_buffer, type_code_unrecognized.
Qed.

Lemma Barcode_selector_witness :
  ~ In "PDF417" recognized_types
  /\ buffer (Barcode "4006381333931" "PDF417" 3 80
               (New (a := console.Adapter) quiet_console)) =
       [0x1d; 0x48; 0x02; 0x1d; 0x66; 0x00; 0x1d; 0x68; 80; 0x1d; 0x77; 3;
        0x1d; 0x6b; 0x04;
        52; 48; 48; 54; 51; 56; 49; 51; 51; 51; 57; 51; 49; 0x00].
Proof.
  assert (Hnot : ~ In "PDF417" recognized_types).
  { cbn. intros H. repeat destruct H as [H | H]; try discriminate H. exact H. }
  split; [exact Hnot |].
  destruct (Barcode_selector console.Adapter
              (New (a := console.Adapter) quiet_console)
              "4006381333931" 3 80) as [_ H].
  rewrite (H "PDF417" Hnot). reflexivity.
Defined.

(** C10: every call of Barcode appends, in this order, HRI below
    (0x1D 0x48 0x02), HRI font A (0x1D 0x66 0x00), the height command
    0x1D 0x68 h with h the height brought into [1,255], the width command
    0x1D 0x77 w with w the width brought into [2,6], the type selector, the
    bytes of code and one NUL byte. *)
Theorem Barcode_layout (a : adapter.Adapter) (p : Printer a)
    (code barcodeType : string) (width height : Z) :
  buffer (Barcode code barcodeType width height p) =
    (buffer p ++ [0x1d; 0x48; 0x02] ++ [0x1d; 0x66; 0x00]
      ++ [0x1d; 0x68; clamped 1 255 height]
      ++ [0x1d; 0x77; clamped 2 6 width]
      ++ [0x1d; 0x6b; type_code barcodeType]
      ++ bytes code ++ [0x00])%list.
Proof.
  rewrite Barcode_buffer, BarcodeHeight_clamped, BarcodeWidth_clamped.
  reflexivity.
Qed.

(** *** QR codes *)

Lemma QRCodeAdvanced_buffer (a : adapter.Adapter) (p : Printer a)
    (content : string) (size errorLevel model : Z) :
  let size' := if size <? 1 then 6 else size in
  let size'' := if size' >? 16 then 16 else size' in
  let storeLen := len (bytes content) + 3 in
  buffer (QRCodeAdvanced content size errorLevel model p) =
    (buffer p ++
      qr_job (to_byte model) (to_byte size'') (to_byte errorLevel)
        (to_byte (Go.rem storeLen 256)) (to_byte (Go.div storeLen 256))
        (bytes content))%list.
Proof.
  cbn zeta. unfold QRCodeAdvanced, qr_job. cbn [append buffer].
  repeat rewrite <- app_assoc. reflexivity.
Qed.

Lemma len_nonneg {A : Type} (l : list A) : 0 <= len l.
Proof. unfold len. lia. Qed.

Lemma low_byte (n : Z) : 0 <= n -> to_byte (Go.rem n 256) = n mod 256.
Proof.
  intros Hn. unfold to_byte, Go.rem.
  rewrite Z.rem_mod_nonneg by lia. apply Z.mod_mod. lia.
Qed.

Lemma high_byte (n : Z) : 0 <= n -> to_byte (Go.div n 256) = (n / 256) mod 256.
Proof.
  intros Hn. unfold to_byte, Go.div. now rewrite Z.quot_div_nonneg by lia.
Qed.

Lemma qr_job_high_byte (model size level pL pH : byte) (payload : list byte) :
  nth 29 (qr_job model size level pL pH payload) 0 = pH.
Proof. reflexivity. Qed.

Lemma qr_job_size_byte (model size level pL pH : byte) (payload : list byte) :
  nth 16 (qr_job model size level pL pH payload) 0 = size.
Proof. reflexivity. Qed.

(** C7, as the specification states it, fails: a module size below 1 is
    not brought to the bound 1.  Size 0 is encoded as 6. *)
Lemma QRCodeAdvanced_size_below_one_counterexample :
  let p := QRCodeAdvanced "A" 0 QRErrorL QRModel2
             (New (a := console.Adapter) quiet_console) in
  buffer p = qr_job QRModel2 6 QRErrorL 4 0 (bytes "A")
  /\ buffer p <> qr_job QRModel2 (clamped 1 16 0) QRErrorL 4 0 (bytes "A").
Proof.
  split; [reflexivity |].
  intros H. apply (f_equal (fun l => nth 16 l 0)) in H.
  vm_compute in H. discriminate H.
Qed.

(** C7, amended: QRCodeAdvanced encodes a module size in [1,16] as it is, a
    size above 16 as 16 and a size below 1 as the default 6, in the size
    command 0x1D 0x28 0x6B 0x03 0x00 0x31 0x43 that follows the model
    command. *)
Theorem QRCodeAdvanced_module_size (a : adapter.Adapter) (p : Printer a)
    (content : string) (size errorLevel model : Z) (n : byte) :
  (size < 1 -> n = 6) ->
  (1 <= size <= 16 -> n = size) ->
  (16 < size -> n = 16) ->
  let storeLen := len (bytes content) + 3 in
  buffer (QRCodeAdvanced content size errorLevel model p) =
    (buffer p ++ QR_MODEL ++ [to_byte model; 0x00]
      ++ [0x1d; 0x28; 0x6b; 0x03; 0x00; 0x31; 0x43] ++ [n]
      ++ QR_ERROR ++ [to_byte errorLevel]
      ++ QR_STORE_PRE
      ++ [to_byte (Go.rem storeLen 256); to_byte (Go.div storeLen 256)]
      ++ QR_STORE_POST ++ bytes content ++ QR_PRINT)%list.
Proof.
  intros Hlo Hmid Hhi. cbn zeta.
  rewrite QRCodeAdvanced_buffer. cbn zeta. unfold qr_job.
  assert (Hn : to_byte (if (if size <? 1 then 6 else size) >? 16 then 16
                        else if size <? 1 then 6 else size) = n).
  { rewrite to_byte_small; go_cmp; lia. }
  rewrite Hn. reflexivity.
Qed.

Lemma QRCodeAdvanced_module_size_witness :
  nth 16 (buffer (QRCodeAdvanced "A" 0 QRErrorL QRModel2
                    (New (a := console.Adapter) quiet_console))) 0 = 6
  /\ nth 16 (buffer (QRCodeAdvanced "A" 20 QRErrorL QRModel2
                       (New (a := console.Adapter) quiet_console))) 0 = 16.
Proof.
  split.
  - rewrite (QRCodeAdvanced_module_size console.Adapter
               (New (a := console.Adapter) quiet_console)
               "A" 0 QRErrorL QRModel2 6);
      [reflexivity | reflexivity | lia | lia].
  - rewrite (QRCodeAdvanced_module_size console.Adapter
               (New (a := console.Adapter) quiet_console)
               "A" 20 QRErrorL QRModel2 16);
      [reflexivity | lia | lia | reflexivity].
Defined.

Lemma length_append (s t : string) :
  String.length (s ++ t) = (String.length s + String.length t)%nat.
Proof. induction s as [| c s IH]; cbn; [reflexivity | now rewrite IH]. Qed.

Lemma len_bytes (s : string) : len (bytes s) = Z.of_nat (String.length s).
Proof.
  unfold len, bytes. rewrite length_map. f_equal.
  induction s as [| c s IH]; cbn; [reflexivity | now rewrite IH].
Qed.

Lemma length_Repeat (c : ascii) (count : Z) :
  0 <= count ->
  Z.of_nat (String.length (Repeat (String c EmptyString) count)) = count.
Proof.
  intros H. unfold Repeat.
  rewrite <- (Z2Nat.id count H) at 2. f_equal.
  induction (Z.to_nat count) as [| n IH]; [reflexivity |].
  rewrite Nat.iter_succ, length_append, IH. reflexivity.
Qed.

Lemma len_wifi_payload (ssid password authType : string) (hidden : bool) :
  len (bytes (wifi_payload ssid password authType hidden)) =
    Z.of_nat (String.length authType) + Z.of_nat (String.length ssid)
      + Z.of_nat (String.length password) + (if hidden then 22 else 23).
Proof.
  rewrite len_bytes. unfold wifi_payload.
  repeat rewrite length_append. destruct hidden; cbn [String.length]; lia.
Qed.

(** What one call of [QRCodeWiFi] appends, whatever the arguments. *)
Lemma QRCodeWiFi_buffer (a : adapter.Adapter) (p : Printer a)
    (ssid password authType : string) (hidden : bool) :
  let payload := bytes (wifi_payload ssid password authType hidden) in
  buffer (QRCodeWiFi ssid password authType hidden p) =
    (buffer p ++
      qr_job QRModel2 6 QRErrorM
        ((len payload + 3) mod 256) (((len payload + 3) / 256) mod 256)
        payload)%list.
Proof.
  cbn zeta. unfold QRCodeWiFi. rewrite QRCodeAdvanced_buffer. cbn zeta.
  fold (wifi_payload ssid password authType hidden).
  pose proof (len_nonneg (bytes (wifi_payload ssid password authType hidden))).
  rewrite low_byte, high_byte by lia. reflexivity.
Qed.

(** C4, as the specification states it, fails on a long payload: with a
    network name of 65505 bytes the stored length is 65536, whose quotient
    by 256 is 256 and no byte.  The builder emits 0. *)
Lemma QRCodeWiFi_length_prefix_counterexample :
  let ssid := Repeat "a" 65505 in
  let payload := bytes (wifi_payload ssid "pw" "WPA" false) in
  let p := QRCodeWiFi ssid "pw" "WPA" false
             (New (a := console.Adapter) quiet_console) in
  len payload + 3 = 65536
  /\ nth 29 (buffer p) 0 = 0
  /\ buffer p <>
       qr_job QRModel2 6 QRErrorM
         ((len payload + 3) mod 256) ((len payload + 3) / 256) payload.
Proof.
  cbn zeta.
  assert (Hlen : len (bytes (wifi_payload (Repeat "a" 65505) "pw" "WPA" false))
                   + 3 = 65536).
  { rewrite len_wifi_payload, length_Repeat by lia. reflexivity. }
  rewrite QRCodeWiFi_buffer. cbn zeta.
  cbn [New buffer app]. rewrite Hlen.
  split; [reflexivity |]. split.
  - now rewrite qr_job_high_byte.
  - intros H. apply (f_equal (fun l => nth 29 l 0)) in H.
    rewrite !qr_job_high_byte in H. discriminate H.
Qed.

(** C4, amended: QRCodeWiFi stores the payload
    WIFI:T:<auth>;S:<ssid>;P:<password>;H:<true|false>;; behind the two
    length bytes (len+3) mod 256 and ((len+3) div 256) mod 256, the second
    being (len+3) div 256 whenever len+3 is below 65536; for Net, pw, WPA
    and a visible network the payload is WIFI:T:WPA;S:Net;P:pw;H:false;;
    and the length bytes are 34 and 0. *)
Theorem QRCodeWiFi_payload_and_length (a : adapter.Adapter) (p : Printer a)
    (ssid password authType : string) (hidden : bool) :
  let payload := bytes (wifi_payload ssid password authType hidden) in
  let storeLen := len payload + 3 in
  buffer (QRCodeWiFi ssid password authType hidden p) =
    (buffer p ++ QR_MODEL ++ [QRModel2; 0x00] ++ QR_SIZE ++ [6]
      ++ QR_ERROR ++ [QRErrorM] ++ QR_STORE_PRE
      ++ [storeLen mod 256; (storeLen / 256) mod 256]
      ++ QR_STORE_POST ++ payload ++ QR_PRINT)%list
  /\ (storeLen < 65536 -> (storeLen / 256) mod 256 = storeLen / 256)
  /\ bytes (wifi_payload "Net" "pw" "WPA" false)
       = bytes "WIFI:T:WPA;S:Net;P:pw;H:false;;".
Proof.
  cbn zeta. split; [| split].
  - rewrite QRCodeWiFi_buffer. reflexivity.
  - intros Hlt.
    pose proof (len_nonneg (bytes (wifi_payload ssid password authType hidden))).
    apply Z.mod_small. split.
    + apply Z.div_pos; lia.
    + apply Z.div_lt_upper_bound; lia.
  - reflexivity.
Qed.

Lemma QRCodeWiFi_payload_and_length_witness :
  let payload := bytes "WIFI:T:WPA;S:Net;P:pw;H:false;;" in
  len payload + 3 < 65536
  /\ ((len payload + 3) / 256) mod 256 = (len payload + 3) / 256
  /\ buffer (QRCodeWiFi "Net" "pw" "WPA" false
               (New (a := console.Adapter) quiet_console)) =
       ([0x1d; 0x28; 0x6b; 0x04; 0x00; 0x31; 0x41; 50; 0x00;
         0x1d; 0x28; 0x6b; 0x03; 0x00; 0x31; 0x43; 6;
         0x1d; 0x28; 0x6b; 0x03; 0x00; 0x31; 0x45; 49;
         0x1d; 0x28; 0x6b; 34; 0; 0x31; 0x50; 0x30]
        ++ payload ++ [0x1d; 0x28; 0x6b; 0x03; 0x00; 0x31; 0x51; 0x30])%list.
Proof.
  cbn zeta.
  destruct (QRCodeWiFi_payload_and_length console.Adapter
              (New (a := console.Adapter) quiet_console) "Net" "pw" "WPA" false)
    as (Hbuf & Hhigh & Hpay).
  assert (Hlt : len (bytes "WIFI:T:WPA;S:Net;P:pw;H:false;;") + 3 < 65536)
    by (vm_compute; reflexivity).
  split; [exact Hlt |]. split.
  - rewrite <- Hpay. apply Hhigh. rewrite Hpay. exact Hlt.
  - rewrite Hbuf. reflexivity.
Defined.

(** ** Flush *)

Lemma len_zero_iff {A : Type} (l : list A) : (len l =? 0) = true <-> l = [].
Proof.
  unfold len. destruct l; cbn; split; intros H; try reflexivity;
    try discriminate H; lia.
Qed.

Lemma calls_since_self {A : Type} (log : list A) : calls_since log log = [].
Proof. unfold calls_since. apply skipn_all. Qed.

Lemma calls_since_app {A : Type} (log new : list A) :
  calls_since log (log ++ new)%list = new.
Proof.
  unfold calls_since. rewrite skipn_app, skipn_all, Nat.sub_diag. reflexivity.
Qed.

(** A flush of the init command through a closed console: the console is
    opened, the two bytes are printed and the buffer is empty. *)
Example Flush_console :
  Flush (Init (New (a := console.Adapter) quiet_console)) =
    (None,
     mkPrinter console.Adapter
       ({| console.open := true |},
        "[ConsoleAdapter] Opened" ++ LF ++ "[PRINT] "
          ++ String "027" (String "064" EmptyString))
       [] "UTF-8" 48).
Proof. reflexivity. Qed.

(** C9: with an empty buffer Flush returns nil, reaches the transport with no
    call at all, so with no Write and no Open, and leaves the builder, its
    buffer and the state of the transport as they were. *)
Theorem Flush_empty_buffer (a : adapter.Adapter)
    (p : Printer (adapter.Recorder a)) :
  buffer p = [] ->
  Flush p = (None, p)
  /\ calls_since (fst (adapter p)) (fst (adapter (snd (Flush p)))) = []
  /\ buffer (snd (Flush p)) = []
  /\ snd (adapter (snd (Flush p))) = snd (adapter p).
Proof.
  intros Hempty.
  assert (H : Flush p = (None, p)).
  { unfold Flush. rewrite Hempty. reflexivity. }
  rewrite H. cbn [snd]. rewrite calls_since_self. auto.
Qed.

Lemma Flush_empty_buffer_witness :
  let p := New (a := adapter.Recorder console.Adapter) ([], quiet_console) in
  buffer p = [] /\ Flush p = (None, p).
Proof.
  cbn zeta. split; [reflexivity |].
  apply (Flush_empty_buffer console.Adapter
           (New (a := adapter.Recorder console.Adapter) ([], quiet_console))).
  reflexivity.
Defined.

(** C2: with a non-empty buffer Flush asks the transport whether it is open
    and opens it only when it is not.  When that Open fails, Flush returns
    its error, wrapped, and the buffer is as it was, no Write having been
    made.  Otherwise Flush makes one Write, of the whole buffer, returns
    what that Write returned and leaves the buffer empty, whether the Write
    failed or not. *)
Theorem Flush_contract (a : adapter.Adapter)
    (p : Printer (adapter.Recorder a)) :
  buffer p <> [] ->
  let log := fst (adapter p) in
  let (isOpen, s1) := adapter.IsOpen a (snd (adapter p)) in
  let (err, p') := Flush p in
  if isOpen then
    let (werr, s2) := adapter.Write a (buffer p) s1 in
    err = werr
    /\ buffer p' = []
    /\ adapter p' =
         ((log ++ [adapter.CallIsOpen; adapter.CallWrite (buffer p)])%list, s2)
  else
    match adapter.Open a s1 with
    | (Some oerr, s2) =>
        err = Some (Errorf "failed to open adapter: %w" [VErr oerr])
        /\ buffer p' = buffer p
        /\ adapter p' =
             ((log ++ [adapter.CallIsOpen; adapter.CallOpen])%list, s2)
    | (None, s2) =>
        let (werr, s3) := adapter.Write a (buffer p) s2 in
        err = werr
        /\ buffer p' = []
        /\ adapter p' =
             ((log ++ [adapter.CallIsOpen; adapter.CallOpen;
                       adapter.CallWrite (buffer p)])%list, s3)
    end.
Proof.
  intros Hne. destruct p as [[log s] buf enc wd]. cbn [buffer adapter] in *.
  assert (Hlen : (len buf =? 0) = false).
  { destruct (len buf =? 0) eqn:E; [| reflexivity].
    apply len_zero_iff in E. contradiction. }
  cbn zeta. unfold Flush. cbn [buffer]. rewrite Hlen.
  cbn -[app]. destruct (adapter.IsOpen a s) as [[|] s1]; cbn -[app].
  - destruct (adapter.Write a buf s1) as [werr s2]. cbn -[app].
    rewrite <- app_assoc. auto.
  - destruct (adapter.Open a s1) as [[oerr |] s2]; cbn -[app].
    + rewrite <- app_assoc. auto.
    + destruct (adapter.Write a buf s2) as [werr s3]. cbn -[app].
      rewrite <- !app_assoc. auto.
Qed.

Lemma Flush_contract_witness :
  let p := Init (New (a := adapter.Recorder console.Adapter)
                   ([], quiet_console)) in
  buffer p <> []
  /\ fst (Flush p) = None
  /\ buffer (snd (Flush p)) = []
  /\ fst (adapter (snd (Flush p))) =
       [adapter.CallIsOpen; adapter.CallOpen; adapter.CallWrite [0x1b; 0x40]].
Proof.
  cbn zeta.
  assert (Hne : buffer (Init (New (a := adapter.Recorder console.Adapter)
                                 ([], quiet_console))) <> [])
    by discriminate.
  split; [exact Hne |].
  pose proof (Flush_contract console.Adapter _ Hne) as H.
  cbv in H. destruct H as (Herr & Hbuf & Hlog).
  split; [exact Herr |]. split; [exact Hbuf |].
  exact (f_equal fst Hlog).
Defined.

(** ** The transports *)

Ltac run_method :=
  unfold console.Write, console.Open, console.Close, console.IsOpen,
    network.Write, network.Open, network.Close, network.IsOpen,
    usb.Write, usb.Open, usb.Close, usb.IsOpen,
    usb_stub.Write, usb_stub.Open, usb_stub.Close, usb_stub.IsOpen,
    serial.Write, serial.Open, serial.Close, serial.IsOpen,
    windows.Write, windows.Open, windows.Close, windows.IsOpen,
    bind, ret, self, update, call, call_ in *;
  cbn [fst snd] in *.

(** C8: on every transport, a Write while the transport is not open
    returns an error that says so, and leaves the transport and its world
    as they were: nothing is sent, nothing is opened, and the transport is
    still closed. *)
Theorem Write_requires_open (b : Backend) (data : list byte)
    (s : adapter.St (transport b)) :
  fst (adapter.IsOpen (transport b) s) = false ->
  exists e : error,
    adapter.Write (transport b) data s = (Some e, s)
    /\ In (format_of e) not_open_messages
    /\ fst (adapter.IsOpen (transport b)
              (snd (adapter.Write (transport b) data s))) = false.
Proof.
  intros Hclosed.
  destruct b; destruct s as [x w]; cbn [transport] in *;
    cbn [adapter.Write adapter.IsOpen console.Adapter network.Adapter
         usb.Adapter usb_stub.Adapter serial.Adapter windows.Adapter] in *;
    run_method.
  - rewrite Hclosed. cbn [negb fst snd]. eexists. rewrite Hclosed.
    repeat split. cbn. tauto.
  - rewrite Hclosed. cbn [negb fst snd]. eexists. rewrite Hclosed.
    repeat split. cbn. tauto.
  - rewrite Hclosed. cbn [negb fst snd]. eexists. rewrite Hclosed.
    repeat split. cbn. tauto.
  - eexists. repeat split. cbn. tauto.
  - rewrite Hclosed. cbn [negb fst snd]. eexists. rewrite Hclosed.
    repeat split. cbn. tauto.
  - apply negb_false_iff in Hclosed. rewrite Hclosed. cbn [negb fst snd].
    eexists. rewrite Hclosed. repeat split. cbn. tauto.
Qed.

Lemma Write_requires_open_witness :
  fst (adapter.IsOpen (transport Console) quiet_console) = false
  /\ adapter.Write (transport Console) [0x1b; 0x40] quiet_console
       = (Some (Errorf "adapter not open" []), quiet_console).
Proof.
  split; [reflexivity |].
  destruct (Write_requires_open Console [0x1b; 0x40] quiet_console
              eq_refl) as (e & Hwrite & _).
  rewrite Hwrite. cbv in Hwrite. injection Hwrite as He. now rewrite He.
Defined.

(** Open on an open transport: the network and the USB adapter return at
    once and change nothing; the console adapter holds no resource and only
    prints its line again. *)
Lemma network_Open_open (N : network.Net) (s : network.St N) :
  network.open N (fst s) = true -> network.Open N s = (None, s).
Proof. intros H. destruct s. run_method. now rewrite H. Qed.

Lemma usb_Open_open (G : usb.Gousb) (s : usb.St G) :
  usb.open G (fst s) = true -> usb.Open G s = (None, s).
Proof. intros H. destruct s. run_method. now rewrite H. Qed.

Lemma console_Open_open (s : console.St) :
  console.open (fst s) = true ->
  console.Open s =
    (None, (fst s, console.Println "[ConsoleAdapter] Opened" (snd s))).
Proof. intros H. destruct s as [[o] out]. cbn in H. subst o. reflexivity. Qed.

(** Close on a closed transport returns nil, on every transport, and the
    transport stays closed. *)
Lemma Close_closed (b : Backend) (s : adapter.St (transport b)) :
  fst (adapter.IsOpen (transport b) s) = false ->
  fst (adapter.Close (transport b) s) = None
  /\ fst (adapter.IsOpen (transport b)
            (snd (adapter.Close (transport b) s))) = false.
Proof.
  intros Hclosed.
  destruct b; destruct s as [x w]; cbn [transport] in *;
    cbn [adapter.Close adapter.IsOpen console.Adapter network.Adapter
         usb.Adapter usb_stub.Adapter serial.Adapter windows.Adapter] in *;
    run_method; try rewrite Hclosed; cbn; auto.
Qed.

(** The Windows adapter has no such guard: whatever the handle it holds,
    Open asks the spooler for a handle and stores it. *)
Lemma windows_Open_always_calls (Sp : windows.Winspool)
    (w : windows.WindowsPrinter) (os : windows.W Sp) :
  windows.has_nul (windows.name w) = false ->
  windows.Open Sp (w, os) =
    let '((r1, h, e1), os') := windows.OpenPrinterW Sp (windows.name w) os in
    if r1 =? 0 then (Some (Errorf "OpenPrinterW failed: %v" [VErr e1]), (w, os'))
    else (None, (windows.set_handle h w, os')).
Proof.
  intros Hnul. run_method. unfold windows.UTF16PtrFromString. rewrite Hnul.
  cbv beta iota. cbn [fst snd].
  destruct (windows.OpenPrinterW Sp (windows.name w) os) as [[[r1 h] e1] os'].
  cbn [fst snd]. destruct (r1 =? 0); reflexivity.
Qed.

(** C6 fails on the Windows spooler adapter.  Opened twice against a spooler
    that gives handle 1, then handle 2, the adapter holds handle 2 while both
    are open in the spooler; Close releases handle 2 and handle 1 stays
    open for good. *)
Theorem windows_Open_twice_leaks_handle :
  let Sp := windows.counting_spooler in
  let s0 : windows.St Sp :=
    (windows.NewWindowsPrinter "POS-80",
     {| windows.live := []; windows.next := 1 |}) in
  let (e1, s1) := windows.Open Sp s0 in
  let (e2, s2) := windows.Open Sp s1 in
  let (e3, s3) := windows.Close Sp s2 in
  (e1 = None /\ windows.IsOpen Sp s1 = (true, s1)
     /\ windows.handle (fst s1) = 1 /\ windows.live (snd s1) = [1])
  /\ (e2 = None /\ s2 <> s1
     /\ windows.handle (fst s2) = 2 /\ windows.live (snd s2) = [2; 1])
  /\ (e3 = None /\ windows.IsOpen Sp s3 = (false, s3)
     /\ windows.live (snd s3) = [1]).
Proof.
  cbv. repeat split; try reflexivity. discriminate.
Qed.

(** * Further properties *)

(** ** The parametrised commands *)

(** X1: the commands with one byte parameter bring it to the nearest bound
    before they encode it: line spacing, the dot feed and the line feed to
    [0,255], the character set to [0,15].  The byte never wraps. *)
Theorem byte_parameters_are_clamped (n : Z) :
  SetLineSpacing n = [0x1b; 0x33; clamped 0 255 n]
  /\ commands.FeedDots n = [0x1b; 0x4a; clamped 0 255 n]
  /\ commands.FeedLines n = [0x1b; 0x64; clamped 0 255 n]
  /\ SetCharset n = [0x1b; 0x52; clamped 0 15 n]
  /\ 0 <= clamped 0 255 n < 256.
Proof.
  unfold SetLineSpacing, commands.FeedDots, commands.FeedLines, SetCharset,
    clamped.
  repeat split; try lia;
    rewrite to_byte_small; go_cmp; try lia; do 3 f_equal; lia.
Qed.



(** The raster command, its two dimensions read back. *)
Lemma RasterImageCmd_low_high (mode widthBytes heightDots : Z) :
  0 <= widthBytes < 65536 ->
  0 <= heightDots < 65536 ->
  exists m xL xH yL yH : byte,
    RasterImageCmd mode widthBytes heightDots
      = [0x1d; 0x76; 0x30; m; xL; xH; yL; yH]
    /\ m = (if (0 <=? mode) && (mode <=? 3) then mode else 0)
    /\ (0 <= xL < 256 /\ 0 <= xH < 256 /\ xL + 256 * xH = widthBytes)
    /\ (0 <= yL < 256 /\ 0 <= yH < 256 /\ yL + 256 * yH = heightDots).
Proof.
  intros Hw Hh. unfold RasterImageCmd.
  exists (if (0 <=? mode) && (mode <=? 3) then mode else 0),
    (widthBytes mod 256), (widthBytes / 256),
    (heightDots mod 256), (heightDots / 256).
  assert (Hdiv : forall v, 0 <= v < 65536 -> 0 <= v / 256 < 256).
  { intros v Hv. split; [apply Z.div_pos; lia |].
    apply Z.div_lt_upper_bound; lia. }
  pose proof (Hdiv _ Hw). pose proof (Hdiv _ Hh).
  pose proof (Z.mod_pos_bound widthBytes 256 ltac:(lia)).
  pose proof (Z.mod_pos_bound heightDots 256 ltac:(lia)).
  split.
  - rewrite !low_byte, !high_byte by lia.
    rewrite !(Z.mod_small (_ / 256)) by lia.
    do 3 f_equal. f_equal.
    destruct (Z.ltb_spec mode 0), (Z.leb_spec 0 mode); try lia; cbn [orb andb];
      [reflexivity |].
    rewrite Z.gtb_ltb.
    destruct (Z.ltb_spec 3 mode), (Z.leb_spec mode 3); try lia; cbn;
      [reflexivity |].
    apply to_byte_small. lia.
  - split; [reflexivity |].
    pose proof (Z.div_mod widthBytes 256 ltac:(lia)).
    pose proof (Z.div_mod heightDots 256 ltac:(lia)).
    repeat split; lia.
Qed.

(** X3: for a width in bytes and a height in dots below 65536 the raster
    command carries each as two bytes, low byte first, from which the
    number is read back; a mode outside [0,3] is sent as mode 0. *)
Theorem RasterImageCmd_dimensions (mode widthBytes heightDots : Z) :
  0 <= widthBytes < 65536 ->
  0 <= heightDots < 65536 ->
  exists m xL xH yL yH : byte,
    RasterImageCmd mode widthBytes heightDots
      = [0x1d; 0x76; 0x30; m; xL; xH; yL; yH]
    /\ m = (if (0 <=? mode) && (mode <=? 3) then mode else 0)
    /\ (0 <= xL < 256 /\ 0 <= xH < 256 /\ xL + 256 * xH = widthBytes)
    /\ (0 <= yL < 256 /\ 0 <= yH < 256 /\ yL + 256 * yH = heightDots).
Proof. exact (RasterImageCmd_low_high mode widthBytes heightDots). Qed.

Lemma RasterImageCmd_dimensions_witness :
  RasterImageCmd 7 72 300 = [0x1d; 0x76; 0x30; 0; 72; 0; 44; 1]
  /\ 44 + 256 * 1 = 300.
Proof.
  destruct (RasterImageCmd_dimensions 7 72 300) as (m & xL & xH & yL & yH & H & _);
    [lia | lia |].
  split; [| reflexivity].
  rewrite H. cbv in H. injection H as Hm HxL HxH HyL HyH. subst. reflexivity.
Defined.

(** ** Chains of builder calls *)




Lemma is_bytes_app (l l' : list Z) :
  calls.is_bytes l -> calls.is_bytes l' -> calls.is_bytes (l ++ l')%list.
Proof. unfold calls.is_bytes. intros. apply Forall_app. auto. Qed.

Lemma append_nil (a : adapter.Adapter) (p : Printer a) : append p [] = p.
Proof. destruct p. unfold append. cbn. now rewrite app_nil_r. Qed.

Lemma append_append (a : adapter.Adapter) (p : Printer a) (xs ys : list byte) :
  append (append p xs) ys = append p (xs ++ ys)%list.
Proof. unfold append. cbn. now rewrite app_assoc. Qed.

Lemma concat_repeat_comm {A : Type} (xs : list A) (n : nat) :
  (List.concat (repeat xs n) ++ xs)%list = (xs ++ List.concat (repeat xs n))%list.
Proof.
  induction n as [| n IH]; cbn; [now rewrite app_nil_r |].
  now rewrite <- app_assoc, IH.
Qed.

(** A loop that appends the same bytes [n] times appends their [n]-fold
    repetition. *)
Lemma times_append (a : adapter.Adapter) (p : Printer a) (bs : list byte)
    (n : Z) :
  times n (fun q => append q bs) p
    = append p (List.concat (repeat bs (Z.to_nat n))).
Proof.
  unfold times. induction (Z.to_nat n) as [| k IH].
  - cbn. now rewrite append_nil.
  - rewrite Nat.iter_succ, IH, append_append. cbn [repeat List.concat].
    now rewrite concat_repeat_comm.
Qed.

Section Adds.

Variable a : adapter.Adapter.

(** The kind [P] of bytes that the calls add. *)
Variable P : list Z -> Prop.
Hypothesis P_bytes : forall l, calls.is_bytes l -> P l.
Hypothesis P_app : forall l l', P l -> P l' -> P (l ++ l')%list.












End Adds.


(** X5: on a builder reached from a new one by any chain of calls,
    DrawLine(char) appends the bytes of char 48 times or 64 times, then one
    line feed; an empty char draws dashes. *)
Theorem DrawLine_after_any_chain (a : adapter.Adapter) (s : adapter.St a)
    (cs : list calls.call) (char : string) :
  let p := calls.run_all cs (New s) in
  let char' := if String.eqb char EmptyString then "-" else char in
  exists n : nat,
    (n = 48%nat \/ n = 64%nat)
    /\ buffer (DrawLine char p)
         = (buffer p ++ List.concat (repeat (bytes char') n) ++ [0x0a])%list.
Proof.
  cbn zeta.
  assert (Hw : forall p : Printer a,
             width p = 48 \/ width p = 64 ->
             width (calls.run_all cs p) = 48 \/ width (calls.run_all cs p) = 64).
  { unfold calls.run_all. induction cs as [| c cs IH]; intros p Hp; [exact Hp |].
    cbn [fold_left]. apply IH.
    destruct c; cbn [calls.run]; try exact Hp;
      unfold printer.Feed, printer.Align, printer.Bold, printer.Underline,
        printer.Font, printer.DrawLine, printer.Cut, printer.CashDraw,
        printer.Barcode, printer.Reverse, printer.Feed, printer.NewLine;
      cbv zeta; rewrite ?times_append;
      repeat match goal with
      | |- context [if ?b then _ else _] => destruct b
      end; cbn [width append set_width]; auto. }
  specialize (Hw (New s) (or_introl eq_refl)).
  unfold DrawLine, printer.NewLine. cbv zeta.
  rewrite times_append, append_append. cbn [buffer append].
  exists (Z.to_nat (width (calls.run_all cs (New s)))). split.
  - destruct Hw as [-> | ->]; [left | right]; reflexivity.
  - reflexivity.
Qed.

(** X6: Feed(n) appends n line feeds and nothing when n is not positive;
    two feeds of non-negative counts are one feed of their sum. *)
Theorem Feed_line_feeds (a : adapter.Adapter) (p : Printer a) (n m : Z) :
  buffer (Feed n p) = (buffer p ++ repeat 0x0a (Z.to_nat n))%list
  /\ (n <= 0 -> Feed n p = p)
  /\ (0 <= n -> 0 <= m -> Feed m (Feed n p) = Feed (n + m) p).
Proof.
  assert (Hrep : forall k, List.concat (repeat CTL_LF k) = repeat 0x0a k).
  { induction k as [| k IH]; cbn; [reflexivity | now rewrite IH]. }
  unfold Feed. rewrite !times_append. repeat split.
  - cbn [buffer append]. now rewrite Hrep.
  - intros Hn. replace (Z.to_nat n) with 0%nat by lia. apply append_nil.
  - intros Hn Hm. rewrite append_append, !Hrep.
    rewrite Z2Nat.inj_add by lia. now rewrite repeat_app.
Qed.

Lemma Feed_line_feeds_witness :
  Feed 2 (Feed 1 (New (a := console.Adapter) quiet_console))
    = Feed 3 (New (a := console.Adapter) quiet_console)
  /\ Feed (-4) (New (a := console.Adapter) quiet_console)
       = New (a := console.Adapter) quiet_console.
Proof.
  destruct (Feed_line_feeds console.Adapter
              (New (a := console.Adapter) quiet_console) 1 2) as (_ & _ & H).
  destruct (Feed_line_feeds console.Adapter
              (New (a := console.Adapter) quiet_console) (-4) 0) as (_ & H' & _).
  split; [apply H; lia | apply H'; lia].
Defined.

(** ** QR codes, again *)

(** X7: for every content of fewer than 65533 bytes, the two length bytes
    that QRCodeAdvanced puts in the store command give back, low byte
    first, the length of the content plus three, and the whole job is 41
    bytes longer than the content. *)
Theorem QR_store_length_reads_back (a : adapter.Adapter) (p : Printer a)
    (content : string) (size errorLevel model : Z) :
  len (bytes content) + 3 < 65536 ->
  exists m s l pL pH : byte,
    buffer (QRCodeAdvanced content size errorLevel model p)
      = (buffer p ++ qr_job m s l pL pH (bytes content))%list
    /\ 0 <= pL < 256 /\ 0 <= pH < 256
    /\ pL + 256 * pH = len (bytes content) + 3
    /\ len (qr_job m s l pL pH (bytes content)) = len (bytes content) + 41.
Proof.
  intros Hlt. pose proof (len_nonneg (bytes content)) as Hnn.
  rewrite QRCodeAdvanced_buffer. cbn zeta.
  rewrite low_byte, high_byte by lia.
  do 5 eexists. split; [reflexivity |].
  set (n := len (bytes content) + 3) in *.
  assert (Hq : 0 <= n / 256 < 256).
  { split; [apply Z.div_pos; lia | apply Z.div_lt_upper_bound; lia]. }
  pose proof (Z.mod_pos_bound n 256 ltac:(lia)).
  pose proof (Z.div_mod n 256 ltac:(lia)).
  rewrite (Z.mod_small (n / 256)) by lia.
  repeat split; try lia.
  unfold qr_job, len. rewrite !length_app. cbn [List.length QR_MODEL QR_SIZE
    QR_ERROR QR_STORE_PRE QR_STORE_POST QR_PRINT]. subst n. unfold len. lia.
Qed.

Lemma QR_store_length_reads_back_witness :
  let content := Repeat "0123456789" 30 in
  len (bytes content) + 3 < 65536
  /\ firstn 5 (skipn 25 (buffer (QRCodeAdvanced content 4 QRErrorQ QRModel1
                 (New (a := console.Adapter) quiet_console))))
       = [0x1d; 0x28; 0x6b; 47; 1].
Proof.
  cbn zeta.
  assert (Hlt : len (bytes (Repeat "0123456789" 30)) + 3 < 65536)
    by (vm_compute; reflexivity).
  split; [exact Hlt |].
  destruct (QR_store_length_reads_back console.Adapter
              (New (a := console.Adapter) quiet_console)
              (Repeat "0123456789" 30) 4 QRErrorQ QRModel1 Hlt)
    as (m & s & l & pL & pH & Hbuf & _).
  rewrite Hbuf. vm_compute in Hbuf.
  injection Hbuf as Hm Hs Hl HpL HpH.
  subst. reflexivity.
Defined.

(** ** The handlers *)

Import outcome.

Lemma length_substring_prefix (n : nat) (s : string) :
  (n <= String.length s)%nat -> String.length (substring 0 n s) = n.
Proof.
  revert s. induction n as [| n IH]; intros s Hn.
  - destruct s; reflexivity.
  - destruct s as [| c s]; cbn in *; [lia |]. rewrite IH; [reflexivity | lia].
Qed.

(** X8: truncate(s, maxLen) with maxLen at least 3 returns a string of at
    most maxLen bytes: s itself when it fits, else its first maxLen-3 bytes
    and three dots, maxLen bytes in all; what it returns it leaves alone
    when truncated again.  With maxLen below 3 and a longer s it panics. *)
Theorem truncate_fits (s : string) (maxLen : Z) :
  (3 <= maxLen ->
   exists t : string,
     handlers.truncate s maxLen = Returns t
     /\ Z.of_nat (String.length t) <= maxLen
     /\ (Z.of_nat (String.length s) <= maxLen -> t = s)
     /\ (maxLen < Z.of_nat (String.length s) ->
         t = substring 0 (Z.to_nat (maxLen - 3)) s ++ "..."
         /\ Z.of_nat (String.length t) = maxLen)
     /\ handlers.truncate t maxLen = Returns t)
  /\ (maxLen < 3 -> maxLen < Z.of_nat (String.length s) ->
      handlers.truncate s maxLen = Panics slice_bounds_out_of_range).
Proof.
  unfold handlers.truncate. split.
  - intros Hmax. destruct (Z.leb_spec (Z.of_nat (String.length s)) maxLen) as [Hle | Hgt].
    + exists s. repeat split; try lia.
      destruct (Z.leb_spec (Z.of_nat (String.length s)) maxLen); [reflexivity | lia].
    + destruct (Z.ltb_spec (maxLen - 3) 0); [lia |].
      assert (Hlen : Z.of_nat (String.length
                (substring 0 (Z.to_nat (maxLen - 3)) s ++ "...")) = maxLen).
      { rewrite length_append, length_substring_prefix by lia.
        cbn [String.length]. lia. }
      eexists. split; [reflexivity |]. rewrite Hlen.
      repeat split; try lia.
      destruct (Z.leb_spec maxLen maxLen); [reflexivity | lia].
  - intros Hmax Hgt.
    destruct (Z.leb_spec (Z.of_nat (String.length s)) maxLen); [lia |].
    destruct (Z.ltb_spec (maxLen - 3) 0); [reflexivity | lia].
Qed.

Lemma truncate_fits_witness :
  handlers.truncate "Bottled Water 500ml, still" 20
    = Returns "Bottled Water 500..."
  /\ handlers.truncate "abc" 2 = Panics slice_bounds_out_of_range.
Proof.
  destruct (truncate_fits "Bottled Water 500ml, still" 20) as [H _].
  destruct (H ltac:(lia)) as (t & Ht & _ & _ & Hcut & _).
  destruct (Hcut ltac:(cbn; lia)) as [Heq _].
  destruct (truncate_fits "abc" 2) as [_ H'].
  split; [rewrite Ht, Heq; reflexivity | apply H'; cbn; lia].
Defined.

(** ** Flush, again *)

Lemma Flush_nonempty (a : adapter.Adapter) (p : Printer a) :
  buffer p <> [] ->
  Flush p =
    let (isOpen, s) := adapter.IsOpen a (adapter p) in
    let p := set_adapter p s in
    let opened :=
      if negb isOpen then
        let (err, s) := adapter.Open a (adapter p) in (err, set_adapter p s)
      else (None, p) in
    match opened with
    | (Some err, p) => (Some (Errorf "failed to open adapter: %w" [VErr err]), p)
    | (None, p) =>
        let (err, s) := adapter.Write a (buffer p) (adapter p) in
        (err, set_buffer (set_adapter p s) [])
    end.
Proof.
  intros Hne. unfold Flush.
  destruct (len (buffer p) =? 0) eqn:E; [| reflexivity].
  apply len_zero_iff in E. contradiction.
Qed.

(** X9: a job whose Flush could not open the transport stays in the buffer.
    When the next request goes through RawPrintHandler and the transport
    opens, the transport gets one Write that carries the old job followed
    by the bytes of the new request. *)
Theorem unsent_job_goes_out_with_the_next (a : adapter.Adapter)
    (p : Printer (adapter.Recorder a)) (data : list byte)
    (s1 s2 s3 s4 : adapter.St a) (oerr : error) :
  buffer p <> [] ->
  adapter.IsOpen a (snd (adapter p)) = (false, s1) ->
  adapter.Open a s1 = (Some oerr, s2) ->
  adapter.IsOpen a s2 = (false, s3) ->
  adapter.Open a s3 = (None, s4) ->
  let (e1, p1) := Flush p in
  let (e2, p2) := handlers.RawPrintHandler data p1 in
  e1 = Some (Errorf "failed to open adapter: %w" [VErr oerr])
  /\ buffer p1 = buffer p
  /\ e2 = fst (adapter.Write a (buffer p ++ data)%list s4)
  /\ buffer p2 = []
  /\ calls_since (fst (adapter p)) (fst (adapter p2)) =
       [adapter.CallIsOpen; adapter.CallOpen;
        adapter.CallIsOpen; adapter.CallOpen;
        adapter.CallWrite (buffer p ++ data)%list].
Proof.
  intros Hne Hclosed1 Hfail Hclosed2 Hopen.
  destruct p as [[log s] buf enc wd]. cbn [buffer adapter fst snd] in *.
  unfold handlers.RawPrintHandler.
  rewrite Flush_nonempty by (cbn [buffer]; exact Hne).
  cbn -[app Flush]. rewrite Hclosed1. cbn -[app Flush].
  rewrite Hfail. cbn -[app Flush].
  rewrite Flush_nonempty.
  2:{ unfold Raw. cbn [append buffer]. destruct buf; [contradiction | discriminate]. }
  cbn -[app]. rewrite Hclosed2. cbn -[app]. rewrite Hopen. cbn -[app].
  destruct (adapter.Write a (buf ++ data)%list s4) as [werr s5]. cbn -[app].
  repeat split.
  rewrite <- !app_assoc. apply calls_since_app.
Qed.

Lemma unsent_job_goes_out_with_the_next_witness :
  let p := Init (New (a := adapter.Recorder (network.Adapter session.down_once))
                   ([], (network.NewNetworkAdapter session.down_once
                           "192.168.1.50" 0, (0%nat, [])))) in
  let (e1, p1) := Flush p in
  let (e2, p2) := handlers.RawPrintHandler [0x41; 0x0a] p1 in
  e1 <> None /\ e2 = None
  /\ snd (snd (snd (adapter p2))) = [[0x1b; 0x40; 0x41; 0x0a]].
Proof.
  cbn zeta.
  pose proof (unsent_job_goes_out_with_the_next
                (network.Adapter session.down_once)
                (Init (New (a := adapter.Recorder (network.Adapter session.down_once))
                   ([], (network.NewNetworkAdapter session.down_once
                           "192.168.1.50" 0, (0%nat, [])))))
                [0x41; 0x0a]
                _ _ _ _ _
                ltac:(discriminate) eq_refl eq_refl eq_refl eq_refl) as H.
  vm_compute in H. vm_compute.
  destruct H as (He1 & _ & He2 & _ & _).
  split; [discriminate |]. split; [exact He2 | reflexivity].
Defined.

(** ** The Windows spooler adapter, again *)



(** X11: Close on an open Windows printer hands its handle to ClosePrinter
    once, forgets it and returns nil, whatever ClosePrinter answers; a
    second Close makes no call. *)
Theorem windows_Close_releases_once (Sp : windows.Winspool)
    (w : windows.WindowsPrinter) (log : list spool_trace.SpoolCall)
    (os : windows.W Sp) :
  windows.handle w <> 0 ->
  let (e1, s1) := windows.Close (spool_trace.Traced Sp) (w, (log, os)) in
  e1 = None
  /\ windows.handle (fst s1) = 0
  /\ fst (windows.IsOpen (spool_trace.Traced Sp) s1) = false
  /\ calls_since log (fst (snd s1)) = [spool_trace.ClosePrinter (windows.handle w)]
  /\ windows.Close (spool_trace.Traced Sp) s1 = (None, s1).
Proof.
  intros Hopen. run_method.
  destruct (Z.eqb_spec (windows.handle w) 0) as [| _]; [contradiction |].
  cbn -[app calls_since].
  destruct (windows.ClosePrinter Sp _ os) as [[r1 e1] os1].
  cbn -[app calls_since]. rewrite calls_since_app. auto.
Qed.

Lemma windows_Close_releases_once_witness :
  let Sp := windows.counting_spooler in
  let s : windows.St (spool_trace.Traced Sp) :=
    ({| windows.handle := 1; windows.name := "POS-80" |},
     ([], {| windows.live := [1]; windows.next := 2 |})) in
  let (e1, s1) := windows.Close (spool_trace.Traced Sp) s in
  e1 = None /\ windows.live (snd (snd s1)) = []
  /\ fst (snd s1) = [spool_trace.ClosePrinter 1].
Proof.
  cbn zeta.
  pose proof (windows_Close_releases_once windows.counting_spooler
                {| windows.handle := 1; windows.name := "POS-80" |} []
                {| windows.live := [1]; windows.next := 2 |}
                ltac:(discriminate)) as H.
  vm_compute in H. vm_compute.
  destruct H as (He & _ & _ & Hlog & _).
  split; [exact He |]. split; [reflexivity | exact Hlog].
Defined.

(** ** The USB adapter, again *)

Lemma ends_with_single {A : Type} (z : A) : ends_with [z] z.
Proof. exists []. reflexivity. Qed.

Lemma ends_with_cons {A : Type} (x : A) (l : list A) (z : A) :
  ends_with l z -> ends_with (x :: l) z.
Proof. intros [pre ->]. exists (x :: pre). reflexivity. Qed.

Lemma ends_with_app {A : Type} (l l' : list A) (z : A) :
  ends_with l' z -> ends_with (l ++ l')%list z.
Proof. intros [pre ->]. exists (l ++ pre)%list. now rewrite app_assoc. Qed.

Ltac ends :=
  repeat first
    [ apply ends_with_single | apply ends_with_cons | apply ends_with_app ].

(** Closing the devices that were opened beyond the first lists one
    Device_Close for each, in their order. *)
Lemma close_extras (G : usb.Gousb) (extra : list (usb.Device G))
    (w : usb_trace.World G) :
  fold_left
    (fun (w : usb_trace.World G) (d : usb.Device G) =>
       usb_trace.note G (usb_trace.Device_Close G d) w
         (usb.Device_Close G d (snd w)))
    extra w
  = ((fst w ++ List.map (usb_trace.Device_Close G) extra)%list,
     fold_left (fun h d => usb.Device_Close G d h) extra (snd w)).
Proof.
  revert w. induction extra as [| d extra IH]; intros [log host].
  - cbn. now rewrite app_nil_r.
  - cbn [fold_left List.map]. rewrite IH. unfold usb_trace.note.
    cbn [fst snd]. now rewrite <- app_assoc.
Qed.

Ltac usb_cases H :=
  repeat match type of H with
  | context [match ?x with _ => _ end] =>
      match x with
      | context [match _ with _ => _ end] => fail 1
      | _ => destruct x eqn:?; cbn -[app fold_left] in H
      end
  end.

(** X12: when Open of a closed USB adapter fails, on whichever of its
    error paths, the adapter is still closed, and the context that this
    Open created, its first call to the library, is closed by its last. *)
Theorem usb_Open_failure_closes_context (G : usb.Gousb)
    (u : usb.USBAdapter (usb_trace.Traced G))
    (log : list (usb_trace.UsbCall G)) (host : usb.W G)
    (e : error) (s' : usb.St (usb_trace.Traced G)) :
  usb.open _ u = false ->
  usb.Open (usb_trace.Traced G) (u, (log, host)) = (Some e, s') ->
  usb.open _ (fst s') = false
  /\ exists (c : usb.Context G) (rest : list (usb_trace.UsbCall G)),
       calls_since log (fst (snd s')) = usb_trace.NewContext G c :: rest
       /\ ends_with rest (usb_trace.Context_Close G c).
Proof.
  intros Hclosed H. unfold usb.Open, usb.open_device in H. run_method.
  rewrite Hclosed in H. cbn -[app fold_left] in H.
  usb_cases H.
  all: try discriminate H.
  all: injection H as <- <-; cbn -[app fold_left calls_since].
  all: rewrite ?close_extras; cbn -[app fold_left calls_since].
  all: split; [assumption |]; exists c; eexists.
  all: unfold usb_trace.note; cbn -[app fold_left calls_since].
  all: rewrite <- ?app_assoc.
  all: rewrite calls_since_app; cbn [app]; split; [reflexivity | ends].
Qed.

Lemma usb_Open_failure_closes_context_witness :
  let G := session.bare_host in
  usb.Open (usb_trace.Traced G)
      (usb.NewUSBAdapter (usb_trace.Traced G) 0 0, ([], 0%nat))
    = (Some (Errorf "no USB printer found" []),
       (usb.set_ctx (usb_trace.Traced G) tt
          (usb.NewUSBAdapter (usb_trace.Traced G) 0 0),
        ([usb_trace.NewContext G tt; usb_trace.OpenDevices G;
          usb_trace.Context_Close G tt], 0%nat)))
  /\ ends_with [usb_trace.OpenDevices G; usb_trace.Context_Close G tt]
       (usb_trace.Context_Close G tt).
Proof.
  cbn zeta. split; [reflexivity |].
  destruct (usb_Open_failure_closes_context session.bare_host
              (usb.NewUSBAdapter (usb_trace.Traced session.bare_host) 0 0)
              [] 0%nat _ _ eq_refl eq_refl)
    as (_ & c & rest & Hcalls & Hends).
  cbv in Hcalls. injection Hcalls as <- <-. exact Hends.
Defined.

(** What an open USB adapter holds. *)
Lemma usb_Open_result (G : usb.Gousb) (u : usb.USBAdapter G) (host : usb.W G) :
  usb.open G u = false ->
  let s' := snd (usb.Open G (u, host)) in
  usb.open G (fst s') = false
  \/ (usb.open G (fst s') = true
      /\ usb.ctx G (fst s') <> None /\ usb.device G (fst s') <> None
      /\ usb.done G (fst s') <> None /\ usb.outEP G (fst s') <> None).
Proof.
  intros Hclosed. cbn zeta.
  destruct (usb.Open G (u, host)) as [e s'] eqn:H.
  unfold usb.Open, usb.open_device in H. run_method.
  rewrite Hclosed in H. cbn -[app fold_left] in H.
  usb_cases H.
  all: injection H as <- <-; cbn -[fold_left].
  all: try (left; assumption).
  all: right; repeat split; discriminate.
Qed.

Lemma usb_Write_keeps (G : usb.Gousb) (data : list byte) (s : usb.St G) :
  fst (snd (usb.Write G data s)) = fst s.
Proof.
  destruct s as [u host]. run_method.
  destruct (usb.open G u); cbn [negb fst snd]; [| reflexivity].
  destruct (usb.outEP G u); cbn [fst snd]; [| reflexivity].
  destruct (usb.OutEndpoint_Write G _ _ host). reflexivity.
Qed.

Lemma usb_Read_keeps (G : usb.Gousb) (s : usb.St G) :
  fst (snd (usb.Read G s)) = fst s.
Proof.
  destruct s as [u host]. run_method. unfold usb.Read. run_method.
  destruct (usb.open G u); cbn [fst snd]; [| reflexivity].
  destruct (usb.inEP G u); cbn [fst snd]; [| reflexivity].
  destruct (usb.InEndpoint_Read G _ _ host) as [[bs [err |]] host'];
    reflexivity.
Qed.

Lemma usb_Close_closes (G : usb.Gousb) (s : usb.St G) :
  usb.open G (fst (snd (usb.Close G s))) = false.
Proof.
  destruct s as [u host]. run_method.
  destruct (usb.open G u) eqn:Hopen; cbn [negb fst snd]; [| exact Hopen].
  destruct (usb.done G u), (usb.device G u), (usb.ctx G u); reflexivity.
Qed.

Lemma usb_Write_ready (G : usb.Gousb) (data : list byte) (s : usb.St G) :
  usb_ready G s -> usb_ready G (snd (usb.Write G data s)).
Proof. unfold usb_ready. now rewrite usb_Write_keeps. Qed.

Lemma usb_Read_ready (G : usb.Gousb) (s : usb.St G) :
  usb_ready G s -> usb_ready G (snd (usb.Read G s)).
Proof. unfold usb_ready. now rewrite usb_Read_keeps. Qed.

Lemma usb_Close_ready (G : usb.Gousb) (s : usb.St G) :
  usb_ready G (snd (usb.Close G s)).
Proof. intros Habs. rewrite usb_Close_closes in Habs. discriminate Habs. Qed.

Lemma usb_Open_ready (G : usb.Gousb) (s : usb.St G) :
  usb_ready G s -> usb_ready G (snd (usb.Open G s)).
Proof.
  intros Hinv. destruct s as [u host].
  destruct (usb.open G u) eqn:Hopen.
  - unfold usb.Open. run_method. rewrite Hopen. exact Hinv.
  - destruct (usb_Open_result G u host Hopen) as [Hc | Ho]; cbn zeta in *.
    + intros Habs. rewrite Hc in Habs. discriminate Habs.
    + intros _. tauto.
Qed.

Lemma usb_ready_exec (G : usb.Gousb) (m : session.Method) (s : usb.St G) :
  usb_ready G s -> usb_ready G (session.exec (usb.Adapter G) m s).
Proof.
  intros Hinv.
  destruct m; cbn [session.exec adapter.Open adapter.Write adapter.Read
                   adapter.Close adapter.IsOpen usb.Adapter].
  - now apply usb_Open_ready.
  - apply (usb_Write_ready G data s Hinv).
  - apply (usb_Read_ready G s Hinv).
  - apply (usb_Close_ready G s).
  - exact Hinv.
Qed.

Lemma usb_ready_exec_all (G : usb.Gousb) (ms : list session.Method)
    (s : usb.St G) :
  usb_ready G s -> usb_ready G (session.exec_all (usb.Adapter G) ms s).
Proof.
  unfold session.exec_all. revert s.
  induction ms as [| m ms IH]; intros s Hinv; [exact Hinv |].
  cbn [fold_left]. apply IH. now apply usb_ready_exec.
Qed.

(** X13: whatever calls were made on a USB adapter since it was created,
    when it is open it holds a context, a device, the release function of
    its interface and an OUT endpoint.  So Write hands the payload to that
    endpoint and returns what it returns, and Close releases the interface,
    closes the device and closes the context, in this order, and returns
    nil. *)
Theorem usb_open_adapter_is_ready (G : usb.Gousb) (vendorID productID : Z)
    (host : usb.W G) (ms : list session.Method) :
  let s := session.exec_all (usb.Adapter G) ms
             (usb.NewUSBAdapter G vendorID productID, host) in
  usb.open G (fst s) = true ->
  exists (c : usb.Context G) (d : usb.Device G) (release : usb.W G -> usb.W G)
         (e : usb.OutEndpoint G),
    usb.ctx G (fst s) = Some c /\ usb.device G (fst s) = Some d
    /\ usb.done G (fst s) = Some release /\ usb.outEP G (fst s) = Some e
    /\ (forall data : list byte,
          usb.Write G data s =
            (snd (fst (usb.OutEndpoint_Write G e data (snd s))),
             (fst s, snd (usb.OutEndpoint_Write G e data (snd s)))))
    /\ usb.Close G s =
         (None,
          (usb.set_open G false (fst s),
           usb.Context_Close G c (usb.Device_Close G d (release (snd s))))).
Proof.
  cbn zeta. intros Hopen.
  assert (Hready : usb_ready G (session.exec_all (usb.Adapter G) ms
                                  (usb.NewUSBAdapter G vendorID productID, host))).
  { apply usb_ready_exec_all. intros Habs. discriminate Habs. }
  destruct (session.exec_all _ ms _) as [u w]. cbn [fst snd] in *.
  destruct (Hready Hopen) as (Hc & Hd & Hr & He).
  destruct (usb.ctx G u) as [c |] eqn:Ec; [| contradiction].
  destruct (usb.device G u) as [d |] eqn:Ed; [| contradiction].
  destruct (usb.done G u) as [release |] eqn:Er; [| contradiction].
  destruct (usb.outEP G u) as [e |] eqn:Ee; [| contradiction].
  exists c, d, release, e. repeat split.
  - intros data. run_method. rewrite Hopen, Ee. cbn [negb fst snd].
    destruct (usb.OutEndpoint_Write G e data w). reflexivity.
  - run_method. rewrite Hopen, Ec, Ed, Er. reflexivity.
Qed.

Lemma usb_open_adapter_is_ready_witness :
  let G := session.one_printer in
  let s := session.exec_all (usb.Adapter G)
             [session.MOpen; session.MWrite [0x1b; 0x40]; session.MClose;
              session.MOpen]
             (usb.NewUSBAdapter G 0 0, []) in
  usb.open G (fst s) = true
  /\ usb.outEP G (fst s) = Some 1
  /\ usb.Write G [0x0a] s = (None, (fst s, [[0x1b; 0x40]; [0x0a]])).
Proof.
  cbn zeta.
  destruct (usb_open_adapter_is_ready session.one_printer 0 0 []
              [session.MOpen; session.MWrite [0x1b; 0x40]; session.MClose;
               session.MOpen] eq_refl)
    as (c & d & release & e & _ & _ & _ & He & Hwrite & _).
  split; [reflexivity |]. split; [reflexivity |].
  rewrite Hwrite. cbv in He. injection He as <-. reflexivity.
Defined.

(** ** The network, serial and console adapters, again *)

Lemma network_Open_ready (N : network.Net) (s : network.St N) :
  network_ready N s -> network_ready N (snd (network.Open N s)).
Proof.
  intros Hinv. destruct s as [n w]. unfold network_ready in *. run_method.
  destruct (network.open N n) eqn:Hopen; cbn [fst snd] in *.
  - intros _. apply Hinv. reflexivity.
  - destruct (network.DialTimeout N _ _ _ w) as [[c | err] w']; cbn [fst snd].
    + discriminate.
    + rewrite Hopen. discriminate.
Qed.

Lemma network_Write_keeps (N : network.Net) (data : list byte)
    (s : network.St N) :
  fst (snd (network.Write N data s)) = fst s.
Proof.
  destruct s as [n w]. run_method.
  destruct (network.open N n); cbn [negb fst snd]; [| reflexivity].
  destruct (network.conn N n); cbn [fst snd]; [| reflexivity].
  destruct (network.Conn_Write N _ _ w). reflexivity.
Qed.

Lemma network_Read_keeps (N : network.Net) (s : network.St N) :
  fst (snd (network.Read N s)) = fst s.
Proof.
  destruct s as [n w]. unfold network.Read. run_method.
  destruct (network.open N n); cbn [negb fst snd]; [| reflexivity].
  destruct (network.conn N n); cbn [fst snd]; [| reflexivity].
  destruct (network.Now N w) as [now w1]. cbn [fst snd].
  destruct (network.Conn_Read N _ _ _) as [[bs [err |]] w2]; reflexivity.
Qed.

Lemma network_Write_ready (N : network.Net) (data : list byte)
    (s : network.St N) :
  network_ready N s -> network_ready N (snd (network.Write N data s)).
Proof. unfold network_ready. now rewrite network_Write_keeps. Qed.

Lemma network_Read_ready (N : network.Net) (s : network.St N) :
  network_ready N s -> network_ready N (snd (network.Read N s)).
Proof. unfold network_ready. now rewrite network_Read_keeps. Qed.

Lemma network_Close_ready (N : network.Net) (s : network.St N) :
  network_ready N s -> network_ready N (snd (network.Close N s)).
Proof.
  intros Hinv. destruct s as [n w]. unfold network_ready in *. run_method.
  destruct (network.open N n) eqn:Hopen; cbn [negb fst snd] in *.
  - destruct (network.conn N n); cbn [fst snd].
    + destruct (network.Conn_Close N _ w). cbn. discriminate.
    + exfalso. exact (Hinv eq_refl eq_refl).
  - rewrite Hopen. discriminate.
Qed.

Lemma network_ready_exec_all (N : network.Net) (ms : list session.Method)
    (s : network.St N) :
  network_ready N s ->
  network_ready N (session.exec_all (network.Adapter N) ms s).
Proof.
  unfold session.exec_all. revert s.
  induction ms as [| m ms IH]; intros s Hinv; [exact Hinv |].
  cbn [fold_left]. apply IH.
  destruct m; cbn [session.exec adapter.Open adapter.Write adapter.Read
                   adapter.Close adapter.IsOpen network.Adapter].
  - now apply network_Open_ready.
  - now apply network_Write_ready.
  - now apply network_Read_ready.
  - now apply network_Close_ready.
  - exact Hinv.
Qed.

(** X14: whatever calls were made on a network adapter since it was
    created, when it is open it holds a connection.  Write sends the
    payload on it and returns what the connection returns.  Close closes it
    once and marks the adapter closed even when closing the connection
    fails, returning that error. *)
Theorem network_open_adapter_is_connected (N : network.Net)
    (address : string) (port : Z) (w : network.W N)
    (ms : list session.Method) :
  let s := session.exec_all (network.Adapter N) ms
             (network.NewNetworkAdapter N address port, w) in
  network.open N (fst s) = true ->
  exists c : network.Conn N,
    network.conn N (fst s) = Some c
    /\ (forall data : list byte,
          network.Write N data s =
            (snd (fst (network.Conn_Write N c data (snd s))),
             (fst s, snd (network.Conn_Write N c data (snd s)))))
    /\ network.Close N s =
         (fst (network.Conn_Close N c (snd s)),
          (network.set_open N false (fst s),
           snd (network.Conn_Close N c (snd s))))
    /\ network.open N (fst (snd (network.Close N s))) = false.
Proof.
  cbn zeta. intros Hopen.
  assert (Hready : network_ready N
            (session.exec_all (network.Adapter N) ms
               (network.NewNetworkAdapter N address port, w))).
  { apply network_ready_exec_all. intros Habs. discriminate Habs. }
  destruct (session.exec_all _ ms _) as [n w']. cbn [fst snd] in *.
  specialize (Hready Hopen).
  destruct (network.conn N n) as [c |] eqn:Ec; [| contradiction].
  exists c. split; [reflexivity |].
  assert (Hclose : network.Close N (n, w') =
            (fst (network.Conn_Close N c w'),
             (network.set_open N false n, snd (network.Conn_Close N c w')))).
  { run_method. rewrite Hopen, Ec. cbn [negb fst snd].
    destruct (network.Conn_Close N c w'). reflexivity. }
  repeat split.
  - intros data. run_method. rewrite Hopen, Ec. cbn [negb fst snd].
    destruct (network.Conn_Write N c data w'). reflexivity.
  - exact Hclose.
  - rewrite Hclose. reflexivity.
Qed.

Lemma network_open_adapter_is_connected_witness :
  let N := session.down_once in
  let s := session.exec_all (network.Adapter N)
             [session.MOpen; session.MIsOpen; session.MOpen]
             (network.NewNetworkAdapter N "printer.local" 0, (0%nat, [])) in
  network.open N (fst s) = true
  /\ network.Write N [0x1b; 0x40] s
       = (None, (fst s, (2%nat, [[0x1b; 0x40]]))).
Proof.
  cbn zeta.
  destruct (network_open_adapter_is_connected session.down_once
              "printer.local" 0 (0%nat, [])
              [session.MOpen; session.MIsOpen; session.MOpen] eq_refl)
    as (c & _ & Hwrite & _).
  split; [reflexivity |]. rewrite Hwrite. destruct c. reflexivity.
Defined.

Lemma serial_stays_closed (ms : list session.Method) (s : serial.St) :
  serial.open (fst s) = false ->
  serial.open (fst (session.exec_all serial.Adapter ms s)) = false.
Proof.
  unfold session.exec_all. revert s.
  induction ms as [| m ms IH]; intros [x u] Hclosed; [exact Hclosed |].
  cbn [fold_left]. apply IH.
  destruct m; cbn [session.exec adapter.Open adapter.Write adapter.Read
                   adapter.Close adapter.IsOpen serial.Adapter];
    unfold serial.Read; run_method; try exact Hclosed;
    try (destruct (negb (serial.open x)); exact Hclosed).
  reflexivity.
Qed.

(** X15: the two placeholder transports never print.  Whatever calls were
    made on a serial adapter since it was created, and in any state of the
    USB adapter of a build without cgo, a Flush of a non-empty buffer
    returns the error of Open, wrapped, and leaves the builder as it was,
    buffer included. *)
Theorem placeholder_transports_never_print :
  (forall (port : string) (baudRate : Z) (ms : list session.Method)
          (p : Printer serial.Adapter),
     adapter p = session.exec_all serial.Adapter ms
                   (serial.NewSerialAdapter port baudRate, tt) ->
     buffer p <> [] ->
     Flush p =
       (Some (Errorf "failed to open adapter: %w"
                [VErr (Errorf "serial adapter not yet implemented" [])]), p))
  /\ (forall p : Printer usb_stub.Adapter,
        buffer p <> [] ->
        Flush p =
          (Some (Errorf "failed to open adapter: %w"
                   [VErr (Errorf "USB adapter not available: requires native build with CGO. Use 'network' or 'console' adapter instead" [])]),
           p)).
Proof.
  split.
  - intros port baudRate ms p Hreach Hne.
    pose proof (serial_stays_closed ms
                  (serial.NewSerialAdapter port baudRate, tt) eq_refl)
      as Hclosed.
    rewrite <- Hreach in Hclosed.
    rewrite Flush_nonempty by exact Hne.
    destruct p as [[x u] buf enc wd]. cbn [adapter fst] in Hclosed.
    cbn. run_method. rewrite Hclosed. reflexivity.
  - intros p Hne. rewrite Flush_nonempty by exact Hne.
    destruct p as [[x u] buf enc wd]. reflexivity.
Qed.

Lemma placeholder_transports_never_print_witness :
  let p := Init (New (a := serial.Adapter)
                   (session.exec_all serial.Adapter
                      [session.MOpen; session.MClose; session.MOpen]
                      (serial.NewSerialAdapter "COM3" 0, tt))) in
  fst (Flush p) <> None /\ buffer (snd (Flush p)) = [0x1b; 0x40].
Proof.
  cbn zeta.
  destruct placeholder_transports_never_print as [H _].
  rewrite (H "COM3" 0 [session.MOpen; session.MClose; session.MOpen]
             (Init (New (a := serial.Adapter)
                      (session.exec_all serial.Adapter
                         [session.MOpen; session.MClose; session.MOpen]
                         (serial.NewSerialAdapter "COM3" 0, tt))))
             eq_refl ltac:(discriminate)).
  split; [discriminate | reflexivity].
Defined.

(** X16: a Flush through the console adapter never fails, open or not: it
    returns nil and leaves the buffer empty; when there were bytes, the
    console is open afterwards and its output ends with the line [PRINT]
    and the bytes. *)
Theorem console_Flush_succeeds (p : Printer console.Adapter) :
  let (err, p') := Flush p in
  err = None
  /\ buffer p' = []
  /\ (buffer p <> [] ->
      console.open (fst (adapter p')) = true
      /\ exists out : string,
           snd (adapter p') = out ++ "[PRINT] " ++ string_of_bytes (buffer p)).
Proof.
  destruct (list_eq_dec Z.eq_dec (buffer p) []) as [Hempty | Hne].
  - unfold Flush. rewrite Hempty. cbn.
    split; [reflexivity | split; [assumption | intros H; now contradiction H]].
  - rewrite Flush_nonempty by exact Hne.
    destruct p as [[[o] out] buf enc wd]. cbn [buffer] in *.
    destruct o; cbn -[String.append]; repeat split.
    + exists out. reflexivity.
    + eexists. unfold console.Fprintf_s. reflexivity.
Qed.

Lemma console_Flush_succeeds_witness :
  let p := Text "OK" (New (a := console.Adapter) quiet_console) in
  buffer p <> []
  /\ fst (Flush p) = None
  /\ snd (adapter (snd (Flush p)))
       = "[ConsoleAdapter] Opened" ++ LF ++ "[PRINT] OK".
Proof.
  cbn zeta.
  pose proof (console_Flush_succeeds
                (Text "OK" (New (a := console.Adapter) quiet_console))) as H.
  destruct (Flush _) as [err p'] eqn:E. destruct H as (Herr & _ & H).
  assert (Hne : buffer (Text "OK" (New (a := console.Adapter) quiet_console))
                  <> []) by discriminate.
  split; [exact Hne |]. split; [exact Herr |].
  vm_compute in E. injection E as _ <-. reflexivity.
Defined.

(** ** A connection that went bad *)

Lemma network_Flush_open (N : network.Net) (n : network.NetworkAdapter N)
    (w : network.W N) (c : network.Conn N) (buf : list byte)
    (enc : string) (wd : Z) :
  network.open N n = true ->
  network.conn N n = Some c ->
  buf <> [] ->
  Flush (@mkPrinter (network.Adapter N) (n, w) buf enc wd)
  = (snd (fst (network.Conn_Write N c buf w)),
     @mkPrinter (network.Adapter N)
       (n, snd (network.Conn_Write N c buf w)) [] enc wd).
Proof.
  intros Hopen Hconn Hne.
  rewrite Flush_nonempty by exact Hne.
  destruct n as [ad po ti co op]. cbn [network.open network.conn] in Hopen, Hconn.
  subst op co.
  cbn [adapter buffer set_adapter set_buffer encoding width
       adapter.IsOpen adapter.Open adapter.Write network.Adapter].
  run_method.
  cbn [network.open network.conn negb adapter buffer set_adapter set_buffer
       encoding width fst snd].
  destruct (network.Conn_Write N c buf w) as [[k err] w']. reflexivity.
Qed.

(** X28: a network adapter that is open is never dialled again by Flush.
    Whatever calls were made on the adapter since it was created, when it
    is open a Flush writes the job on the connection it holds and returns
    what the connection returns; whether that write failed or not, the
    adapter is left open with the same connection, and the next request
    through RawPrintHandler is written on that same connection.  The
    network sees these two writes and nothing else: no dial, no close. *)
Theorem network_Flush_never_reconnects (N : network.Net)
    (address : string) (port : Z) (w : network.W N)
    (ms : list session.Method) (p : Printer (network.Adapter N))
    (data : list byte) :
  adapter p = session.exec_all (network.Adapter N) ms
                (network.NewNetworkAdapter N address port, w) ->
  network.open N (fst (adapter p)) = true ->
  buffer p <> [] ->
  data <> [] ->
  exists c : network.Conn N,
    network.conn N (fst (adapter p)) = Some c
    /\ let r1 := network.Conn_Write N c (buffer p) (snd (adapter p)) in
       let r2 := network.Conn_Write N c data (snd r1) in
       Flush p =
         (snd (fst r1),
          set_buffer (set_adapter p (fst (adapter p), snd r1)) [])
       /\ handlers.RawPrintHandler data (snd (Flush p)) =
            (snd (fst r2),
             set_buffer (set_adapter p (fst (adapter p), snd r2)) []).
Proof.
  intros Hs Hopen Hne Hdata.
  assert (Hready : network_ready N (adapter p)).
  { rewrite Hs. apply network_ready_exec_all. intros Habs. discriminate Habs. }
  clear Hs. destruct p as [[n w'] buf enc wd].
  cbn [adapter buffer fst snd] in *.
  specialize (Hready Hopen). cbn [fst] in Hready.
  destruct (network.conn N n) as [c |] eqn:Ec; [| contradiction].
  exists c. split; [reflexivity |]. cbn zeta.
  rewrite (network_Flush_open N n w' c buf enc wd Hopen Ec Hne).
  split; [reflexivity |].
  unfold handlers.RawPrintHandler, Raw, append.
  cbn [snd adapter buffer encoding width app set_buffer set_adapter].
  apply (network_Flush_open N n _ c data enc wd Hopen Ec Hdata).
Qed.

Lemma network_Flush_never_reconnects_witness :
  let N := session.down_once in
  let s := session.exec_all (network.Adapter N) [session.MOpen; session.MOpen]
             (network.NewNetworkAdapter N "printer.local" 9100, (0%nat, [])) in
  let p := Init (New (a := network.Adapter N) s) in
  snd (snd (adapter (snd (handlers.RawPrintHandler [0x0a] (snd (Flush p))))))
    = [[0x1b; 0x40]; [0x0a]]
  /\ fst (snd (adapter (snd (handlers.RawPrintHandler [0x0a] (snd (Flush p))))))
    = 2%nat.
Proof.
  cbn zeta.
  destruct (network_Flush_never_reconnects session.down_once
              "printer.local" 9100 (0%nat, [])
              [session.MOpen; session.MOpen]
              (Init (New (a := network.Adapter session.down_once)
                 (session.exec_all (network.Adapter session.down_once)
                    [session.MOpen; session.MOpen]
                    (network.NewNetworkAdapter session.down_once
                       "printer.local" 9100, (0%nat, []))))) [0x0a]
              eq_refl eq_refl ltac:(discriminate) ltac:(discriminate))
    as (c & _ & _ & Hnext).
  rewrite Hnext. destruct c. split; reflexivity.
Defined.

(** ** Escape sequences *)

Lemma bytes_0_255 (b : Z) :
  0 <= b < 256 -> In b (List.map Z.of_nat (seq 0 256)).
Proof.
  intros Hb. rewrite <- (Z2Nat.id b) by lia. apply in_map, in_seq. lia.
Qed.

Lemma parseHexByte_hex2 (upper : bool) (b : byte) :
  0 <= b < 256 -> gui.parseHexByte (gui.hex2 upper b) = (b, None).
Proof.
  intros Hb.
  assert (Hall : forallb
            (fun b => match gui.parseHexByte (gui.hex2 upper b) with
                      | (b', None) => b' =? b
                      | _ => false
                      end)
            (List.map Z.of_nat (seq 0 256)) = true)
    by (destruct upper; vm_compute; reflexivity).
  rewrite forallb_forall in Hall. specialize (Hall b (bytes_0_255 b Hb)).
  destruct (gui.parseHexByte (gui.hex2 upper b)) as [b' [err |]];
    [discriminate |].
  apply Z.eqb_eq in Hall. now subst.
Qed.

(** X17: parseHexByte reads back every byte from its two hexadecimal
    digits, in capitals or not, and returns an error, with byte 0, for two
    characters of which one is no hexadecimal digit. *)
Theorem parseHexByte_reads_hex (c1 c2 : ascii) :
  (forall b : byte, 0 <= b < 256 ->
     gui.parseHexByte (gui.hex2 true b) = (b, None)
     /\ gui.parseHexByte (gui.hex2 false b) = (b, None))
  /\ (gui.is_hex c1 && gui.is_hex c2 = false ->
      exists err : error,
        gui.parseHexByte (String c1 (String c2 EmptyString)) = (0, Some err))
  /\ (gui.is_hex c1 && gui.is_hex c2 = true ->
      exists b : byte,
        0 <= b < 256
        /\ gui.parseHexByte (String c1 (String c2 EmptyString)) = (b, None)).
Proof.
  split; [| split].
  - intros b Hb. split; now apply parseHexByte_hex2.
  - revert c1 c2.
    assert (Hall : forallb (fun n1 => forallb (fun n2 =>
              let c1 := ascii_of_nat n1 in
              let c2 := ascii_of_nat n2 in
              gui.is_hex c1 && gui.is_hex c2
              || match gui.parseHexByte (String c1 (String c2 EmptyString)) with
                 | (b, Some _) => b =? 0
                 | _ => false
                 end) (seq 0 256)) (seq 0 256) = true)
      by (vm_compute; reflexivity).
    intros c1 c2 Hnot. rewrite forallb_forall in Hall.
    specialize (Hall (nat_of_ascii c1)). rewrite forallb_forall in Hall.
    pose proof (nat_ascii_bounded c1). pose proof (nat_ascii_bounded c2).
    specialize (Hall ltac:(apply in_seq; lia) (nat_of_ascii c2)
                  ltac:(apply in_seq; lia)).
    cbn zeta in Hall. rewrite !ascii_nat_embedding, Hnot in Hall.
    destruct (gui.parseHexByte _) as [b [err |]]; [| discriminate].
    apply Z.eqb_eq in Hall. subst. eauto.
  - revert c1 c2.
    assert (Hall : forallb (fun n1 => forallb (fun n2 =>
              let c1 := ascii_of_nat n1 in
              let c2 := ascii_of_nat n2 in
              negb (gui.is_hex c1 && gui.is_hex c2)
              || match gui.parseHexByte (String c1 (String c2 EmptyString)) with
                 | (b, None) => (0 <=? b) && (b <? 256)
                 | _ => false
                 end) (seq 0 256)) (seq 0 256) = true)
      by (vm_compute; reflexivity).
    intros c1 c2 Hhex. rewrite forallb_forall in Hall.
    specialize (Hall (nat_of_ascii c1)). rewrite forallb_forall in Hall.
    pose proof (nat_ascii_bounded c1). pose proof (nat_ascii_bounded c2).
    specialize (Hall ltac:(apply in_seq; lia) (nat_of_ascii c2)
                  ltac:(apply in_seq; lia)).
    cbn zeta in Hall. rewrite !ascii_nat_embedding, Hhex in Hall.
    destruct (gui.parseHexByte _) as [b [err |]]; [discriminate |].
    exists b. split; [lia | reflexivity].
Qed.

Lemma parseHexByte_reads_hex_witness :
  gui.parseHexByte "1B" = (0x1b, None)
  /\ gui.parseHexByte "1b" = (0x1b, None)
  /\ exists err, gui.parseHexByte "1G" = (0, Some err).
Proof.
  destruct (parseHexByte_reads_hex "1" "G") as (Hback & Hbad & _).
  destruct (Hback 0x1b ltac:(lia)) as [Hup Hlow].
  split; [exact Hup |]. split; [exact Hlow |].
  apply Hbad. reflexivity.
Defined.

(** X18: a list of bytes written as escapes, each byte as a backslash, an
    x and its two hexadecimal digits, in capitals or not, is read back by
    parseEscapeSequences byte for byte. *)
Theorem parseEscapeSequences_reads_escapes (upper : bool) (bs : list byte) :
  calls.is_bytes bs ->
  gui.parseEscapeSequences (gui.escape upper bs) = bs.
Proof.
  intros Hbs. induction Hbs as [| b bs Hb _ IH]; [reflexivity |].
  cbn [gui.escape]. unfold gui.hex2 at 1. cbn [String.append].
  cbn [gui.parseEscapeSequences].
  change (Ascii.eqb "\" "\") with true.
  change (Ascii.eqb "x" "x" || Ascii.eqb "x" "X") with true. cbv iota.
  change (String (gui.hex_digit upper (b / 16))
            (String (gui.hex_digit upper (b mod 16)) EmptyString))
    with (gui.hex2 upper b).
  rewrite parseHexByte_hex2 by exact Hb. now rewrite IH.
Qed.

Lemma parseEscapeSequences_reads_escapes_witness :
  gui.escape true [0x1b; 0x40; 0xff] = "\x1B\x40\xFF"
  /\ gui.parseEscapeSequences "\x1B\x40\xFF" = [0x1b; 0x40; 0xff].
Proof.
  split; [reflexivity |].
  apply (parseEscapeSequences_reads_escapes true [0x1b; 0x40; 0xff]).
  repeat constructor; lia.
Defined.

Lemma length_parseEscapeSequences (n : nat) :
  forall s : string,
    (String.length s <= n)%nat ->
    (List.length (gui.parseEscapeSequences s) <= String.length s)%nat.
Proof.
  induction n as [| n IH]; intros s Hn.
  - destruct s; [cbn; lia | cbn in Hn; lia].
  - destruct s as [| c rest]; [cbn; lia |].
    cbn [String.length] in Hn.
    assert (Hlit : (List.length (byte_of_ascii c :: gui.parseEscapeSequences rest)
                     <= String.length (String c rest))%nat).
    { cbn [List.length String.length]. specialize (IH rest ltac:(lia)). lia. }
    cbn [gui.parseEscapeSequences]. cbv zeta.
    destruct (Ascii.eqb c "\"); [| exact Hlit].
    destruct rest as [| e rest1]; [exact Hlit |].
    cbn [String.length] in Hn.
    assert (Hskip : forall b,
              (List.length (b :: gui.parseEscapeSequences rest1)
                <= String.length (String c (String e rest1)))%nat).
    { intros b. cbn [List.length String.length].
      specialize (IH rest1 ltac:(lia)). lia. }
    destruct (Ascii.eqb e "x" || Ascii.eqb e "X").
    + destruct rest1 as [| h1 [| h2 rest2]]; try exact Hlit.
      destruct (gui.parseHexByte _) as [b [err |]]; [exact Hlit |].
      cbn [List.length String.length] in *.
      specialize (IH rest2 ltac:(lia)). lia.
    + repeat match goal with
      | |- context [if ?b then _ else _] => destruct b
      end; first [apply Hskip | exact Hlit].
Qed.

(** X19: parseEscapeSequences never returns more bytes than the string
    has, and a string without a backslash comes back as its own bytes; so
    does a string that is one backslash. *)
Theorem parseEscapeSequences_plain_text (s : string) :
  Z.of_nat (List.length (gui.parseEscapeSequences s)) <= Z.of_nat (String.length s)
  /\ (gui.no_backslash s -> gui.parseEscapeSequences s = bytes s)
  /\ gui.parseEscapeSequences "\" = [0x5c].
Proof.
  split; [| split].
  - pose proof (length_parseEscapeSequences (String.length s) s (le_n _)). lia.
  - induction s as [| c rest IH]; [reflexivity |].
    intros [Hc Hrest]. cbn [gui.parseEscapeSequences]. cbv zeta.
    destruct (Ascii.eqb_spec c "\"); [contradiction |].
    rewrite IH by exact Hrest. reflexivity.
  - reflexivity.
Qed.

Lemma parseEscapeSequences_plain_text_witness :
  gui.parseEscapeSequences "TOTAL: 12,50" = bytes "TOTAL: 12,50".
Proof.
  apply (parseEscapeSequences_plain_text "TOTAL: 12,50").
  cbn. repeat split; discriminate.
Defined.

(** ** Version numbers *)

Section Compare.

Import update.

(** The part at an index, zero past the end, is what [nth] gives. *)
Lemma part_nth (i : Z) (parts : list Z) :
  0 <= i ->
  (if i <? len parts then nth (Z.to_nat i) parts 0 else 0)
    = nth (Z.to_nat i) parts 0.
Proof.
  intros Hi. unfold len. destruct (Z.ltb_spec i (Z.of_nat (List.length parts)));
    [reflexivity |].
  symmetry. apply nth_overflow. lia.
Qed.

Lemma compare_from_step (fuel : nat) (k : nat) (l1 l2 : list Z) :
  compare_from (S fuel) (Z.of_nat k) l1 l2 =
    if nth k l1 0 <? nth k l2 0 then -1
    else if nth k l2 0 <? nth k l1 0 then 1
    else compare_from fuel (Z.of_nat (S k)) l1 l2.
Proof.
  cbn [compare_from]. cbv zeta. rewrite !part_nth by lia.
  rewrite Nat2Z.id, Z.gtb_ltb. now replace (Z.of_nat k + 1) with (Z.of_nat (S k)) by lia.
Qed.

Lemma compare_from_values (fuel : nat) (k : nat) (l1 l2 : list Z) :
  compare_from fuel (Z.of_nat k) l1 l2 = -1
  \/ compare_from fuel (Z.of_nat k) l1 l2 = 0
  \/ compare_from fuel (Z.of_nat k) l1 l2 = 1.
Proof.
  revert k. induction fuel as [| fuel IH]; intros k; [cbn; auto |].
  rewrite compare_from_step.
  destruct (_ <? _); [auto |]. destruct (_ <? _); [auto |]. apply IH.
Qed.

Lemma compare_from_antisym (fuel : nat) (k : nat) (l1 l2 : list Z) :
  compare_from fuel (Z.of_nat k) l2 l1 = - compare_from fuel (Z.of_nat k) l1 l2.
Proof.
  revert k. induction fuel as [| fuel IH]; intros k; [reflexivity |].
  rewrite !compare_from_step.
  destruct (Z.ltb_spec (nth k l1 0) (nth k l2 0)),
           (Z.ltb_spec (nth k l2 0) (nth k l1 0)); try lia; try reflexivity.
  apply IH.
Qed.

Lemma compare_from_refl (fuel : nat) (k : nat) (l : list Z) :
  compare_from fuel (Z.of_nat k) l l = 0.
Proof.
  revert k. induction fuel as [| fuel IH]; intros k; [reflexivity |].
  rewrite compare_from_step, Z.ltb_irrefl. apply IH.
Qed.

Lemma compare_from_beyond (fuel : nat) (k : nat) (l1 l2 : list Z) :
  (List.length l1 <= k)%nat -> (List.length l2 <= k)%nat ->
  compare_from fuel (Z.of_nat k) l1 l2 = 0.
Proof.
  revert k. induction fuel as [| fuel IH]; intros k H1 H2; [reflexivity |].
  rewrite compare_from_step, !nth_overflow by lia. rewrite Z.ltb_irrefl.
  apply IH; lia.
Qed.

(** Rounds past the end of both lists change nothing. *)
Lemma compare_from_more_fuel (fuel extra : nat) (k : nat) (l1 l2 : list Z) :
  (List.length l1 <= k + fuel)%nat -> (List.length l2 <= k + fuel)%nat ->
  compare_from (fuel + extra) (Z.of_nat k) l1 l2
    = compare_from fuel (Z.of_nat k) l1 l2.
Proof.
  revert k. induction fuel as [| fuel IH]; intros k H1 H2.
  - cbn [Nat.add compare_from]. apply compare_from_beyond; lia.
  - cbn [Nat.add]. rewrite !compare_from_step.
    destruct (_ <? _); [reflexivity |]. destruct (_ <? _); [reflexivity |].
    apply IH; lia.
Qed.

Lemma compare_from_trans (fuel : nat) (k : nat) (a b c : list Z) :
  compare_from fuel (Z.of_nat k) a b <= 0 ->
  compare_from fuel (Z.of_nat k) b c <= 0 ->
  compare_from fuel (Z.of_nat k) a c <= 0.
Proof.
  revert k. induction fuel as [| fuel IH]; intros k; [cbn; lia |].
  rewrite !compare_from_step.
  destruct (Z.ltb_spec (nth k a 0) (nth k b 0)),
           (Z.ltb_spec (nth k b 0) (nth k a 0)),
           (Z.ltb_spec (nth k b 0) (nth k c 0)),
           (Z.ltb_spec (nth k c 0) (nth k b 0)),
           (Z.ltb_spec (nth k a 0) (nth k c 0)),
           (Z.ltb_spec (nth k c 0) (nth k a 0)); try lia.
  apply IH.
Qed.

(** [CompareVersions] with any number of rounds that covers both lists. *)
Lemma CompareVersions_fuel (v1 v2 : string) (fuel : nat) :
  (List.length (parseVersion v1) <= fuel)%nat ->
  (List.length (parseVersion v2) <= fuel)%nat ->
  CompareVersions v1 v2
    = compare_from fuel 0 (parseVersion v1) (parseVersion v2).
Proof.
  intros H1 H2. unfold CompareVersions. cbv zeta.
  set (l1 := parseVersion v1) in *. set (l2 := parseVersion v2) in *.
  set (m := Z.to_nat (if len l2 >? len l1 then len l2 else len l1)).
  assert (Hm1 : (List.length l1 <= m)%nat /\ (List.length l2 <= m)%nat).
  { subst m. unfold len. rewrite Z.gtb_ltb.
    destruct (Z.ltb_spec (Z.of_nat (List.length l1)) (Z.of_nat (List.length l2))); lia. }
  assert (Hm2 : (m <= fuel)%nat).
  { subst m. unfold len. rewrite Z.gtb_ltb.
    destruct (Z.ltb_spec (Z.of_nat (List.length l1)) (Z.of_nat (List.length l2))); lia. }
  replace fuel with (m + (fuel - m))%nat by lia.
  symmetry. apply (compare_from_more_fuel m (fuel - m) 0); cbn; lia.
Qed.

End Compare.

(** X20: CompareVersions is a comparison: it returns -1, 0 or 1, a version
    compares equal to itself, and swapping the two versions negates the
    result. *)
Theorem CompareVersions_is_a_comparison (v1 v2 : string) :
  (update.CompareVersions v1 v2 = -1 \/ update.CompareVersions v1 v2 = 0
   \/ update.CompareVersions v1 v2 = 1)
  /\ update.CompareVersions v1 v1 = 0
  /\ update.CompareVersions v2 v1 = - update.CompareVersions v1 v2.
Proof.
  set (fuel := Nat.max (List.length (update.parseVersion v1))
                       (List.length (update.parseVersion v2))).
  rewrite (CompareVersions_fuel v1 v2 fuel), (CompareVersions_fuel v2 v1 fuel),
    (CompareVersions_fuel v1 v1 fuel) by (subst fuel; lia).
  repeat split.
  - apply (compare_from_values fuel 0).
  - apply (compare_from_refl fuel 0).
  - apply (compare_from_antisym fuel 0).
Qed.

(** X21: the order of CompareVersions is transitive: when the first version
    is not above the second and the second not above the third, the first
    is not above the third. *)
Theorem CompareVersions_transitive (v1 v2 v3 : string) :
  update.CompareVersions v1 v2 <= 0 ->
  update.CompareVersions v2 v3 <= 0 ->
  update.CompareVersions v1 v3 <= 0.
Proof.
  set (fuel := Nat.max (List.length (update.parseVersion v1))
                 (Nat.max (List.length (update.parseVersion v2))
                          (List.length (update.parseVersion v3)))).
  rewrite (CompareVersions_fuel v1 v2 fuel), (CompareVersions_fuel v2 v3 fuel),
    (CompareVersions_fuel v1 v3 fuel) by (subst fuel; lia).
  apply (compare_from_trans fuel 0).
Qed.

Lemma CompareVersions_transitive_witness :
  update.CompareVersions "1.2.0" "v1.10" = -1
  /\ update.CompareVersions "v1.10" "2.0.1" = -1
  /\ update.CompareVersions "1.2.0" "2.0.1" <= 0.
Proof.
  assert (H1 : update.CompareVersions "1.2.0" "v1.10" = -1) by reflexivity.
  assert (H2 : update.CompareVersions "v1.10" "2.0.1" = -1) by reflexivity.
  split; [exact H1 |]. split; [exact H2 |].
  apply (CompareVersions_transitive "1.2.0" "v1.10" "2.0.1");
    [rewrite H1 | rewrite H2]; lia.
Defined.

Lemma digit_runs_trim (s : string) (c : ascii) :
  update.is_digit c = false ->
  update.digit_runs (update.TrimPrefix s c) = update.digit_runs s.
Proof.
  intros Hc. destruct s as [| c' rest]; [reflexivity |].
  unfold update.TrimPrefix. destruct (Ascii.eqb_spec c' c) as [-> |]; [| reflexivity].
  unfold update.digit_runs. cbn [update.digit_runs_from]. now rewrite Hc.
Qed.

(** Trimming the prefix does not change the numbers that are found. *)
Lemma parseVersion_runs (v : string) :
  update.parseVersion v = List.map update.Atoi (update.digit_runs v).
Proof.
  unfold update.parseVersion. cbv zeta.
  now rewrite !digit_runs_trim by reflexivity.
Qed.

Lemma digit_runs_dot_zero (cur : option string) (v : string) :
  update.digit_runs_from cur (v ++ ".0")
    = (update.digit_runs_from cur v ++ ["0"])%list.
Proof.
  revert cur. induction v as [| c v IH]; intros cur.
  - cbn. now destruct cur.
  - cbn [String.append update.digit_runs_from]. cbv zeta.
    destruct (update.is_digit c); [apply IH |].
    now rewrite IH, app_assoc.
Qed.

Lemma nth_app_zero (l : list Z) (k : nat) : nth k (l ++ [0]) 0 = nth k l 0.
Proof.
  destruct (Nat.lt_ge_cases k (List.length l)) as [Hlt | Hge].
  - now apply app_nth1.
  - rewrite app_nth2, (nth_overflow l) by lia.
    destruct (k - List.length l)%nat as [| [| j]]; reflexivity.
Qed.

Lemma compare_from_ext (fuel : nat) (k : nat) (l1 l1' l2 : list Z) :
  (forall j, nth j l1 0 = nth j l1' 0) ->
  update.compare_from fuel (Z.of_nat k) l1 l2
    = update.compare_from fuel (Z.of_nat k) l1' l2.
Proof.
  intros Hext. revert k. induction fuel as [| fuel IH]; intros k; [reflexivity |].
  rewrite !compare_from_step, Hext, IH. reflexivity.
Qed.

(** X22: CompareVersions reads the numbers of a version and nothing else:
    a leading v and a trailing .0 change no comparison. *)
Theorem CompareVersions_ignores_v_and_dot_zero (v w : string) :
  update.CompareVersions ("v" ++ v) w = update.CompareVersions v w
  /\ update.CompareVersions (v ++ ".0") w = update.CompareVersions v w.
Proof.
  assert (Hv : update.parseVersion ("v" ++ v) = update.parseVersion v).
  { rewrite !parseVersion_runs. reflexivity. }
  assert (Hz : update.parseVersion (v ++ ".0")
                 = (update.parseVersion v ++ [0])%list).
  { rewrite !parseVersion_runs. unfold update.digit_runs.
    rewrite digit_runs_dot_zero, map_app. reflexivity. }
  split.
  - unfold update.CompareVersions. now rewrite Hv.
  - set (fuel := S (Nat.max (List.length (update.parseVersion v))
                            (List.length (update.parseVersion w)))).
    rewrite (CompareVersions_fuel (v ++ ".0") w fuel),
      (CompareVersions_fuel v w fuel);
      try (subst fuel; rewrite ?Hz, ?length_app; cbn [List.length]; lia).
    rewrite Hz. apply (compare_from_ext fuel 0). apply nth_app_zero.
Qed.

(** ** Discovery *)

(** X23: FindPrinters never fails.  On Windows it returns what the spooler
    enumeration found followed by what the USB enumeration found, a source
    that failed contributing nothing and not keeping the other from being
    asked; elsewhere it returns what the USB enumeration found.  Every entry
    that comes from a USB enumeration is tagged USB. *)
Theorem FindPrinters_partial_results (W : Type) (GOOS : string)
    (FindWindowsPrinters : W -> (list adapter.PrinterInfo * option error) * W)
    (FindAllUSBDevices : W -> (list discovery.USBDeviceInfo * option error) * W)
    (FindUSBPrinters : W -> (list adapter.PrinterInfo * option error) * W)
    (log : discovery.Log) (w : W) :
  let rw := FindWindowsPrinters w in
  let ra := FindAllUSBDevices (snd rw) in
  let ru := FindUSBPrinters w in
  let r := discovery.FindPrinters W GOOS FindWindowsPrinters FindAllUSBDevices
             FindUSBPrinters (log, w) in
  snd (fst r) = None
  /\ (GOOS = "windows" ->
      fst (fst r) =
        (discovery.found (fst rw)
           ++ List.map discovery.of_usb_device (discovery.found (fst ra)))%list
      /\ snd (snd r) = snd ra)
  /\ (GOOS <> "windows" ->
      fst (fst r) =
        List.map (discovery.set_DeviceType "USB") (discovery.found (fst ru))
      /\ snd (snd r) = snd ru)
  /\ (forall info : adapter.PrinterInfo,
        In info (fst (fst r)) ->
        In info (discovery.found (fst rw))
        \/ adapter.DeviceType info = "USB").
Proof.
  cbn zeta.
  cbv [discovery.FindPrinters discovery.found bind ret call update fst snd].
  destruct (String.eqb_spec GOOS "windows") as [Hwin | Hother].
  - destruct (FindWindowsPrinters w) as [[winPrinters [errw |]] w1];
      cbn [fst snd app];
      destruct (FindAllUSBDevices w1) as [[usbDevices [erra |]] w2];
      cbn [fst snd app List.map]; rewrite ?app_nil_r;
      (split; [reflexivity |]); (split; [intros _; split; reflexivity |]);
      (split; [intros Hno; contradiction |]);
      intros info Hin; rewrite ?in_app_iff, ?in_map_iff in Hin;
      try contradiction; try (left; exact Hin).
    + destruct Hin as (dev & <- & _). right. reflexivity.
    + destruct Hin as [Hin | (dev & <- & _)]; [left; exact Hin | right; reflexivity].
  - destruct (FindUSBPrinters w) as [[usbPrinters [erru |]] w1];
      cbn [fst snd app List.map];
      (split; [reflexivity |]); (split; [intros Hyes; contradiction |]);
      (split; [intros _; split; reflexivity |]);
      intros info Hin; try contradiction.
    rewrite in_map_iff in Hin. destruct Hin as (i & <- & _). right. reflexivity.
Qed.

Lemma FindPrinters_partial_results_witness :
  let spooler_down (w : unit) :=
    (([] : list adapter.PrinterInfo, Some (Errorf "EnumPrintersW failed: %v" [])), w) in
  let usb (w : unit) :=
    (([ {| discovery.VendorID := 0x04b8; discovery.ProductID := 0x0e15;
           discovery.Description := "TM-T20II"; discovery.Manufacturer := "EPSON";
           discovery.DeviceClass := "USB Printing Support";
           discovery.InstanceID := "USB\VID_04B8&PID_0E15\1";
           discovery.IsPrinter := true |} ], None), w) in
  let none (w : unit) := (([] : list adapter.PrinterInfo, None), w) in
  fst (discovery.FindPrinters unit "windows" spooler_down usb none ([], tt))
    = ([ {| adapter.VendorID := 0x04b8; adapter.ProductID := 0x0e15;
            adapter.Manufacturer := "EPSON"; adapter.Product := "TM-T20II";
            adapter.IsPrinter := true; adapter.DeviceType := "USB" |} ], None).
Proof.
  cbn zeta.
  match goal with
  | |- fst (discovery.FindPrinters unit "windows" ?fw ?fa ?fu _) = _ =>
      destruct (FindPrinters_partial_results unit "windows" fw fa fu [] tt)
        as (Herr & Hwin & _)
  end.
  destruct (Hwin eq_refl) as [Hlist _].
  destruct (fst (discovery.FindPrinters _ _ _ _ _ _)) as [printers err].
  cbn [fst snd] in Hlist, Herr. rewrite Hlist, Herr. reflexivity.
Defined.

Lemma hex_value_hex_digit (d : Z) :
  0 <= d < 16 -> discovery.hex_value (gui.hex_digit true d) = Some d.
Proof.
  intros Hd.
  assert (Hall : forallb
            (fun n => match discovery.hex_value (gui.hex_digit true (Z.of_nat n)) with
                      | Some d' => d' =? Z.of_nat n
                      | None => false
                      end) (seq 0 16) = true) by reflexivity.
  rewrite forallb_forall in Hall.
  specialize (Hall (Z.to_nat d) ltac:(apply in_seq; lia)).
  rewrite Z2Nat.id in Hall by lia.
  destruct (discovery.hex_value _); [| discriminate].
  apply Z.eqb_eq in Hall. now rewrite Hall.
Qed.

Lemma parse16_to_hex4 (v : Z) (rest : string) :
  0 <= v < 65536 ->
  discovery.hex4 (discovery.to_hex4 v ++ rest) = Some (v, rest).
Proof.
  intros Hv.
  assert (Hh : 0 <= v / 256 < 256)
    by (split; [apply Z.div_pos | apply Z.div_lt_upper_bound]; lia).
  assert (Hl : 0 <= v mod 256 < 256) by (apply Z.mod_pos_bound; lia).
  unfold discovery.to_hex4, gui.hex2. cbn [String.append].
  unfold discovery.hex4.
  rewrite !hex_value_hex_digit;
    try (apply Z.mod_pos_bound; lia);
    try (split; [apply Z.div_pos | apply Z.div_lt_upper_bound]; lia).
  f_equal. f_equal.
  pose proof (Z.div_mod v 256 ltac:(lia)).
  pose proof (Z.div_mod (v / 256) 16 ltac:(lia)).
  pose proof (Z.div_mod (v mod 256) 16 ltac:(lia)).
  lia.
Qed.

Lemma find_match_skips (pre s : string) :
  discovery.no_V pre ->
  discovery.find_match (pre ++ s) = discovery.find_match s.
Proof.
  induction pre as [| c pre IH]; intros Hpre; [reflexivity |].
  destruct Hpre as [Hc Hpre]. cbn [String.append discovery.find_match].
  unfold discovery.match_here at 1. cbn [discovery.strip].
  destruct (Ascii.eqb_spec "V" c) as [<- |]; [contradiction |].
  now apply IH.
Qed.

(** X24: parseVIDPID reads the vendor and product identifiers back from an
    instance ID in which they are written in four capital hexadecimal
    digits each, whatever follows and whatever precedes that has no letter
    V; on a string without the letter V it returns zero for both. *)
Theorem parseVIDPID_reads_identifiers (pre post : string) (vid pid : Z) :
  discovery.no_V pre ->
  (0 <= vid < 65536 -> 0 <= pid < 65536 ->
   discovery.parseVIDPID
     (pre ++ "VID_" ++ discovery.to_hex4 vid ++ "&PID_"
        ++ discovery.to_hex4 pid ++ post) = (vid, pid))
  /\ discovery.parseVIDPID pre = (0, 0).
Proof.
  intros Hpre. split.
  - intros Hvid Hpid. unfold discovery.parseVIDPID.
    rewrite find_match_skips by exact Hpre.
    assert (Hhere : discovery.match_here
              ("VID_" ++ discovery.to_hex4 vid ++ "&PID_"
                 ++ discovery.to_hex4 pid ++ post) = Some (vid, pid)).
    { unfold discovery.match_here.
      change (discovery.strip "VID_" ("VID_" ++ ?s)) with (Some s).
      cbn [discovery.strip String.append Ascii.eqb Bool.eqb].
      rewrite parse16_to_hex4 by exact Hvid.
      cbn [discovery.strip String.append Ascii.eqb Bool.eqb].
      rewrite parse16_to_hex4 by exact Hpid. reflexivity. }
    destruct (discovery.to_hex4 vid) eqn:E;
      cbn [String.append discovery.find_match] in *; rewrite Hhere;
      rewrite !Z.mod_small by lia; reflexivity.
  - unfold discovery.parseVIDPID.
    replace pre with (pre ++ EmptyString).
    + rewrite find_match_skips by exact Hpre. reflexivity.
    + clear. induction pre as [| c pre IH]; cbn; [reflexivity | now rewrite IH].
Qed.

Lemma parseVIDPID_reads_identifiers_witness :
  discovery.parseVIDPID "USB\VID_04B8&PID_0E15\5&2b1c3a" = (0x04b8, 0x0e15)
  /\ discovery.parseVIDPID "USB\ROOT_HUB30" = (0, 0).
Proof.
  destruct (parseVIDPID_reads_identifiers "USB\" "\5&2b1c3a" 0x04b8 0x0e15)
    as [Hread _]; [cbn; repeat split; discriminate |].
  destruct (parseVIDPID_reads_identifiers "USB\ROOT_HUB30" EmptyString 0 0)
    as [_ Hnone]; [cbn; repeat split; discriminate |].
  split; [apply Hread; lia | exact Hnone].
Defined.

(** ** Logos as raster images *)

Section Raster.

Import templates.

Lemma length_or_at (data : list byte) (i : nat) (m : byte) :
  List.length (or_at data i m) = List.length data.
Proof.
  revert i. induction data as [| b data IH]; intros [| i]; cbn; auto.
Qed.

Lemma nth_or_at (data : list byte) (i j : nat) (m : byte) :
  nth j (or_at data i m) 0 =
    if (j =? i)%nat && (i <? List.length data)%nat
    then Z.lor (nth j data 0) m else nth j data 0.
Proof.
  revert i j. induction data as [| b data IH]; intros i j.
  - cbn. destruct j, i; cbn; try reflexivity; now rewrite ?andb_false_r.
  - destruct i as [| i], j as [| j]; cbn [or_at nth]; try reflexivity.
    rewrite IH. reflexivity.
Qed.

Lemma loops_as_points (img : Image) (widthBytes width height : Z)
    (data : list byte) :
  for_range height (fun y data =>
    for_range width (fun x data =>
      if dark img x y then
        or_at data (Z.to_nat (y * widthBytes + Go.div x 8))
          (to_byte (Z.shiftl 1 (7 - Go.rem x 8)))
      else data) data) data
  = fold_left (paint img widthBytes) (points width height) data.
Proof.
  unfold for_range, points. revert data.
  induction (seq 0 (Z.to_nat height)) as [| y ys IH]; intros data; [reflexivity |].
  cbn [fold_left flat_map]. rewrite fold_left_app, IH. f_equal.
  generalize (seq 0 (Z.to_nat width)). intros xs. revert data.
  induction xs as [| x xs IHx]; intros data; [reflexivity |].
  cbn [fold_left List.map]. apply IHx.
Qed.

Lemma in_points (width height x y : Z) :
  In (x, y) (points width height) <-> 0 <= x < width /\ 0 <= y < height.
Proof.
  unfold points. rewrite in_flat_map. split.
  - intros (j & Hj & Hin). apply in_map_iff in Hin.
    destruct Hin as (i & Heq & Hi). injection Heq as <- <-.
    apply in_seq in Hj, Hi. lia.
  - intros [Hx Hy]. exists (Z.to_nat y). split; [apply in_seq; lia |].
    apply in_map_iff. exists (Z.to_nat x). split; [| apply in_seq; lia].
    now rewrite !Z2Nat.id by lia.
Qed.

Lemma length_paint_all (img : Image) (wb : Z) (ps : list (Z * Z))
    (data : list byte) :
  List.length (fold_left (paint img wb) ps data) = List.length data.
Proof.
  revert data. induction ps as [| [x y] ps IH]; intros data; [reflexivity |].
  cbn [fold_left]. rewrite IH. unfold paint.
  destruct (dark img x y); [apply length_or_at | reflexivity].
Qed.

Lemma testbit_mask (b k : Z) :
  0 <= b < 8 -> 0 <= k ->
  Z.testbit (to_byte (Z.shiftl 1 b)) k = (k =? b).
Proof.
  intros Hb Hk. rewrite Z.shiftl_mul_pow2, Z.mul_1_l by lia.
  rewrite to_byte_small.
  - destruct (Z.eqb_spec k b) as [-> |].
    + apply Z.pow2_bits_true. lia.
    + apply Z.pow2_bits_false. lia.
  - split; [apply Z.pow_nonneg; lia |].
    change 256 with (2 ^ 8). apply Z.pow_lt_mono_r; lia.
Qed.

(** A bit of the raster is set when it was set before or when a dark point
    of the list lands on it. *)
Lemma bit_after_painting (img : Image) (wb : Z) (ps : list (Z * Z))
    (data : list byte) (j : nat) (k : Z) :
  0 <= k ->
  (forall x y, In (x, y) ps ->
     0 <= x /\ (Z.to_nat (y * wb + x / 8) < List.length data)%nat) ->
  Z.testbit (nth j (fold_left (paint img wb) ps data) 0) k
    = Z.testbit (nth j data 0) k
      || existsb (fun p : Z * Z =>
                    let (x, y) := p in
                    dark img x y
                    && (Z.to_nat (y * wb + x / 8) =? j)%nat
                    && (k =? 7 - x mod 8)) ps.
Proof.
  intros Hk. revert data.
  induction ps as [| [x y] ps IH]; intros data Hin.
  - cbn. now rewrite orb_false_r.
  - cbn [fold_left existsb]. rewrite IH.
    2:{ intros x' y' H'. specialize (Hin x' y' (or_intror H')).
        unfold paint. destruct (dark img x y); [rewrite length_or_at |]; exact Hin. }
    specialize (Hin x y (or_introl eq_refl)). destruct Hin as [Hx Hidx].
    unfold paint. unfold Go.div, Go.rem.
    rewrite Z.quot_div_nonneg, Z.rem_mod_nonneg by lia.
    destruct (dark img x y); cbn [andb]; [| now rewrite orb_false_l].
    rewrite nth_or_at.
    apply Nat.ltb_lt in Hidx. rewrite Hidx, andb_true_r.
    rewrite (Nat.eqb_sym j).
    destruct (Nat.eqb_spec (Z.to_nat (y * wb + x / 8)) j) as [Hj | Hj];
      cbn [andb]; [| now rewrite orb_false_l].
    rewrite Z.lor_spec, testbit_mask; [| | exact Hk].
    + now rewrite orb_assoc.
    + pose proof (Z.mod_pos_bound x 8 ltac:(lia)). lia.
Qed.


Lemma nth_zeros (n j : nat) : nth j (repeat 0 n) 0 = 0.
Proof.
  destruct (Nat.lt_ge_cases j n).
  - now apply nth_repeat_lt.
  - apply nth_overflow. now rewrite repeat_length.
Qed.

(** Two points of an image land on the same bit only when they are the same
    point. *)
Lemma same_bit_same_point (wb x y x0 y0 : Z) :
  0 < wb -> 0 <= x < 8 * wb -> 0 <= x0 < 8 * wb -> 0 <= y -> 0 <= y0 ->
  Z.to_nat (y * wb + x / 8) = Z.to_nat (y0 * wb + x0 / 8) ->
  7 - x0 mod 8 = 7 - x mod 8 ->
  x = x0 /\ y = y0.
Proof.
  intros Hwb Hx Hx0 Hy Hy0 Hidx Hbit.
  assert (Hq : 0 <= x / 8 < wb)
    by (split; [apply Z.div_pos; lia | apply Z.div_lt_upper_bound; lia]).
  assert (Hq0 : 0 <= x0 / 8 < wb)
    by (split; [apply Z.div_pos; lia | apply Z.div_lt_upper_bound; lia]).
  assert (Hsame : y * wb + x / 8 = y0 * wb + x0 / 8) by nia.
  assert (Hy' : y = y0).
  { rewrite (Z.div_unique (y * wb + x / 8) wb y (x / 8)) by (try lia; left; lia).
    rewrite Hsame.
    symmetry. apply (Z.div_unique (y0 * wb + x0 / 8) wb y0 (x0 / 8)); try lia. }
  subst y0. split; [| reflexivity].
  pose proof (Z.div_mod x 8 ltac:(lia)). pose proof (Z.div_mod x0 8 ltac:(lia)).
  lia.
Qed.

(** The raster of an image, bit by bit. *)
Lemma ImageToRaster_raster (img : Image) :
  MinX img <= MaxX img ->
  MinY img <= MaxY img ->
  let width := MaxX img - MinX img in
  let height := MaxY img - MinY img in
  let '(data, widthBytes, h) := ImageToRaster img in
  widthBytes = (width + 7) / 8
  /\ h = height
  /\ len data = widthBytes * height
  /\ forall x y : Z,
       0 <= y < height -> 0 <= x < 8 * widthBytes ->
       raster_bit data widthBytes x y = (x <? width) && dark img x y.
Proof.
  intros HX HY. cbn zeta. unfold ImageToRaster. cbv zeta.
  set (width := MaxX img - MinX img). set (height := MaxY img - MinY img).
  assert (Hwb : Go.div (width + 7) 8 = (width + 7) / 8)
    by (unfold Go.div; apply Z.quot_div_nonneg; subst width; lia).
  rewrite !Hwb. set (wb := (width + 7) / 8).
  assert (Hwb0 : 0 <= wb) by (apply Z.div_pos; subst width; lia).
  assert (Hcover : width <= 8 * wb).
  { subst wb. pose proof (Z.div_mod (width + 7) 8 ltac:(lia)).
    pose proof (Z.mod_pos_bound (width + 7) 8 ltac:(lia)). lia. }
  rewrite loops_as_points.
  split; [reflexivity |]. split; [reflexivity |]. split.
  { unfold len. rewrite length_paint_all, repeat_length. subst height. nia. }
  intros x y Hy Hx. unfold raster_bit.
  assert (Hwbpos : 0 < wb) by lia.
  assert (Hin : forall x' y', In (x', y') (points width height) ->
            0 <= x' /\
            (Z.to_nat (y' * wb + x' / 8)
               < List.length (repeat 0%Z (Z.to_nat (wb * height))))%nat).
  { intros x' y' H'. apply in_points in H'. destruct H' as [Hx' Hy'].
    split; [lia |]. rewrite repeat_length.
    assert (0 <= x' / 8 < wb)
      by (split; [apply Z.div_pos; lia | apply Z.div_lt_upper_bound; lia]).
    nia. }
  pose proof (Z.mod_pos_bound x 8 ltac:(lia)) as Hmod.
  rewrite (bit_after_painting img wb (points width height)
             (repeat 0 (Z.to_nat (wb * height))) _
             (7 - x mod 8) ltac:(lia) Hin).
  rewrite nth_zeros, Z.bits_0, orb_false_l.
  apply Bool.eq_iff_eq_true. rewrite existsb_exists, andb_true_iff, Z.ltb_lt.
  split.
  - intros ([x' y'] & Hp & Hf). apply in_points in Hp. destruct Hp as [Hx' Hy'].
    apply andb_true_iff in Hf. destruct Hf as [Hf Hbit].
    apply andb_true_iff in Hf. destruct Hf as [Hdark Hidx].
    apply Nat.eqb_eq in Hidx. apply Z.eqb_eq in Hbit.
    destruct (same_bit_same_point wb x' y' x y) as [-> ->]; try lia.
    split; [lia | exact Hdark].
  - intros [Hlt Hdark]. exists (x, y). split; [apply in_points; lia |].
    now rewrite Hdark, Nat.eqb_refl, Z.eqb_refl.
Qed.

(** X25: ImageToRaster packs an image of well-formed bounds into rows of
    (width+7)/8 bytes, one row per line of the image.  The bit of a point,
    the highest bit of a byte being the leftmost point, is set exactly when
    the point is dark, that is when its grey level is below 32768; the bits
    that pad a row to a whole byte are clear. *)
Theorem ImageToRaster_bits (img : Image) :
  MinX img <= MaxX img ->
  MinY img <= MaxY img ->
  let width := MaxX img - MinX img in
  let height := MaxY img - MinY img in
  let '(data, widthBytes, h) := ImageToRaster img in
  widthBytes = (width + 7) / 8
  /\ h = height
  /\ len data = widthBytes * height
  /\ forall x y : Z,
       0 <= y < height -> 0 <= x < 8 * widthBytes ->
       raster_bit data widthBytes x y = (x <? width) && dark img x y.
Proof. exact (ImageToRaster_raster img). Qed.

Lemma ImageToRaster_bits_witness :
  let img := {| MinX := 0; MinY := 0; MaxX := 10; MaxY := 2;
                RGBA := fun x y =>
                  if Z.even (x + y) then (0, 0, 0)
                  else (0xffff, 0xffff, 0xffff) |} in
  ImageToRaster img = ([0xaa; 0x80; 0x55; 0x40], 2, 2)
  /\ raster_bit [0xaa; 0x80; 0x55; 0x40] 2 9 1 = true
  /\ raster_bit [0xaa; 0x80; 0x55; 0x40] 2 12 1 = false.
Proof.
  cbn zeta.
  match goal with
  | |- ImageToRaster ?i = _ /\ _ =>
      pose proof (ImageToRaster_bits i ltac:(cbn; lia) ltac:(cbn; lia)) as H;
      assert (E : ImageToRaster i = ([0xaa; 0x80; 0x55; 0x40], 2, 2))
        by reflexivity
  end.
  cbn zeta in H. rewrite E in H. destruct H as (_ & _ & _ & Hbit).
  split; [exact E |].
  split; [rewrite (Hbit 9 1) | rewrite (Hbit 12 1)];
    first [reflexivity | cbn; lia].
Defined.

(** X26: the logo step of PrintTemplateOrder sends, for an image of
    well-formed bounds less than 65536 points high and less than 524281
    points wide, the centring command, the raster command with the width
    in bytes and the height each in two bytes, the raster and a line feed;
    the raster has exactly as many bytes as the two numbers of the command
    announce. *)
Theorem print_logo_announces_its_raster (a : adapter.Adapter)
    (p : Printer a) (img : Image) :
  MinX img <= MaxX img ->
  MinY img <= MaxY img ->
  MaxX img - MinX img < 524281 ->
  MaxY img - MinY img < 65536 ->
  exists (data : list byte) (xL xH yL yH : byte),
    fst (fst (ImageToRaster img)) = data
    /\ buffer (print_logo img p) =
         (buffer p ++ [0x1b; 0x61; 0x01]
            ++ [0x1d; 0x76; 0x30; 0x00; xL; xH; yL; yH] ++ data ++ [0x0a])%list
    /\ len data = (xL + 256 * xH) * (yL + 256 * yH).
Proof.
  intros HX HY Hw Hh.
  pose proof (ImageToRaster_raster img HX HY) as Hbits. cbn zeta in Hbits.
  unfold print_logo.
  destruct (ImageToRaster img) as [[data wb] h].
  destruct Hbits as (Hwb & Hheight & Hlen & _).
  assert (Hwbr : 0 <= wb < 65536).
  { subst wb. split; [apply Z.div_pos; lia |].
    apply Z.div_lt_upper_bound; lia. }
  assert (Hhr : 0 <= h < 65536) by lia.
  destruct (RasterImageCmd_low_high 0 wb h Hwbr Hhr)
    as (m & xL & xH & yL & yH & Hcmd & Hm & (_ & _ & HxW) & (_ & _ & HyH)).
  cbn in Hm. subst m.
  exists data, xL, xH, yL, yH. split; [reflexivity |]. split.
  - unfold printer.NewLine, printer.RasterImage, printer.Align. cbv zeta.
    cbn [one_of existsb String.eqb Ascii.eqb Bool.eqb orb].
    cbn [append buffer]. rewrite Hcmd, <- !app_assoc. reflexivity.
  - rewrite Hlen, HxW, HyH, Hheight. reflexivity.
Qed.

Lemma print_logo_announces_its_raster_witness :
  let img := {| MinX := 0; MinY := 0; MaxX := 10; MaxY := 2;
                RGBA := fun x y =>
                  if Z.even (x + y) then (0, 0, 0)
                  else (0xffff, 0xffff, 0xffff) |} in
  buffer (print_logo img (New (a := console.Adapter) quiet_console)) =
    [0x1b; 0x61; 0x01; 0x1d; 0x76; 0x30; 0x00; 2; 0; 2; 0;
     0xaa; 0x80; 0x55; 0x40; 0x0a].
Proof.
  cbn zeta.
  match goal with
  | |- buffer (print_logo ?i ?p) = _ =>
      destruct (print_logo_announces_its_raster console.Adapter p i
                  ltac:(cbn; lia) ltac:(cbn; lia) ltac:(cbn; lia)
                  ltac:(cbn; lia))
        as (data & xL & xH & yL & yH & Hdata & Hbuf & _)
  end.
  rewrite Hbuf. vm_compute in Hbuf.
  injection Hbuf as HxL HxH HyL HyH Hd. subst. reflexivity.
Defined.

End Raster.

(** ** Platform names *)

Lemma no_space_ReplaceAll (s : string) :
  templates.no_space (templates.ReplaceAll s " " "_").
Proof.
  induction s as [| c s IH]; cbn; [exact I |]. split; [| exact IH].
  destruct (Ascii.eqb_spec c " "); [discriminate | assumption].
Qed.

Lemma lookup_In {A : Type} (m : list (string * A)) (key : string) (v : A) :
  templates.lookup m key = Some v -> In (key, v) m.
Proof.
  unfold templates.lookup. destruct (List.find _ m) as [[k v'] |] eqn:E;
    [| discriminate].
  intros [= <-]. apply find_some in E. destruct E as [Hin Hk].
  apply String.eqb_eq in Hk. cbn in Hk. now subst.
Qed.

(** X27: NormalizePlatform never returns a name with a space, since
    spaces become underscores before the table of variations is read.  A
    template that GetTemplate finds is one of the four, filed under the
    normalized name.  A platform written yemek sepeti, in two words, is
    normalized to yemek_sepeti, for which there is no template: its entry
    in the table of variations, which has a space, is never reached. *)
Theorem NormalizePlatform_has_no_space (ToLower TrimSpace : string -> string)
    (platform : string) :
  let key := templates.NormalizePlatform ToLower TrimSpace platform in
  templates.no_space key
  /\ (forall tmpl : templates.Template,
        templates.GetTemplate ToLower TrimSpace platform = (tmpl, true) ->
        templates.ID tmpl = key
        /\ In key ["getir_yemek"; "yemeksepeti"; "trendyol_go"; "migros_yemek"])
  /\ (ToLower (TrimSpace platform) = "yemek sepeti" ->
      key = "yemek_sepeti"
      /\ templates.GetTemplate ToLower TrimSpace platform
           = (templates.no_template, false)).
Proof.
  cbn zeta. split; [| split].
  - unfold templates.NormalizePlatform. cbv zeta.
    destruct (templates.lookup templates.variations _) as [key |] eqn:E.
    + apply lookup_In in E. cbn in E.
      repeat (destruct E as [E | E];
              [injection E as _ <-; cbn; repeat split; discriminate |]).
      contradiction.
    + apply no_space_ReplaceAll.
  - intros tmpl Hfound. unfold templates.GetTemplate in Hfound.
    cbv zeta in Hfound.
    destruct (templates.lookup templates.PlatformTemplates _) as [t |] eqn:E;
      [| discriminate].
    injection Hfound as ->. apply lookup_In in E. cbn [templates.PlatformTemplates In] in E.
    repeat (destruct E as [E | E];
            [injection E as <- <-; cbn; tauto |]).
    contradiction.
  - intros Hname. unfold templates.GetTemplate, templates.NormalizePlatform.
    cbv zeta. rewrite Hname. split; reflexivity.
Qed.

Lemma NormalizePlatform_has_no_space_witness :
  templates.NormalizePlatform templates.ascii_lower (fun s => s) "Yemek Sepeti"
    = "yemek_sepeti"
  /\ templates.GetTemplate templates.ascii_lower (fun s => s) "Yemek Sepeti"
       = (templates.no_template, false)
  /\ templates.NormalizePlatform templates.ascii_lower (fun s => s) "Trendyol Go"
       = "trendyol_go".
Proof.
  destruct (NormalizePlatform_has_no_space templates.ascii_lower (fun s => s)
              "Yemek Sepeti") as (_ & _ & H).
  destruct (H eq_refl) as [Hkey Hnone].
  split; [exact Hkey |]. split; [exact Hnone | reflexivity].
Defined.
